(** * p-bot: the hand evaluator, the raise button and the betting engine

    A shallow embedding of [src/utils/handEvaluator.ts] and of the raise
    handler of [src/components/ActionButtons.tsx], and a model of the
    betting engine written from the specification, with the properties
    the specification states about them.

    JavaScript numbers are IEEE 754 doubles. The integers the code counts
    and compares are kept as [Z]. A strength is named by the decimal the
    program prints for it, a rational of [Q]: a decimal literal is kept
    as the source writes it, and [0.3 + v/100], [0.1 + v/200] are
    computed on doubles ([PrimFloat]) and named by [Number.decimal]. *)

From Stdlib Require Import Floats.
From Stdlib Require Import List ZArith QArith Qround Qabs String Ascii Bool Lia Permutation Sorted.
Import ListNotations.

Set Warnings "-inexact-float".

Local Open Scope Z_scope.

(** ** A small model of the JavaScript runtime the evaluator relies on *)
Module Js.

(** The outcome of a call: a value, or a thrown exception. *)
Inductive Error : Type :=
  | TypeError            (* a property read off [undefined] *)
  | InsufficientCards.   (* the error kind the specification names *)

Inductive completion (A : Type) : Type :=
  | Return (a : A)
  | Throw (e : Error).
Arguments Return {A} a.
Arguments Throw {A} e.

Definition bind {A B} (c : completion A) (k : A -> completion B) : completion B :=
  match c with
  | Return a => k a
  | Throw e => Throw e
  end.

(** [a || b] where [a] is an object or [null]: [b] is evaluated only
    when [a] is [null]. *)
Definition or_else {A} (a : completion (option A)) (b : completion A) : completion A :=
  bind a (fun r => match r with
                   | Some x => Return x
                   | None => b
                   end).

(** [n || 0] on a number that may be [undefined]. *)
Definition or_zero (n : option Z) : Z :=
  match n with
  | Some v => v
  | None => 0
  end.

(** A string is falsy exactly when it is empty. *)
Definition truthy (s : string) : bool :=
  match s with
  | EmptyString => false
  | String _ _ => true
  end.

(** [`${v}`] of a value that may be [undefined]. *)
Definition template (v : option string) : string :=
  match v with
  | Some s => s
  | None => "undefined"
  end.

(** [v || d] on a string that may be [undefined]. *)
Definition or_default (v : option string) (d : string) : string :=
  match v with
  | Some s => if truthy s then s else d
  | None => d
  end.

(** [Array.prototype.sort(cmp)]: a stable sort; [cmp a b <= 0] keeps [a]
    before [b]. Any stable sort gives the same array, insertion is the
    simplest to write. *)
Section Sort.
Context {A : Type} (cmp : A -> A -> Z).

Fixpoint insert (x : A) (l : list A) : list A :=
  match l with
  | [] => [x]
  | y :: l' => if cmp x y <=? 0 then x :: y :: l' else y :: insert x l'
  end.

Fixpoint sort (l : list A) : list A :=
  match l with
  | [] => []
  | x :: l' => insert x (sort l')
  end.
End Sort.

(** [arr.slice(0, n)] *)
Definition slice0 {A} (n : nat) (l : list A) : list A := firstn n l.

(** [[...new Set(l)]]: the distinct numbers in order of first occurrence. *)
Fixpoint unique (l : list Z) (seen : list Z) : list Z :=
  match l with
  | [] => []
  | x :: l' =>
      if existsb (Z.eqb x) seen then unique l' seen
      else x :: unique l' (x :: seen)
  end.

Definition includes (l : list Z) (x : Z) : bool := existsb (Z.eqb x) l.

(** *** Plain objects used as counters

    An object is the list of its own properties in insertion order. A
    property key is a string; the model keeps, with each key, the enum
    member [K] whose string it is ([key_string]), so that a key read back
    with [Object.keys] and cast [as Rank] is that member. Two members
    are the same key when their strings are equal. The keys of this
    development are enum strings; none names a property inherited from
    [Object.prototype], so a read finds own properties only. *)
Section Object.
Context {K V : Type} (key_string : K -> string).

Definition JsObject := list (K * V).

Fixpoint get (o : JsObject) (k : K) : option V :=
  match o with
  | [] => None
  | (k', v) :: o' =>
      if String.eqb (key_string k') (key_string k) then Some v else get o' k
  end.

(** [o[k] = v]: an existing property keeps its place, a new one goes last. *)
Fixpoint set (o : JsObject) (k : K) (v : V) : JsObject :=
  match o with
  | [] => [(k, v)]
  | (k', v') :: o' =>
      if String.eqb (key_string k') (key_string k) then (k', v) :: o'
      else (k', v') :: set o' k v
  end.

(** A key is an array index when it is the canonical decimal string of
    a number below 2^32 - 1. *)
Definition digit_of (c : ascii) : option N :=
  let n := N_of_ascii c in
  if ((48 <=? n) && (n <=? 57))%N then Some (n - 48)%N else None.

Fixpoint digits_value (s : string) (acc : N) : option N :=
  match s with
  | EmptyString => Some acc
  | String c s' =>
      match digit_of c with
      | Some d => digits_value s' (10 * acc + d)%N
      | None => None
      end
  end.

Definition array_index (s : string) : option N :=
  match s with
  | EmptyString => None
  | String c rest =>
      match digits_value s 0%N with
      | Some n =>
          if Ascii.eqb c "0" && truthy rest then None
          else if (n <? 2 ^ 32 - 1)%N then Some n else None
      | None => None
      end
  end.

Definition index_keys (ks : list K) : list (N * K) :=
  flat_map (fun k => match array_index (key_string k) with
                     | Some n => [(n, k)]
                     | None => []
                     end) ks.

Definition string_keys (ks : list K) : list K :=
  filter (fun k => match array_index (key_string k) with
                   | Some _ => false
                   | None => true
                   end) ks.

(** [Object.keys(o)]: array-index keys in ascending numeric order, then
    the other keys in insertion order. *)
Definition keys (o : JsObject) : list K :=
  let ks := map fst o in
  map snd (sort (fun a b => Z.of_N (fst a) - Z.of_N (fst b)) (index_keys ks))
  ++ string_keys ks.
End Object.

(** *** Numbers

    A number is a double. Arithmetic is the arithmetic of [PrimFloat]:
    a decimal literal is the double nearest to it, and [+] and [/] round
    to nearest, ties to even, as in the program. A result is handed on
    as the decimal [Number.prototype.toString] prints for it: of the
    decimals that read back as the same double, the one with the fewest
    significant digits, and the nearest to the double among those. It is
    written as a decimal literal is, [digits # 10^places]; a literal of
    the source, with its 15 digits at most, reads as a double that prints
    back as that literal. *)
Module Number.

(** The double of an integer; exact below [2^53]. *)
Definition of_Z (z : Z) : float :=
  if z <? 0 then PrimFloat.opp (PrimFloat.of_uint63 (Uint63.of_Z (- z)))
  else PrimFloat.of_uint63 (Uint63.of_Z z).

(** [n * 2^e] *)
Definition scaled (n e : Z) : Q :=
  if 0 <=? e then inject_Z (n * 2 ^ e) else n # Z.to_pos (2 ^ (- e)).

(** The exact value of a finite double. *)
Definition value (x : float) : Q :=
  match Prim2SF x with
  | S754_finite s m e => scaled (if s then Z.neg m else Z.pos m) e
  | _ => 0
  end.

Definition Qlt_bool (a b : Q) : bool := negb (Qle_bool b a).

(** The decimal [q] reads as the positive double [x]: it lies between
    the midpoints of [x] and its two neighbours, the midpoints included
    when the mantissa of [x] is even. The mantissa [m] is normalised, so
    the neighbour above is [(m + 1) * 2^e]. *)
Definition reads (q : Q) (x : float) : bool :=
  match Prim2SF x with
  | S754_finite false m e =>
      let lo := ((value (PrimFloat.next_down x) + value x) / 2)%Q in
      let hi := scaled (2 * Z.pos m + 1) (e - 1) in
      if Z.even (Z.pos m)
      then Qle_bool lo q && Qle_bool q hi
      else Qlt_bool lo q && Qlt_bool q hi
  | _ => false
  end.

(** [10^n] *)
Definition pow10 (n : Z) : Q :=
  if 0 <=? n then inject_Z (10 ^ n) else 1 # Z.to_pos (10 ^ (- n)).

(** The decimal with the digits of [s] and [j] decimal places. *)
Definition places (s j : Z) : Q :=
  if 0 <? j then s # Z.to_pos (10 ^ j) else inject_Z (s * 10 ^ (- j)).

(** The [n] with [10^(n-1) <= x < 10^n], for a positive double [x]:
    searched from an estimate by the binary logarithm that is never
    above it. *)
Definition magnitude (x : float) : Z :=
  match Prim2SF x with
  | S754_finite _ m e =>
      let f := (Z.log2 (Z.pos m) + e) * 30103 / 100000 in
      match find (fun n => Qlt_bool (value x) (pow10 n)) [f; f + 1; f + 2] with
      | Some n => n
      | None => f + 3
      end
  | _ => 0
  end.

(** The decimal of [k] significant digits that reads as the positive
    double [x], if there is one: the nearer to [x] of the two that
    enclose it, the one with the even last digit when they are as near. *)
Definition digits (x : float) (n k : Z) : option Q :=
  let v := value x in
  let j := k - n in
  let s := Qfloor (v * pow10 j) in
  let written (s : Z) := if s =? 10 ^ k then places 1 (j - k) else places s j in
  let below := written s in
  let above := written (s + 1) in
  match reads below x, reads above x with
  | true, true =>
      match (v - below ?= above - v)%Q with
      | Lt => Some below
      | Gt => Some above
      | Eq => Some (if Z.even s then below else above)
      end
  | true, false => Some below
  | false, true => Some above
  | false, false => None
  end.

Fixpoint shortest (x : float) (n : Z) (fuel : nat) (k : Z) : Q :=
  match fuel with
  | O => value x
  | S fuel =>
      match digits x n k with
      | Some q => q
      | None => shortest x n fuel (k + 1)
      end
  end.

(** The decimal printed for a finite double; 17 digits always read
    back. Infinities and NaN have no decimal; the evaluator produces
    neither. *)
Definition decimal (x : float) : Q :=
  match Prim2SF x with
  | S754_finite s _ _ =>
      let a := PrimFloat.abs x in
      let q := shortest a (magnitude a) 17 1 in
      if s then (- q)%Q else q
  | _ => 0
  end.

End Number.

End Js.

Import Js.

Notation "a ||> b" := (or_else a b) (at level 61, right associativity).

(** ** Cards

    [types/poker.ts] is not among the sources. The members of [Rank] are
    the thirteen keys of the table in [getRankValue]. *)
Inductive Rank : Type :=
  | TWO | THREE | FOUR | FIVE | SIX | SEVEN | EIGHT
  | NINE | TEN | JACK | QUEEN | KING | ACE.

(** Modelled from the spec: the [Suit] enum of [types/poker.ts]; the data
    model gives a card one of four suit values. *)
Inductive Suit : Type :=
  | HEARTS | DIAMONDS | CLUBS | SPADES.

Record Card : Type := { rank : Rank; suit : Suit }.

Definition card (r : Rank) (s : Suit) : Card := {| rank := r; suit := s |}.

(** What [types/poker.ts] would fix and the evaluator only uses: the
    string each enum member is at run time (its property key and its
    text in a template), the [value] property read off a rank (absent on
    a primitive string), and the order of [Object.values(Rank)]. Distinct
    members are distinct, non-empty strings. *)
Class PokerEnums : Type := {
  Rank_toString : Rank -> string;
  Suit_toString : Suit -> string;
  Rank_value : Rank -> option string;
  Rank_values : list Rank;
  Rank_toString_inj : forall a b, Rank_toString a = Rank_toString b -> a = b;
  Suit_toString_inj : forall a b, Suit_toString a = Suit_toString b -> a = b;
  Rank_toString_truthy : forall r, truthy (Rank_toString r) = true;
  Suit_toString_truthy : forall s, truthy (Suit_toString s) = true;
  Rank_values_all : forall r, In r Rank_values
}.

(** ** src/utils/handEvaluator.ts *)
Module HandEvaluator.

Record HandEvaluation : Type := {
  handType : string;
  handRank : Z;
  kickers : list Rank;
  description : string;
  strength : Q            (* a double, by the decimal printed for it *)
}.

Definition getRankValue (rank : Rank) : Z :=
  match rank with
  | TWO => 2 | THREE => 3 | FOUR => 4 | FIVE => 5 | SIX => 6
  | SEVEN => 7 | EIGHT => 8 | NINE => 9 | TEN => 10
  | JACK => 11 | QUEEN => 12 | KING => 13 | ACE => 14
  end.

(** The comparators handed to [sort]: high rank first. *)
Definition byCardRankDesc (a b : Card) : Z := getRankValue (rank b) - getRankValue (rank a).
Definition byRankDesc (a b : Rank) : Z := getRankValue b - getRankValue a.
Definition byNumberDesc (a b : Z) : Z := b - a.

Section Evaluator.
Context {E : PokerEnums}.

Definition getRankCounts (cards : list Card) : JsObject (K := Rank) (V := Z) :=
  fold_left
    (fun counts card =>
       set Rank_toString counts (rank card)
         (or_zero (get Rank_toString counts (rank card)) + 1))
    cards [].

Definition getSuitCounts (cards : list Card) : JsObject (K := Suit) (V := Z) :=
  fold_left
    (fun counts card =>
       set Suit_toString counts (suit card)
         (or_zero (get Suit_toString counts (suit card)) + 1))
    cards [].

(** [rankCounts[rank] === n] *)
Definition rankCountIs (rankCounts : JsObject) (n : Z) (rank : Rank) : bool :=
  match get Rank_toString rankCounts rank with
  | Some c => c =? n
  | None => false
  end.

(** [rank !== other] on two keys *)
Definition keyDiffers (rank other : Rank) : bool :=
  negb (String.eqb (Rank_toString rank) (Rank_toString other)).

Definition checkFlush (cards : list Card) : completion (option HandEvaluation) :=
  let suitCounts := getSuitCounts cards in
  let flushSuit :=
    find (fun suit => match get Suit_toString suitCounts suit with
                      | Some c => 5 <=? c
                      | None => false
                      end)
         (keys Suit_toString suitCounts) in
  match flushSuit with
  | Some flushSuit =>
      if truthy (Suit_toString flushSuit) then
        let flushCards :=
          filter (fun card => String.eqb (Suit_toString (suit card)) (Suit_toString flushSuit))
                 cards in
        match flushCards with
        | first :: _ =>
            let highCard := rank first in
            Return (Some {| handType := "Flush";
                            handRank := 6;
                            kickers := [highCard];
                            description := ("Flush, " ++ template (Rank_value highCard) ++ " high")%string;
                            strength := 0.75 |})
        | [] => Throw TypeError
        end
      else Return None
  | None => Return None
  end.

(** [uniqueRanks[i] === v] *)
Definition at_is (uniqueRanks : list Z) (i : nat) (v : Z) : bool :=
  match nth_error uniqueRanks i with
  | Some a => a =? v
  | None => false
  end.

(** The inner loop: [uniqueRanks[i + j] === uniqueRanks[i] - j] for j = 1..4. *)
Definition consecutive (uniqueRanks : list Z) (i : nat) : bool :=
  match nth_error uniqueRanks i with
  | Some hi => forallb (fun j => at_is uniqueRanks (i + j) (hi - Z.of_nat j)) [1; 2; 3; 4]%nat
  | None => false
  end.

Definition checkStraight (cards : list Card) : option HandEvaluation :=
  let uniqueRanks :=
    sort byNumberDesc (unique (map (fun card => getRankValue (rank card)) cards) []) in
  match find (consecutive uniqueRanks) (seq 0 (List.length uniqueRanks - 4)) with
  | Some i =>
      let top := nth i uniqueRanks 0 in
      let highCard := find (fun rank => getRankValue rank =? top) Rank_values in
      Some {| handType := "Straight";
              handRank := 5;
              kickers := match highCard with
                         | Some r => if truthy (Rank_toString r) then [r] else []
                         | None => []
                         end;
              description :=
                ("Straight, "
                 ++ or_default (match highCard with
                                | Some r => Rank_value r
                                | None => None
                                end) "Unknown"
                 ++ " high")%string;
              strength := 0.65 |}
  | None =>
      if includes uniqueRanks 14 && includes uniqueRanks 2 && includes uniqueRanks 3
         && includes uniqueRanks 4 && includes uniqueRanks 5
      then Some {| handType := "Straight";
                   handRank := 5;
                   kickers := [FIVE];
                   description := "Straight, Five high (Wheel)";
                   strength := 0.6 |}
      else None
  end.

Definition checkStraightFlush (cards : list Card) : completion (option HandEvaluation) :=
  bind (checkFlush cards) (fun flush =>
  let straight := checkStraight cards in
  match flush, straight with
  | Some _, Some _ =>
      match cards with
      | first :: _ =>
          let highCard := rank first in
          let isRoyal := getRankValue highCard =? 14 in
          Return (Some {| handType := if isRoyal then "Royal Flush" else "Straight Flush";
                          handRank := if isRoyal then 10 else 9;
                          kickers := [highCard];
                          description :=
                            if isRoyal then "Royal Flush"
                            else ("Straight Flush, " ++ template (Rank_value highCard) ++ " high")%string;
                          strength := if isRoyal then 1.0 else 0.95 |})
      | [] => Throw TypeError
      end
  | _, _ => Return None
  end).

Definition checkFourOfAKind (cards : list Card) : option HandEvaluation :=
  let rankCounts := getRankCounts cards in
  match find (rankCountIs rankCounts 4) (keys Rank_toString rankCounts) with
  | Some fourOfAKindRank =>
      if truthy (Rank_toString fourOfAKindRank) then
        let kicker :=
          find (fun rank => keyDiffers rank fourOfAKindRank && rankCountIs rankCounts 1 rank)
               (keys Rank_toString rankCounts) in
        Some {| handType := "Four of a Kind";
                handRank := 8;
                kickers := match kicker with
                           | Some k => if truthy (Rank_toString k) then [k] else []
                           | None => []
                           end;
                description := ("Four " ++ Rank_toString fourOfAKindRank ++ "s")%string;
                strength := 0.9 |}
      else None
  | None => None
  end.

Definition checkFullHouse (cards : list Card) : option HandEvaluation :=
  let rankCounts := getRankCounts cards in
  let threeOfAKindRank := find (rankCountIs rankCounts 3) (keys Rank_toString rankCounts) in
  let pairRank := find (rankCountIs rankCounts 2) (keys Rank_toString rankCounts) in
  match threeOfAKindRank, pairRank with
  | Some threeOfAKindRank, Some pairRank =>
      if truthy (Rank_toString threeOfAKindRank) && truthy (Rank_toString pairRank) then
        Some {| handType := "Full House";
                handRank := 7;
                kickers := [threeOfAKindRank; pairRank];
                description :=
                  ("Full House, " ++ Rank_toString threeOfAKindRank ++ "s over "
                   ++ Rank_toString pairRank ++ "s")%string;
                strength := 0.85 |}
      else None
  | _, _ => None
  end.

Definition checkThreeOfAKind (cards : list Card) : option HandEvaluation :=
  let rankCounts := getRankCounts cards in
  match find (rankCountIs rankCounts 3) (keys Rank_toString rankCounts) with
  | Some threeOfAKindRank =>
      if truthy (Rank_toString threeOfAKindRank) then
        let kickers :=
          slice0 2
            (sort byRankDesc
               (filter (fun rank => keyDiffers rank threeOfAKindRank
                                    && rankCountIs rankCounts 1 rank)
                       (keys Rank_toString rankCounts))) in
        Some {| handType := "Three of a Kind";
                handRank := 4;
                kickers := kickers;
                description := ("Three " ++ Rank_toString threeOfAKindRank ++ "s")%string;
                strength := 0.55 |}
      else None
  | None => None
  end.

Definition checkTwoPair (cards : list Card) : option HandEvaluation :=
  let rankCounts := getRankCounts cards in
  let pairs := filter (rankCountIs rankCounts 2) (keys Rank_toString rankCounts) in
  if 2 <=? Z.of_nat (List.length pairs) then
    let sortedPairs := sort byRankDesc pairs in
    let kicker := find (rankCountIs rankCounts 1) (keys Rank_toString rankCounts) in
    Some {| handType := "Two Pair";
            handRank := 3;
            kickers := match kicker with
                       | Some k => if truthy (Rank_toString k) then [k] else []
                       | None => []
                       end;
            description :=
              ("Two Pair, " ++ template (option_map Rank_toString (nth_error sortedPairs 0))
               ++ "s and " ++ template (option_map Rank_toString (nth_error sortedPairs 1))
               ++ "s")%string;
            strength := 0.45 |}
  else None.

Definition checkPair (cards : list Card) : option HandEvaluation :=
  let rankCounts := getRankCounts cards in
  match find (rankCountIs rankCounts 2) (keys Rank_toString rankCounts) with
  | Some pairRank =>
      if truthy (Rank_toString pairRank) then
        let kickers :=
          slice0 3
            (sort byRankDesc
               (filter (fun rank => keyDiffers rank pairRank && rankCountIs rankCounts 1 rank)
                       (keys Rank_toString rankCounts))) in
        Some {| handType := "Pair";
                handRank := 2;
                kickers := kickers;
                description := ("Pair of " ++ Rank_toString pairRank ++ "s")%string;
                strength :=
                  Number.decimal (0.3 + Number.of_Z (getRankValue pairRank) / 100)%float |}
      else None
  | None => None
  end.

Definition checkHighCard (cards : list Card) : completion HandEvaluation :=
  let sortedRanks := slice0 5 (sort byRankDesc (map rank cards)) in
  match sortedRanks with
  | top :: _ =>
      Return {| handType := "High Card";
                handRank := 1;
                kickers := sortedRanks;
                description := ("High Card, " ++ template (Rank_value top))%string;
                strength :=
                  Number.decimal (0.1 + Number.of_Z (getRankValue top) / 200)%float |}
  | [] => Throw TypeError
  end.

Definition evaluateHand (cards : list Card) : completion HandEvaluation :=
  if Z.of_nat (List.length cards) <? 5 then
    Return {| handType := "High Card";
              handRank := 1;
              kickers := [];
              description := "Incomplete hand";
              strength := 0.1 |}
  else
    let sortedCards := sort byCardRankDesc cards in
    checkStraightFlush sortedCards
    ||> Return (checkFourOfAKind sortedCards)
    ||> Return (checkFullHouse sortedCards)
    ||> checkFlush sortedCards
    ||> Return (checkStraight sortedCards)
    ||> Return (checkThreeOfAKind sortedCards)
    ||> Return (checkTwoPair sortedCards)
    ||> Return (checkPair sortedCards)
    ||> checkHighCard sortedCards.

End Evaluator.
End HandEvaluator.

Import HandEvaluator.

(** ** Arrays as objects

    The caller hands [evaluateHand] a reference to an array.
    [evaluateHand] reads its length, copies it ([[...cards]]) and sorts
    the copy in place; the checks read the sorted copy and sort only
    arrays they build themselves ([map], [filter], [Object.keys], a
    spread). The store below holds the arrays of cards by address. *)
Module Arrays.

Definition Ref := nat.
Definition Store := list (list Card).

Definition read (st : Store) (a : Ref) : list Card := nth a st [].

Fixpoint write (st : Store) (a : Ref) (v : list Card) : Store :=
  match st, a with
  | [], _ => []
  | _ :: st', O => v :: st'
  | x :: st', S a' => x :: write st' a' v
  end.

(** [[...arr]]: a new array with the same elements. *)
Definition spread (a : Ref) (st : Store) : Ref * Store :=
  (List.length st, st ++ [read st a]).

(** [arr.sort(cmp)]: sorts [arr] itself and returns it. *)
Definition sortInPlace (cmp : Card -> Card -> Z) (a : Ref) (st : Store) : Ref * Store :=
  (a, write st a (sort cmp (read st a))).

Section Call.
Context {E : PokerEnums}.

(** A call of [evaluateHand] on the array at [cards]: its result and
    the store it leaves. *)
Definition evaluateHandCall (cards : Ref) (st : Store)
  : completion HandEvaluation * Store :=
  if Z.of_nat (List.length (read st cards)) <? 5 then
    (Return {| handType := "High Card";
               handRank := 1;
               kickers := [];
               description := "Incomplete hand";
               strength := 0.1 |}, st)
  else
    let (copy, st1) := spread cards st in
    let (sortedRef, st2) := sortInPlace byCardRankDesc copy st1 in
    let sortedCards := read st2 sortedRef in
    (checkStraightFlush sortedCards
     ||> Return (checkFourOfAKind sortedCards)
     ||> Return (checkFullHouse sortedCards)
     ||> checkFlush sortedCards
     ||> Return (checkStraight sortedCards)
     ||> Return (checkThreeOfAKind sortedCards)
     ||> Return (checkTwoPair sortedCards)
     ||> Return (checkPair sortedCards)
     ||> checkHighCard sortedCards, st2).
End Call.

End Arrays.

(** ** src/components/ActionButtons.tsx *)

(** Modelled from the spec: the [PlayerAction] enum of [types/poker.ts],
    the four actions of the external interface. *)
Inductive PlayerAction : Type :=
  | FOLD | CHECK | CALL | RAISE.

Module ActionButtons.

(** The numeric props of the component; chips and bets are integers. *)
Record Props : Type := {
  currentBet : Z;
  playerBet : Z;
  playerChips : Z
}.

(** [useState(Math.min(100, playerChips))] *)
Definition initialRaiseAmount (p : Props) : Z := Z.min 100 (playerChips p).

Definition callAmount (p : Props) : Z := currentBet p - playerBet p.
Definition minRaise (p : Props) : Z := Z.max (currentBet p * 2) (currentBet p + 50).
Definition maxRaise (p : Props) : Z := playerChips p.

(** The quick-bet buttons: each sets the raise amount to
    [Math.min(amount, maxRaise)]. *)
Inductive QuickBet : Type :=
  | QuarterPot | HalfPot | Pot | AllIn.

Definition quickBetAmount (p : Props) (q : QuickBet) : Z :=
  match q with
  | QuarterPot => currentBet p / 4      (* Math.floor(currentBet * 0.25) *)
  | HalfPot => currentBet p / 2         (* Math.floor(currentBet * 0.5) *)
  | Pot => currentBet p
  | AllIn => playerChips p
  end.

Definition quickBet (p : Props) (q : QuickBet) : Z :=
  Z.min (quickBetAmount p q) (maxRaise p).

(** [handleRaise]: what is passed to [onAction], given the raise amount
    the slider or a quick bet left in the state. *)
Definition handleRaise (p : Props) (raiseAmount : Z) : PlayerAction * Z :=
  let amount := Z.min (Z.max raiseAmount (minRaise p)) (maxRaise p) in
  (RAISE, amount).

End ActionButtons.

(** ** The betting engine

    [utils/gameEngine.ts] is not among the sources; [App.tsx] only calls
    it. The engine below is written from the specification's sections
    3, 4.2, 6 and 7. *)
Module GameEngine.

(** Modelled from the spec: the phases of a hand (4.2, States). *)
Inductive Phase : Type :=
  | PREFLOP | FLOP | TURN | RIVER | SHOWDOWN.

(** Modelled from the spec: the error kinds of section 7 that the
    engine returns. *)
Inductive EngineError : Type :=
  | InvalidAction | InsufficientFunds | NotPlayersTurn.

(** Modelled from the spec: an operation returns a state or one of the
    errors, and a rejected action leaves the state unchanged (7). *)
Inductive Result (A : Type) : Type :=
  | Ok (a : A)
  | Err (e : EngineError).
Arguments Ok {A} a.
Arguments Err {A} e.

(** Modelled from the spec: the Player entity of the data model.
    [hasActed] is the bookkeeping behind "has acted at least once since
    the last raise"; a player without chips is all-in. *)
Record Player : Type := {
  id : string;
  name : string;
  chips : Z;
  holeCards : list Card;
  currentBet : Z;
  isActive : bool;
  isBot : bool;
  position : nat;
  hasActed : bool
}.

(** Modelled from the spec: the GameState entity of the data model, with
    the undealt cards and the completion flag behind [isGameComplete]. *)
Record GameState : Type := {
  players : list Player;
  communityCards : list Card;
  pot : Z;
  tableBet : Z;              (* GameState.currentBet *)
  phase : Phase;
  activePlayerIndex : nat;
  handNumber : nat;
  deck : list Card;
  complete : bool
}.

Definition withChips (p : Player) (c : Z) : Player :=
  {| id := id p; name := name p; chips := c; holeCards := holeCards p;
     currentBet := currentBet p; isActive := isActive p; isBot := isBot p;
     position := position p; hasActed := hasActed p |}.

Definition withBet (p : Player) (b : Z) : Player :=
  {| id := id p; name := name p; chips := chips p; holeCards := holeCards p;
     currentBet := b; isActive := isActive p; isBot := isBot p;
     position := position p; hasActed := hasActed p |}.

Definition withActive (p : Player) (a : bool) : Player :=
  {| id := id p; name := name p; chips := chips p; holeCards := holeCards p;
     currentBet := currentBet p; isActive := a; isBot := isBot p;
     position := position p; hasActed := hasActed p |}.

Definition withActed (p : Player) (a : bool) : Player :=
  {| id := id p; name := name p; chips := chips p; holeCards := holeCards p;
     currentBet := currentBet p; isActive := isActive p; isBot := isBot p;
     position := position p; hasActed := a |}.

Definition withPlayers (s : GameState) (ps : list Player) : GameState :=
  {| players := ps; communityCards := communityCards s; pot := pot s;
     tableBet := tableBet s; phase := phase s;
     activePlayerIndex := activePlayerIndex s; handNumber := handNumber s;
     deck := deck s; complete := complete s |}.

Definition withPot (s : GameState) (v : Z) : GameState :=
  {| players := players s; communityCards := communityCards s; pot := v;
     tableBet := tableBet s; phase := phase s;
     activePlayerIndex := activePlayerIndex s; handNumber := handNumber s;
     deck := deck s; complete := complete s |}.

Definition withTableBet (s : GameState) (v : Z) : GameState :=
  {| players := players s; communityCards := communityCards s; pot := pot s;
     tableBet := v; phase := phase s;
     activePlayerIndex := activePlayerIndex s; handNumber := handNumber s;
     deck := deck s; complete := complete s |}.

Definition withTurn (s : GameState) (i : nat) : GameState :=
  {| players := players s; communityCards := communityCards s; pot := pot s;
     tableBet := tableBet s; phase := phase s;
     activePlayerIndex := i; handNumber := handNumber s;
     deck := deck s; complete := complete s |}.

Definition withComplete (s : GameState) : GameState :=
  {| players := players s; communityCards := communityCards s; pot := pot s;
     tableBet := tableBet s; phase := phase s;
     activePlayerIndex := activePlayerIndex s; handNumber := handNumber s;
     deck := deck s; complete := true |}.

(** The player in seat [i] replaced by [f] of it. *)
Fixpoint updateAt (i : nat) (f : Player -> Player) (ps : list Player) : list Player :=
  match ps, i with
  | [], _ => []
  | p :: ps', O => f p :: ps'
  | p :: ps', S i' => p :: updateAt i' f ps'
  end.

Definition sumChips (ps : list Player) : Z :=
  fold_right (fun p acc => chips p + acc) 0 ps.

(** Modelled from the spec: the quantity of the invariant,
    sum(player.chips) + pot (3). *)
Definition chipsInPlay (s : GameState) : Z := sumChips (players s) + pot s.

Definition activeSeats (ps : list Player) : list nat :=
  filter (fun i => match nth_error ps i with
                   | Some p => isActive p
                   | None => false
                   end) (seq 0 (List.length ps)).

(** Modelled from the spec: [getAvailableActions] (section 6). *)
Definition getAvailableActions (s : GameState) : list PlayerAction :=
  if complete s then []
  else match nth_error (players s) (activePlayerIndex s) with
       | Some p =>
           if isActive p then
             [FOLD]
             ++ (if currentBet p =? tableBet s then [CHECK] else [])
             ++ (if (currentBet p <? tableBet s) && (0 <? chips p) then [CALL] else [])
             ++ (if tableBet s - currentBet p <? chips p then [RAISE] else [])
           else []
       | None => []
       end.

Definition actionEqb (a b : PlayerAction) : bool :=
  match a, b with
  | FOLD, FOLD | CHECK, CHECK | CALL, CALL | RAISE, RAISE => true
  | _, _ => false
  end.

(** Modelled from the spec: the pot goes to the winning seats in equal
    shares, the remainder of the integer division to the first of them
    in seating order (4.2, showdown); the hand is then complete. *)
Definition credit (i : nat) (amount : Z) (ps : list Player) : list Player :=
  updateAt i (fun p => withChips p (chips p + amount)) ps.

Definition awardPot (winners : list nat) (s : GameState) : GameState :=
  match winners with
  | [] => withComplete s
  | first :: _ =>
      let n := Z.of_nat (List.length winners) in
      let share := pot s / n in
      let remainder := pot s mod n in
      let paid := fold_right (fun i ps => credit i share ps) (players s) winners in
      withComplete (withPot (withPlayers s (credit first remainder paid)) 0)
  end.

(** Modelled from the spec: hands are ranked by (categoryRank, kickers),
    kickers compared in descending order, the first difference deciding;
    a missing kicker counts below any kicker. *)
Fixpoint kickersCompare (a b : list Z) : comparison :=
  match a, b with
  | [], [] => Eq
  | [], _ :: _ => Lt
  | _ :: _, [] => Gt
  | x :: a', y :: b' =>
      match x ?= y with
      | Eq => kickersCompare a' b'
      | c => c
      end
  end.

Definition scoreCompare (a b : Z * list Z) : comparison :=
  match fst a ?= fst b with
  | Eq => kickersCompare (snd a) (snd b)
  | c => c
  end.

Section Engine.
Context {E : PokerEnums}.

(** Modelled from the spec: the minimum increment of a raise; the
    raise button of [ActionButtons.tsx] uses 50. *)
Variable minimumIncrement : Z.

(** Modelled from the spec: at showdown a player's hole cards and the
    community cards go to the hand evaluator (4.2). *)
Definition score (community : list Card) (p : Player) : Z * list Z :=
  match evaluateHand (holeCards p ++ community) with
  | Return h => (handRank h, map getRankValue (kickers h))
  | Throw _ => (0, [])
  end.

(** Modelled from the spec: the best hands, the active seats whose hand
    no active seat beats (4.2). *)
Definition bestSeats (s : GameState) : list nat :=
  let seats := activeSeats (players s) in
  let scoreOf i := match nth_error (players s) i with
                   | Some p => score (communityCards s) p
                   | None => (0, [])
                   end in
  filter (fun i => forallb (fun j => match scoreCompare (scoreOf j) (scoreOf i) with
                                     | Gt => false
                                     | _ => true
                                     end) seats) seats.

(** Modelled from the spec: SHOWDOWN awards the pot to the best hands
    (4.2). *)
Definition showdown (s : GameState) : GameState :=
  awardPot (bestSeats s)
    {| players := players s; communityCards := communityCards s; pot := pot s;
       tableBet := tableBet s; phase := SHOWDOWN;
       activePlayerIndex := activePlayerIndex s; handNumber := handNumber s;
       deck := deck s; complete := complete s |}.

(** Modelled from the spec: a betting round is closed when every
    still-active player who is not all-in has matched the table bet
    and has acted since the last raise (4.2). *)
Definition roundClosed (s : GameState) : bool :=
  forallb (fun p => negb (isActive p) || (chips p =? 0)
                    || ((currentBet p =? tableBet s) && hasActed p))
          (players s).

(** Modelled from the spec: the turn passes to the next active player,
    wrapping around the table (4.2). *)
Definition nextActive (s : GameState) : GameState :=
  let n := List.length (players s) in
  let seats := map (fun k => ((activePlayerIndex s + 1 + k) mod n)%nat) (seq 0 n) in
  match find (fun i => match nth_error (players s) i with
                       | Some p => isActive p
                       | None => false
                       end) seats with
  | Some i => withTurn s i
  | None => s
  end.

(** Modelled from the spec: on a transition the table bet and the
    per-round bets are reset, [reveal] more community cards are turned
    and the phase advances (4.2). *)
Definition startRound (next : Phase) (reveal : nat) (s : GameState) : GameState :=
  {| players := map (fun p => withActed (withBet p 0) false) (players s);
     communityCards := communityCards s ++ firstn reveal (deck s);
     pot := pot s;
     tableBet := 0;
     phase := next;
     activePlayerIndex := activePlayerIndex s;
     handNumber := handNumber s;
     deck := skipn reveal (deck s);
     complete := complete s |}.

(** Modelled from the spec: a call resolves every transition it causes
    (5): a round nobody can bet in closes at once and the next one
    starts, down to the showdown. *)
Definition afterRiver (s : GameState) : GameState := showdown s.

Definition afterTurn (s : GameState) : GameState :=
  let s' := startRound RIVER 1 s in
  if roundClosed s' then afterRiver s' else nextActive s'.

Definition afterFlop (s : GameState) : GameState :=
  let s' := startRound TURN 1 s in
  if roundClosed s' then afterTurn s' else nextActive s'.

Definition afterPreflop (s : GameState) : GameState :=
  let s' := startRound FLOP 3 s in
  if roundClosed s' then afterFlop s' else nextActive s'.

Definition closeRound (s : GameState) : GameState :=
  match phase s with
  | PREFLOP => afterPreflop s
  | FLOP => afterFlop s
  | TURN => afterTurn s
  | RIVER | SHOWDOWN => afterRiver s
  end.

Definition afterAction (s : GameState) : GameState :=
  if roundClosed s then closeRound s else nextActive s.

(** Modelled from the spec: chips only move between a player and the
    pot (3); those a player puts in count towards that player's bet of
    the round. *)
Definition pay (i : nat) (amount : Z) (s : GameState) : GameState :=
  withPot
    (withPlayers s
       (updateAt i (fun p => withBet (withChips p (chips p - amount))
                                     (currentBet p + amount))
                 (players s)))
    (pot s + amount).

Definition markActed (i : nat) (s : GameState) : GameState :=
  withPlayers s (updateAt i (fun p => withActed p true) (players s)).

(** Modelled from the spec: [processPlayerAction] (4.2, 6, 7). A
    rejected action returns the error and no state. The specification
    gives the new table bet of a raise but not the chips it moves: the
    raiser pays what brings the bet of the round up to [amount]. *)
Definition processPlayerAction (s : GameState) (action : PlayerAction) (amount : Z)
  : Result GameState :=
  match nth_error (players s) (activePlayerIndex s) with
  | None => Err InvalidAction
  | Some p =>
      if negb (existsb (actionEqb action) (getAvailableActions s)) then Err InvalidAction
      else
        let i := activePlayerIndex s in
        match action with
        | FOLD =>
            let s1 := withPlayers s (updateAt i (fun p => withActive p false) (players s)) in
            match activeSeats (players s1) with
            | [winner] => Ok (awardPot [winner] s1)
            | _ => Ok (afterAction s1)
            end
        | CHECK => Ok (afterAction (markActed i s))
        | CALL =>
            let due := Z.min (tableBet s - currentBet p) (chips p) in
            Ok (afterAction (markActed i (pay i due s)))
        | RAISE =>
            if amount <? Z.max (tableBet s * 2) (tableBet s + minimumIncrement)
            then Err InvalidAction
            else if chips p <? amount then Err InsufficientFunds
            else
              let s1 := pay i (amount - currentBet p) s in
              let reopened := map (fun q => withActed q false) (players s1) in
              Ok (afterAction (markActed i (withTableBet (withPlayers s1 reopened) amount)))
        end
  end.

(** Modelled from the spec: a sequence of actions within one hand, each
    applied to the state the one before returned (5); the first
    rejected action ends the run with its error. *)
Fixpoint processActions (s : GameState) (actions : list (PlayerAction * Z))
  : Result GameState :=
  match actions with
  | [] => Ok s
  | (action, amount) :: rest =>
      match processPlayerAction s action amount with
      | Ok s' => processActions s' rest
      | Err e => Err e
      end
  end.
End Engine.

End GameEngine.

(** ** A concrete deck

    One instance of the enum strings: the suit symbols [PlayerHand.tsx]
    compares [card.suit] with, and for the ranks the strings of a card
    face, which it prints from [card.rank]. The general statements below
    hold for every instance; the evaluator is run on this one. *)
Module Deck.

Definition rank_string (r : Rank) : string :=
  match r with
  | TWO => "2" | THREE => "3" | FOUR => "4" | FIVE => "5" | SIX => "6"
  | SEVEN => "7" | EIGHT => "8" | NINE => "9" | TEN => "10"
  | JACK => "J" | QUEEN => "Q" | KING => "K" | ACE => "A"
  end.

Definition suit_string (s : Suit) : string :=
  match s with
  | HEARTS => "♥" | DIAMONDS => "♦" | CLUBS => "♣" | SPADES => "♠"
  end.

Definition all_ranks : list Rank :=
  [TWO; THREE; FOUR; FIVE; SIX; SEVEN; EIGHT; NINE; TEN; JACK; QUEEN; KING; ACE].

#[export] Program Instance enums : PokerEnums := {|
  Rank_toString := rank_string;
  Suit_toString := suit_string;
  Rank_value := fun _ => None;
  Rank_values := all_ranks
|}.
Next Obligation. destruct a, b; simpl in *; congruence. Qed.
Next Obligation. destruct a, b; simpl in *; congruence. Qed.
Next Obligation. destruct r; reflexivity. Qed.
Next Obligation. destruct s; reflexivity. Qed.
Next Obligation. destruct r; simpl; tauto. Qed.

End Deck.

(** * The vocabulary of the statements *)

Definition Rank_eq_dec (a b : Rank) : {a = b} + {a <> b}.
Proof. decide equality. Defined.

Definition Suit_eq_dec (a b : Suit) : {a = b} + {a <> b}.
Proof. decide equality. Defined.

(** How many of the cards have a given rank, a given suit. *)
Definition rankCount (cards : list Card) (r : Rank) : nat :=
  count_occ Rank_eq_dec (map rank cards) r.

Definition suitCount (cards : list Card) (s : Suit) : nat :=
  count_occ Suit_eq_dec (map suit cards) s.

(** A card of value [v] and suit [s] is among the cards. *)
Definition holdsCard (cards : list Card) (v : Z) (s : Suit) : bool :=
  existsb (fun c => (getRankValue (rank c) =? v)
                    && (if Suit_eq_dec (suit c) s then true else false)) cards.

(** Below the Two the Ace counts as 1. *)
Definition aceLow (v : Z) : Z := if v =? 1 then 14 else v.

(** Five consecutive ranks, [high] the highest, all of suit [s]. *)
Definition straightInSuit (cards : list Card) (s : Suit) (high : Rank) : bool :=
  forallb (fun j => holdsCard cards (aceLow (getRankValue high - j)) s) [0; 1; 2; 3; 4].

(** The hand holds an Ace, a Two, a Three, a Four and a Five. *)
Definition holdsWheel (cards : list Card) : Prop :=
  forall r, In r [ACE; TWO; THREE; FOUR; FIVE] -> In r (map rank cards).

(** The hand holds the five consecutive ranks from [top] downwards. *)
Definition holdsRun (cards : list Card) (top : Rank) : Prop :=
  forall j, In j [0; 1; 2; 3; 4] ->
            exists r, In r (map rank cards) /\ getRankValue r = getRankValue top - j.

(** The loop of [getRankCounts] and [getSuitCounts], for any key. *)
Definition count_step {K C : Type} (key_string : K -> string) (proj : C -> K)
           (counts : JsObject (K := K) (V := Z)) (card : C) : JsObject :=
  set key_string counts (proj card)
      (or_zero (get key_string counts (proj card)) + 1).

Section Vocabulary.
Context {E : PokerEnums}.

(** The test [checkFlush] looks a suit up with. *)
Definition isFlushSuit (cards : list Card) (suit : Suit) : bool :=
  match get Suit_toString (getSuitCounts cards) suit with
  | Some c => 5 <=? c
  | None => false
  end.

(** The ranks [checkStraight] scans. *)
Definition uniqueRanks (cards : list Card) : list Z :=
  sort byNumberDesc (unique (map (fun card => getRankValue (rank card)) cards) []).

(** *** The chain of checks in [evaluateHand]

    Which check produced the evaluation, with what the earlier checks
    returned. *)
Inductive firstMatch (sorted : list Card) (h : HandEvaluation) : Prop :=
  | ByStraightFlush :
      checkStraightFlush sorted = Return (Some h) -> firstMatch sorted h
  | ByFourOfAKind :
      checkStraightFlush sorted = Return None ->
      checkFourOfAKind sorted = Some h -> firstMatch sorted h
  | ByFullHouse :
      checkStraightFlush sorted = Return None ->
      checkFourOfAKind sorted = None ->
      checkFullHouse sorted = Some h -> firstMatch sorted h
  | ByFlush :
      checkFullHouse sorted = None ->
      checkFlush sorted = Return (Some h) -> firstMatch sorted h
  | ByStraight :
      checkFlush sorted = Return None ->
      checkStraight sorted = Some h -> firstMatch sorted h
  | ByThreeOfAKind :
      checkFullHouse sorted = None ->
      checkStraight sorted = None ->
      checkThreeOfAKind sorted = Some h -> firstMatch sorted h
  | ByTwoPair :
      checkThreeOfAKind sorted = None ->
      checkTwoPair sorted = Some h -> firstMatch sorted h
  | ByPair :
      checkThreeOfAKind sorted = None ->
      checkTwoPair sorted = None ->
      checkPair sorted = Some h -> firstMatch sorted h
  | ByHighCard :
      checkTwoPair sorted = None ->
      checkPair sorted = None ->
      checkHighCard sorted = Return h -> firstMatch sorted h.
End Vocabulary.

(** * The hands the specification names, and hands that tell cases apart *)
Module Hands.

(** {Ac,2c,3c,4c,5c} *)
Definition wheelClubs : list Card :=
  [card ACE CLUBS; card TWO CLUBS; card THREE CLUBS; card FOUR CLUBS; card FIVE CLUBS].

(** {2c,2d,2h,5s,5c,9h,Kd} *)
Definition twosOverFives : list Card :=
  [card TWO CLUBS; card TWO DIAMONDS; card TWO HEARTS; card FIVE SPADES;
   card FIVE CLUBS; card NINE HEARTS; card KING DIAMONDS].

(** {Ac,Ad,Ah,Kc,Kd,Kh,2s}: two ranks held three times each. *)
Definition acesAndKings : list Card :=
  [card ACE CLUBS; card ACE DIAMONDS; card ACE HEARTS; card KING CLUBS;
   card KING DIAMONDS; card KING HEARTS; card TWO SPADES].

(** {5h,6h,7h,8h,Kh,9c,2d}: five hearts, and a straight that needs the
    nine of clubs. *)
Definition heartsAndNine : list Card :=
  [card FIVE HEARTS; card SIX HEARTS; card SEVEN HEARTS; card EIGHT HEARTS;
   card KING HEARTS; card NINE CLUBS; card TWO DIAMONDS].

(** {Ah,9h,8h,7h,6h,5h,2c}: a nine-high straight flush in hearts, and the
    Ace of hearts beside it. *)
Definition aceBesideNineHigh : list Card :=
  [card ACE HEARTS; card NINE HEARTS; card EIGHT HEARTS; card SEVEN HEARTS;
   card SIX HEARTS; card FIVE HEARTS; card TWO CLUBS].

(** {2c,2d,5h,5s,Jc,9h,Kd} *)
Definition twosAndFives : list Card :=
  [card TWO CLUBS; card TWO DIAMONDS; card FIVE HEARTS; card FIVE SPADES;
   card JACK CLUBS; card NINE HEARTS; card KING DIAMONDS].

(** {2c,2d,5h,7s,Jc,9h,Kd} *)
Definition pairOfTwos : list Card :=
  [card TWO CLUBS; card TWO DIAMONDS; card FIVE HEARTS; card SEVEN SPADES;
   card JACK CLUBS; card NINE HEARTS; card KING DIAMONDS].

(** {3c,3d,5h,7s,Jc,9h,Kd} *)
Definition pairOfThrees : list Card :=
  [card THREE CLUBS; card THREE DIAMONDS; card FIVE HEARTS; card SEVEN SPADES;
   card JACK CLUBS; card NINE HEARTS; card KING DIAMONDS].

(** {4c,4d,4h,4s,4c}: the four of clubs twice, as an array may hold it. *)
Definition fiveFours : list Card :=
  [card FOUR CLUBS; card FOUR DIAMONDS; card FOUR HEARTS; card FOUR SPADES;
   card FOUR CLUBS].

End Hands.

(** ** A sample table for the engine *)
Module Table.
Import GameEngine.

Definition seat (who : string) (pos : nat) (c1 c2 : Card) (bot : bool) : Player :=
  {| id := who; name := who; chips := 1000; holeCards := [c1; c2]; currentBet := 0;
     isActive := true; isBot := bot; position := pos; hasActed := false |}.

Definition threeHanded : GameState :=
  {| players := [seat "you" 0 (card ACE SPADES) (card ACE HEARTS) false;
                 seat "bot1" 1 (card KING SPADES) (card QUEEN HEARTS) true;
                 seat "bot2" 2 (card TWO CLUBS) (card SEVEN DIAMONDS) true];
     communityCards := [];
     pot := 0;
     tableBet := 0;
     phase := PREFLOP;
     activePlayerIndex := 0;
     handNumber := 1;
     deck := [card THREE CLUBS; card NINE DIAMONDS; card JACK SPADES;
              card FOUR HEARTS; card TEN CLUBS; card FIVE CLUBS];
     complete := false |}.

(** A raise, a call and a fold before the flop, checks on the flop and
    the turn, a bet and a call on the river. *)
Definition toShowdown : list (PlayerAction * Z) :=
  [(RAISE, 100); (CALL, 0); (FOLD, 0); (CHECK, 0); (CHECK, 0);
   (CHECK, 0); (CHECK, 0); (RAISE, 77); (CALL, 0)].

End Table.

(** ** src/components/ActionButtons.tsx: the raise amount in the state *)
Module RaiseControl.
Import ActionButtons.

(** What sets the raise amount: the slider, with
    [parseInt(e.target.value)], and the quick-bet buttons. *)
Inductive Event : Type :=
  | Slide (value : Z)
  | Quick (q : QuickBet).

Definition setRaiseAmount (p : Props) (raiseAmount : Z) (e : Event) : Z :=
  match e with
  | Slide value => value
  | Quick q => quickBet p q
  end.

(** The raise amount after a run of events, from its initial value. *)
Definition raiseAmountAfter (p : Props) (events : list Event) : Z :=
  fold_left (setRaiseAmount p) events (initialRaiseAmount p).

End RaiseControl.

(** ** src/components/BotThinking.tsx: the dots after "Thinking" *)
Module BotThinking.

(** [setDots(prev => prev.length >= 3 ? '' : prev + '.')] *)
Definition tick (prev : string) : string :=
  if 3 <=? Z.of_nat (String.length prev) then ""%string else (prev ++ ".")%string.

(** The effect of [useEffect]: while the bot thinks the interval ticks;
    when it stops thinking the dots are cleared. *)
Inductive Event : Type :=
  | Tick
  | StopThinking.

Definition step (dots : string) (e : Event) : string :=
  match e with
  | Tick => tick dots
  | StopThinking => ""%string
  end.

(** [useState('')], then the events in order. *)
Definition dotsAfter (events : list Event) : string :=
  fold_left step events ""%string.

Fixpoint dotString (n : nat) : string :=
  match n with
  | O => ""%string
  | S n' => (dotString n' ++ ".")%string
  end.

End BotThinking.

(** ** src/components/PlayerHand.tsx: the evaluation it shows *)
Module PlayerHand.

Section View.
Context {E : PokerEnums}.

(** [showCards && player.cards.length === 2
       ? evaluateHand([...player.cards, ...communityCards]) : null] *)
Definition handEvaluation (showCards : bool) (playerCards communityCards : list Card)
  : option (completion HandEvaluation) :=
  if showCards && (Z.of_nat (List.length playerCards) =? 2)
  then Some (evaluateHand (playerCards ++ communityCards))
  else None.

(** [{handEvaluation && showCards && (...)}]: whether the "Hand
    Strength" panel is rendered. *)
Definition showsHandStrength (showCards : bool) (playerCards communityCards : list Card)
  : bool :=
  match handEvaluation showCards playerCards communityCards with
  | Some _ => showCards
  | None => false
  end.
End View.

End PlayerHand.

(** ** More vocabulary: the category of a hand, read off its cards *)

Definition all_suits : list Suit := [HEARTS; DIAMONDS; CLUBS; SPADES].

(** The category names, by [handRank]. *)
Definition categoryName (handRank : Z) : string :=
  match handRank with
  | 10 => "Royal Flush"
  | 9 => "Straight Flush"
  | 8 => "Four of a Kind"
  | 7 => "Full House"
  | 6 => "Flush"
  | 5 => "Straight"
  | 4 => "Three of a Kind"
  | 3 => "Two Pair"
  | 2 => "Pair"
  | _ => "High Card"
  end.

(** Some card has rank value [v]. *)
Definition heldValue (cards : list Card) (v : Z) : bool :=
  existsb (fun c => getRankValue (rank c) =? v) cards.

(** Some suit is held at least five times. *)
Definition flushB (cards : list Card) : bool :=
  existsb (fun s => (5 <=? suitCount cards s)%nat) all_suits.

(** The five consecutive ranks from [top] downwards are held. *)
Definition runB (cards : list Card) (top : Rank) : bool :=
  forallb (fun j => heldValue cards (getRankValue top - j)) [0; 1; 2; 3; 4].

Definition wheelB (cards : list Card) : bool :=
  forallb (fun r => heldValue cards (getRankValue r)) [ACE; TWO; THREE; FOUR; FIVE].

(** The ranks held make a straight: a run of five, or the wheel. *)
Definition straightB (cards : list Card) : bool :=
  existsb (runB cards) Deck.all_ranks || wheelB cards.

(** Some rank is held exactly [n] times. *)
Definition countB (n : nat) (cards : list Card) : bool :=
  existsb (fun r => (rankCount cards r =? n)%nat) Deck.all_ranks.

(** At least two ranks are held exactly twice. *)
Definition twoPairB (cards : list Card) : bool :=
  (2 <=? List.length (filter (fun r => (rankCount cards r =? 2)%nat) Deck.all_ranks))%nat.

(** The [handRank] the chain of checks arrives at, as a function of what
    the hand holds. *)
Definition categoryOf (cards : list Card) : Z :=
  if flushB cards && straightB cards then (if heldValue cards 14 then 10 else 9)
  else if countB 4 cards then 8
  else if countB 3 cards && countB 2 cards then 7
  else if flushB cards then 6
  else if straightB cards then 5
  else if countB 3 cards then 4
  else if twoPairB cards then 3
  else if countB 2 cards then 2
  else 1.

(** The least and the greatest strength of a category. *)
Definition strengthFloor (handRank : Z) : Q :=
  match handRank with
  | 10 => 1.0 | 9 => 0.95 | 8 => 0.9 | 7 => 0.85 | 6 => 0.75 | 5 => 0.6
  | 4 => 0.55 | 3 => 0.45 | 2 => 0.32 | _ => 0.1
  end.

Definition strengthCeiling (handRank : Z) : Q :=
  match handRank with
  | 10 => 1.0 | 9 => 0.95 | 8 => 0.9 | 7 => 0.85 | 6 => 0.75 | 5 => 0.65
  | 4 => 0.55 | 3 => 0.45 | 2 => 0.44 | _ => 0.17
  end.

(** The scan of [checkStraight] on what is left of the array from an
    index on: the next four entries go down by one each. *)
Definition runAtHead (l : list Z) : bool :=
  match l with
  | a :: b :: c :: d :: e :: _ =>
      (b =? a - 1) && (c =? a - 2) && (d =? a - 3) && (e =? a - 4)
  | _ => false
  end.

(** ** More hands *)
Module MoreHands.

(** {2h,5h,9h,Jh,Kh,3c,4d} *)
Definition kingHighFlush : list Card :=
  [card TWO HEARTS; card FIVE HEARTS; card NINE HEARTS; card JACK HEARTS;
   card KING HEARTS; card THREE CLUBS; card FOUR DIAMONDS].

(** {Ac,Ad,Ah,As,Kh,Kc,Qd} *)
Definition fourAces : list Card :=
  [card ACE CLUBS; card ACE DIAMONDS; card ACE HEARTS; card ACE SPADES;
   card KING HEARTS; card KING CLUBS; card QUEEN DIAMONDS].

(** {2c,4d,6h,8s,Tc,Qd,Kh} *)
Definition kingHigh : list Card :=
  [card TWO CLUBS; card FOUR DIAMONDS; card SIX HEARTS; card EIGHT SPADES;
   card TEN CLUBS; card QUEEN DIAMONDS; card KING HEARTS].

(** {7c,7d,7h,Kc,Qd,2s,3h} *)
Definition threeSevens : list Card :=
  [card SEVEN CLUBS; card SEVEN DIAMONDS; card SEVEN HEARTS; card KING CLUBS;
   card QUEEN DIAMONDS; card TWO SPADES; card THREE HEARTS].

(** {As,2h,3c,4c,5d,6s,7c} *)
Definition aceToSeven : list Card :=
  [card ACE SPADES; card TWO HEARTS; card THREE CLUBS; card FOUR CLUBS;
   card FIVE DIAMONDS; card SIX SPADES; card SEVEN CLUBS].

End MoreHands.

(** * Facts about the runtime model *)
Module JsFacts.

Section SortFacts.
Context {A : Type} (cmp : A -> A -> Z).

Lemma insert_perm (x : A) (l : list A) : Permutation (insert cmp x l) (x :: l).
Proof.
  induction l as [|y l IH]; simpl.
  - reflexivity.
  - destruct (cmp x y <=? 0).
    + reflexivity.
    + rewrite IH. apply perm_swap.
Qed.

Lemma sort_perm (l : list A) : Permutation (sort cmp l) l.
Proof.
  induction l as [|x l IH]; simpl.
  - reflexivity.
  - rewrite insert_perm. now constructor.
Qed.

Lemma sort_In (l : list A) (x : A) : In x (sort cmp l) <-> In x l.
Proof.
  split; apply Permutation_in; [|symmetry]; apply sort_perm.
Qed.

Lemma sort_length (l : list A) : List.length (sort cmp l) = List.length l.
Proof. apply Permutation_length, sort_perm. Qed.
End SortFacts.

(** Sorting by a numeric key, highest first: the array comes out in
    descending key order, so its first element has the greatest key. *)
Section SortDesc.
Context {A : Type} (key : A -> Z).

Lemma insert_desc_sorted (x : A) (l : list A) :
  StronglySorted (fun a b => key b <= key a) l ->
  StronglySorted (fun a b => key b <= key a) (insert (fun a b => key b - key a) x l).
Proof.
  induction 1 as [|y l Hs IH Hy]; simpl.
  - repeat constructor.
  - destruct (key y - key x <=? 0) eqn:Hc.
    + apply Z.leb_le in Hc. constructor.
      * now constructor.
      * constructor; [lia|].
        eapply Forall_impl; [|exact Hy]. simpl. intros; lia.
    + apply Z.leb_gt in Hc. constructor; [exact IH|].
      eapply Permutation_Forall; [symmetry; apply insert_perm|].
      constructor; [lia|exact Hy].
Qed.

Lemma sort_desc_sorted (l : list A) :
  StronglySorted (fun a b => key b <= key a) (sort (fun a b => key b - key a) l).
Proof.
  induction l as [|x l IH]; simpl.
  - constructor.
  - now apply insert_desc_sorted.
Qed.

Lemma sort_desc_head (l : list A) (x : A) (rest : list A) :
  sort (fun a b => key b - key a) l = x :: rest ->
  forall y, In y l -> key y <= key x.
Proof.
  intros Hs y Hy.
  pose proof (sort_desc_sorted l) as Hsorted. rewrite Hs in Hsorted.
  apply (sort_In (fun a b => key b - key a)) in Hy. rewrite Hs in Hy.
  inversion Hsorted as [|? ? _ Hall]; subst.
  destruct Hy as [->|Hy]; [lia|].
  rewrite Forall_forall in Hall. now apply Hall.
Qed.
End SortDesc.

Lemma firstn_In {A} (n : nat) (l : list A) (x : A) : In x (firstn n l) -> In x l.
Proof.
  revert l; induction n as [|n IH]; intros [|y l]; simpl; try tauto.
  intros [->|H]; auto.
Qed.

Lemma unique_In (l seen : list Z) (x : Z) :
  In x (unique l seen) <-> In x l /\ ~ In x seen.
Proof.
  revert seen; induction l as [|y l IH]; intros seen; simpl.
  - tauto.
  - destruct (existsb (Z.eqb y) seen) eqn:Hs.
    + apply existsb_exists in Hs. destruct Hs as (z & Hz & Hyz).
      apply Z.eqb_eq in Hyz. subst z. rewrite IH.
      split; [tauto|]. intros [[->|H] Hn]; tauto.
    + assert (Hy : ~ In y seen).
      { intros Hin. apply Bool.not_true_iff_false in Hs. apply Hs.
        apply existsb_exists. exists y. split; [exact Hin|apply Z.eqb_refl]. }
      simpl. rewrite IH. simpl.
      destruct (Z.eq_dec y x) as [->|Hne]; [tauto|]. tauto.
Qed.

Lemma includes_In (l : list Z) (x : Z) : includes l x = true <-> In x l.
Proof.
  unfold includes. rewrite existsb_exists. split.
  - intros (y & Hy & Hxy). apply Z.eqb_eq in Hxy. now subst.
  - intros H. exists x. split; [exact H|apply Z.eqb_refl].
Qed.

(** Objects whose keys are the strings of an enum with distinct strings. *)
Section ObjectFacts.
Context {K V : Type} (key_string : K -> string).
Hypothesis key_string_inj : forall a b, key_string a = key_string b -> a = b.

Lemma key_eqb_refl (k : K) : String.eqb (key_string k) (key_string k) = true.
Proof. apply String.eqb_refl. Qed.

Lemma key_eqb_neq (k k' : K) : k <> k' -> String.eqb (key_string k) (key_string k') = false.
Proof.
  intros Hne. apply String.eqb_neq. intros Heq. apply Hne. now apply key_string_inj.
Qed.

Lemma key_eqb_true (k k' : K) : String.eqb (key_string k) (key_string k') = true -> k = k'.
Proof. intros H. apply String.eqb_eq in H. now apply key_string_inj. Qed.

Lemma get_In (o : JsObject (V := V)) (k : K) (v : V) :
  get key_string o k = Some v -> In (k, v) o.
Proof.
  induction o as [|[k' v'] o IH]; simpl; [discriminate|].
  destruct (String.eqb (key_string k') (key_string k)) eqn:He.
  - intros [= ->]. apply key_eqb_true in He. subst. now left.
  - intros H. right. now apply IH.
Qed.

Lemma get_None (o : JsObject (V := V)) (k : K) :
  get key_string o k = None <-> ~ In k (map fst o).
Proof.
  induction o as [|[k' v'] o IH]; simpl; [tauto|].
  destruct (String.eqb (key_string k') (key_string k)) eqn:He.
  - apply key_eqb_true in He. subst. split; [discriminate|tauto].
  - rewrite IH. split; [|tauto]. intros Hn [->|H]; [|tauto].
    rewrite key_eqb_refl in He. discriminate.
Qed.

Lemma get_Some_In_keys (o : JsObject (V := V)) (k : K) (v : V) :
  get key_string o k = Some v -> In k (map fst o).
Proof. intros H. apply get_In in H. apply (in_map fst) in H. exact H. Qed.

Lemma get_set_same (o : JsObject) (k : K) (v : V) :
  get key_string (set key_string o k v) k = Some v.
Proof.
  induction o as [|[k' v'] o IH]; simpl.
  - now rewrite key_eqb_refl.
  - destruct (String.eqb (key_string k') (key_string k)) eqn:He; simpl; now rewrite He.
Qed.

Lemma get_set_other (o : JsObject) (k k' : K) (v : V) :
  k <> k' -> get key_string (set key_string o k v) k' = get key_string o k'.
Proof.
  intros Hne. induction o as [|[k0 v0] o IH]; simpl.
  - now rewrite key_eqb_neq.
  - destruct (String.eqb (key_string k0) (key_string k)) eqn:He; simpl.
    + apply key_eqb_true in He. subst k0. now rewrite key_eqb_neq.
    + now rewrite IH.
Qed.

Lemma keys_of_set (o : JsObject) (k : K) (v : V) :
  map fst (set key_string o k v)
  = match get key_string o k with
    | Some _ => map fst o
    | None => map fst o ++ [k]
    end.
Proof.
  induction o as [|[k0 v0] o IH]; simpl; [reflexivity|].
  destruct (String.eqb (key_string k0) (key_string k)) eqn:He; simpl; [reflexivity|].
  rewrite IH. now destruct (get key_string o k).
Qed.

Lemma index_string_keys_perm (ks : list K) :
  Permutation (map snd (index_keys key_string ks) ++ string_keys key_string ks) ks.
Proof.
  induction ks as [|k ks IH]; simpl; [reflexivity|].
  destruct (array_index (key_string k)); simpl.
  - now constructor.
  - rewrite <- Permutation_middle. now constructor.
Qed.

(** [Object.keys] lists every own key once, whatever the order. *)
Lemma keys_perm (o : JsObject (V := V)) : Permutation (keys key_string o) (map fst o).
Proof.
  unfold keys. rewrite <- (index_string_keys_perm (map fst o)) at 3.
  apply Permutation_app_tail, Permutation_map, sort_perm.
Qed.

End ObjectFacts.

(** The loop of [getRankCounts] and [getSuitCounts]: one property per
    distinct key, holding the number of cards with that key. *)
Section CountFacts.
Context {K C : Type} (key_string : K -> string) (proj : C -> K).
Hypothesis key_string_inj : forall a b, key_string a = key_string b -> a = b.
Hypothesis K_eq_dec : forall a b : K, {a = b} + {a <> b}.


Lemma count_get (cards : list C) (acc : JsObject) (k : K) :
  get key_string (fold_left (count_step key_string proj) cards acc) k
  = match count_occ K_eq_dec (map proj cards) k with
    | O => get key_string acc k
    | S n => Some (or_zero (get key_string acc k) + Z.of_nat (S n))
    end.
Proof.
  revert acc; induction cards as [|c cards IH]; intros acc; simpl; [reflexivity|].
  rewrite IH.
  assert (Hstep : get key_string (count_step key_string proj acc c) k
                  = if K_eq_dec (proj c) k
                    then Some (or_zero (get key_string acc k) + 1)
                    else get key_string acc k).
  { unfold count_step. destruct (K_eq_dec (proj c) k) as [->|Hne].
    - now apply get_set_same.
    - now apply get_set_other. }
  rewrite Hstep. destruct (K_eq_dec (proj c) k) as [Heq|Hne]; [|reflexivity].
  simpl or_zero.
  destruct (count_occ K_eq_dec (map proj cards) k); f_equal; lia.
Qed.

Lemma count_keys_NoDup (cards : list C) (acc : JsObject) :
  NoDup (map fst acc) -> NoDup (map fst (fold_left (count_step key_string proj) cards acc)).
Proof.
  revert acc; induction cards as [|c cards IH]; intros acc Hnd; simpl; [exact Hnd|].
  apply IH. unfold count_step. rewrite keys_of_set.
  destruct (get key_string acc (proj c)) eqn:Hg; [exact Hnd|].
  apply get_None in Hg; [|exact key_string_inj].
  apply (Permutation_NoDup (l := proj c :: map fst acc)).
  - apply Permutation_cons_append.
  - now constructor.
Qed.
End CountFacts.

(** *** Numbers *)

(** The strengths the source writes as literals are printed as they are
    written. *)
Lemma literal_strengths_print_as_written :
  Forall (fun x : float * Q => (Number.decimal (fst x) == snd x)%Q)
         [(1.0%float, 1.0%Q); (0.95%float, 0.95%Q); (0.9%float, 0.9%Q);
          (0.85%float, 0.85%Q); (0.75%float, 0.75%Q); (0.65%float, 0.65%Q);
          (0.6%float, 0.6%Q); (0.55%float, 0.55%Q); (0.45%float, 0.45%Q);
          (0.1%float, 0.1%Q)].
Proof. repeat (constructor; [vm_compute; reflexivity|]). constructor. Qed.

(** A sum of doubles need not be the double of the sum of the decimals. *)
Lemma sum_is_rounded :
  Number.decimal (0.3 + 3 / 100)%float = 0.32999999999999996%Q
  /\ Number.decimal 0.33%float = 0.33%Q.
Proof. split; vm_compute; reflexivity. Qed.

End JsFacts.

(** * Facts about the hand evaluator *)
Module EvaluatorFacts.
Import JsFacts.

Section Counts.
Context {E : PokerEnums}.

Lemma getRankCounts_get (cards : list Card) (r : Rank) :
  get Rank_toString (getRankCounts cards) r
  = match rankCount cards r with
    | O => None
    | S n => Some (Z.of_nat (S n))
    end.
Proof.
  unfold getRankCounts, rankCount.
  exact (count_get Rank_toString rank Rank_toString_inj Rank_eq_dec cards [] r).
Qed.

Lemma getSuitCounts_get (cards : list Card) (s : Suit) :
  get Suit_toString (getSuitCounts cards) s
  = match suitCount cards s with
    | O => None
    | S n => Some (Z.of_nat (S n))
    end.
Proof.
  unfold getSuitCounts, suitCount.
  exact (count_get Suit_toString suit Suit_toString_inj Suit_eq_dec cards [] s).
Qed.

Lemma rankCountIs_spec (cards : list Card) (n : Z) (r : Rank) :
  0 < n ->
  rankCountIs (getRankCounts cards) n r = true <-> Z.of_nat (rankCount cards r) = n.
Proof.
  intros Hn. unfold rankCountIs. rewrite getRankCounts_get.
  destruct (rankCount cards r) as [|m].
  - split; [discriminate|simpl; lia].
  - apply Z.eqb_eq.
Qed.

Lemma rank_keys_NoDup (cards : list Card) :
  NoDup (keys Rank_toString (getRankCounts cards)).
Proof.
  eapply Permutation_NoDup; [symmetry; apply keys_perm|].
  apply (count_keys_NoDup Rank_toString rank Rank_toString_inj cards []). constructor.
Qed.

Lemma rank_keys_In (cards : list Card) (r : Rank) :
  In r (keys Rank_toString (getRankCounts cards)) <-> (0 < rankCount cards r)%nat.
Proof.
  split.
  - intros Hin. apply (Permutation_in _ (keys_perm Rank_toString _)) in Hin.
    destruct (rankCount cards r) eqn:Hc; [|lia].
    pose proof (getRankCounts_get cards r) as Hg. rewrite Hc in Hg.
    apply (get_None Rank_toString Rank_toString_inj) in Hg. contradiction.
  - intros Hpos.
    apply (Permutation_in _ (Permutation_sym (keys_perm Rank_toString _))).
    pose proof (getRankCounts_get cards r) as Hg.
    destruct (rankCount cards r); [lia|].
    now apply (get_Some_In_keys Rank_toString Rank_toString_inj) in Hg.
Qed.

Lemma suit_keys_In (cards : list Card) (s : Suit) :
  In s (keys Suit_toString (getSuitCounts cards)) <-> (0 < suitCount cards s)%nat.
Proof.
  split.
  - intros Hin. apply (Permutation_in _ (keys_perm Suit_toString _)) in Hin.
    destruct (suitCount cards s) eqn:Hc; [|lia].
    pose proof (getSuitCounts_get cards s) as Hg. rewrite Hc in Hg.
    apply (get_None Suit_toString Suit_toString_inj) in Hg. contradiction.
  - intros Hpos.
    apply (Permutation_in _ (Permutation_sym (keys_perm Suit_toString _))).
    pose proof (getSuitCounts_get cards s) as Hg.
    destruct (suitCount cards s); [lia|].
    now apply (get_Some_In_keys Suit_toString Suit_toString_inj) in Hg.
Qed.

Lemma rankCount_perm (cards cards' : list Card) (r : Rank) :
  Permutation cards cards' -> rankCount cards r = rankCount cards' r.
Proof.
  intros Hp. unfold rankCount.
  apply (Permutation_count_occ Rank_eq_dec). now apply Permutation_map.
Qed.

Lemma suitCount_perm (cards cards' : list Card) (s : Suit) :
  Permutation cards cards' -> suitCount cards s = suitCount cards' s.
Proof.
  intros Hp. unfold suitCount.
  apply (Permutation_count_occ Suit_eq_dec). now apply Permutation_map.
Qed.
End Counts.

Lemma getRankValue_inj (a b : Rank) : getRankValue a = getRankValue b -> a = b.
Proof. destruct a, b; simpl; intros H; try reflexivity; discriminate H. Qed.

Lemma getRankValue_range (r : Rank) : 2 <= getRankValue r <= 14.
Proof. destruct r; simpl; lia. Qed.

(** Which ranks a hand holds. *)
Lemma rank_of_value (cards : list Card) (r : Rank) :
  In (getRankValue r) (map (fun card => getRankValue (rank card)) cards) ->
  In r (map rank cards).
Proof.
  rewrite !in_map_iff. intros (c & Hv & Hc). exists c. split; [|exact Hc].
  now apply getRankValue_inj.
Qed.

Section Checks.
Context {E : PokerEnums}.

(** *** checkFlush *)

Lemma filter_suit_nonempty (cards : list Card) (s : Suit) :
  (0 < suitCount cards s)%nat ->
  filter (fun card => String.eqb (Suit_toString (suit card)) (Suit_toString s)) cards <> [].
Proof.
  unfold suitCount. induction cards as [|c cards IH]; simpl; [lia|].
  destruct (Suit_eq_dec (suit c) s) as [->|Hne].
  - rewrite String.eqb_refl. discriminate.
  - intros Hpos. rewrite (key_eqb_neq Suit_toString Suit_toString_inj _ _ Hne).
    now apply IH.
Qed.


Lemma isFlushSuit_spec (cards : list Card) (s : Suit) :
  isFlushSuit cards s = true <-> (5 <= suitCount cards s)%nat.
Proof.
  unfold isFlushSuit. rewrite getSuitCounts_get.
  destruct (suitCount cards s) as [|n].
  - split; [discriminate|lia].
  - rewrite Z.leb_le. lia.
Qed.

Lemma checkFlush_total (cards : list Card) : exists r, checkFlush cards = Return r.
Proof.
  unfold checkFlush. fold (isFlushSuit cards).
  destruct (find (isFlushSuit cards) _) as [fs|] eqn:Hf; [|eauto].
  rewrite Suit_toString_truthy.
  apply find_some in Hf. destruct Hf as [_ Hfs]. apply isFlushSuit_spec in Hfs.
  destruct (filter _ cards) eqn:Hfl; [|eauto].
  exfalso. revert Hfl. apply filter_suit_nonempty. lia.
Qed.

Lemma checkFlush_shape (cards : list Card) (h : HandEvaluation) :
  checkFlush cards = Return (Some h) ->
  handType h = "Flush"%string /\ handRank h = 6 /\ strength h = 0.75%Q
  /\ exists s, (5 <= suitCount cards s)%nat.
Proof.
  unfold checkFlush. fold (isFlushSuit cards).
  destruct (find (isFlushSuit cards) _) as [fs|] eqn:Hf; [|discriminate].
  rewrite Suit_toString_truthy.
  apply find_some in Hf. destruct Hf as [_ Hfs]. apply isFlushSuit_spec in Hfs.
  destruct (filter _ cards); [discriminate|].
  intros [= <-]. simpl. eauto.
Qed.

Lemma checkFlush_None (cards : list Card) :
  checkFlush cards = Return None -> forall s, (suitCount cards s < 5)%nat.
Proof.
  unfold checkFlush. fold (isFlushSuit cards).
  destruct (find (isFlushSuit cards) _) as [fs|] eqn:Hf.
  - rewrite Suit_toString_truthy. destruct (filter _ cards); discriminate.
  - intros _ s. destruct (le_lt_dec 5 (suitCount cards s)) as [Hge|Hlt]; [|exact Hlt].
    exfalso. pose proof (find_none _ _ Hf s) as Hn.
    rewrite (proj2 (isFlushSuit_spec cards s) Hge) in Hn.
    enough (In s (keys Suit_toString (getSuitCounts cards))) by (specialize (Hn H); discriminate).
    apply suit_keys_In. lia.
Qed.

Lemma checkFlush_fires (cards : list Card) (s : Suit) :
  (5 <= suitCount cards s)%nat -> exists h, checkFlush cards = Return (Some h).
Proof.
  intros Hs. destruct (checkFlush_total cards) as [[h|] Hr]; [eauto|].
  pose proof (checkFlush_None cards Hr s). lia.
Qed.

(** *** checkStraight *)


Lemma uniqueRanks_includes (cards : list Card) (r : Rank) :
  includes (uniqueRanks cards) (getRankValue r) = true -> In r (map rank cards).
Proof.
  intros H. apply includes_In in H. unfold uniqueRanks in H.
  apply sort_In in H. apply unique_In in H. apply rank_of_value. tauto.
Qed.


Lemma uniqueRanks_held (cards : list Card) (v : Z) :
  In v (uniqueRanks cards) -> exists r, In r (map rank cards) /\ getRankValue r = v.
Proof.
  unfold uniqueRanks. intros H. apply sort_In in H. apply unique_In in H.
  destruct H as [H _]. apply in_map_iff in H. destruct H as (c & Hv & Hc).
  exists (rank c). split; [now apply in_map|exact Hv].
Qed.

Lemma at_is_In (u : list Z) (i : nat) (v : Z) : at_is u i v = true -> In v u.
Proof.
  unfold at_is. destruct (nth_error u i) as [a|] eqn:Hn; [|discriminate].
  intros Ha. apply Z.eqb_eq in Ha. subst. eapply nth_error_In; eauto.
Qed.

(** What the scan of [checkStraight] finds at index [i]. *)
Lemma consecutive_spec (u : list Z) (i : nat) :
  consecutive u i = true ->
  forall j, In j [0; 1; 2; 3; 4] -> In (nth i u 0 - j) u.
Proof.
  unfold consecutive. destruct (nth_error u i) as [hi|] eqn:Hn; [|discriminate].
  rewrite (nth_error_nth _ _ 0 Hn). simpl. rewrite !andb_true_iff.
  intros (H1 & H2 & H3 & H4 & _) j [<-|[<-|[<-|[<-|[<-|[]]]]]].
  - rewrite Z.sub_0_r. eapply nth_error_In; eauto.
  - now apply at_is_In in H1.
  - now apply at_is_In in H2.
  - now apply at_is_In in H3.
  - now apply at_is_In in H4.
Qed.

Lemma checkStraight_shape (cards : list Card) (h : HandEvaluation) :
  checkStraight cards = Some h ->
  handType h = "Straight"%string /\ handRank h = 5
  /\ ((strength h = 0.65%Q /\ exists top, kickers h = [top] /\ holdsRun cards top)
      \/ (strength h = 0.6%Q /\ kickers h = [FIVE] /\ holdsWheel cards)).
Proof.
  unfold checkStraight. fold (uniqueRanks cards).
  destruct (find _ _) as [i|] eqn:Hi.
  - apply find_some in Hi. destruct Hi as [_ Hi].
    pose proof (consecutive_spec _ _ Hi) as Hrun.
    destruct (uniqueRanks_held cards (nth i (uniqueRanks cards) 0)) as (r0 & Hr0 & Hv0).
    { specialize (Hrun 0 ltac:(simpl; auto)). now rewrite Z.sub_0_r in Hrun. }
    destruct (find (fun rank => getRankValue rank =? _) Rank_values) as [top|] eqn:Htop.
    + apply find_some in Htop. destruct Htop as [_ Htop]. apply Z.eqb_eq in Htop.
      intros [= <-]. simpl. rewrite Rank_toString_truthy.
      repeat split. left. split; [reflexivity|]. exists top. split; [reflexivity|].
      intros j Hj. rewrite Htop. apply uniqueRanks_held. now apply Hrun.
    + exfalso. pose proof (find_none _ _ Htop r0 (Rank_values_all r0)) as Hn.
      simpl in Hn. rewrite Hv0, Z.eqb_refl in Hn. discriminate.
  - destruct (includes (uniqueRanks cards) 14) eqn:H14; [|discriminate].
    destruct (includes (uniqueRanks cards) 2) eqn:H2; [|discriminate].
    destruct (includes (uniqueRanks cards) 3) eqn:H3; [|discriminate].
    destruct (includes (uniqueRanks cards) 4) eqn:H4; [|discriminate].
    destruct (includes (uniqueRanks cards) 5) eqn:H5; [|discriminate].
    intros [= <-]. simpl. repeat split; auto. right. repeat split.
    intros r Hr. simpl in Hr.
    destruct Hr as [<-|[<-|[<-|[<-|[<-|[]]]]]]; now apply uniqueRanks_includes.
Qed.

(** *** checkStraightFlush *)

Lemma suitCount_nonempty (cards : list Card) (s : Suit) :
  (0 < suitCount cards s)%nat -> cards <> [].
Proof. intros H ->. unfold suitCount in H. simpl in H. lia. Qed.

Lemma checkStraightFlush_total (cards : list Card) :
  exists r, checkStraightFlush cards = Return r.
Proof.
  unfold checkStraightFlush.
  destruct (checkFlush_total cards) as [[f|] Hf]; rewrite Hf; simpl; [|eauto].
  destruct (checkStraight cards); [|eauto].
  destruct cards as [|c cards]; [|eauto].
  apply checkFlush_shape in Hf. destruct Hf as (_ & _ & _ & s & Hs).
  unfold suitCount in Hs. simpl in Hs. lia.
Qed.

Lemma checkStraightFlush_shape (cards : list Card) (h : HandEvaluation) :
  checkStraightFlush cards = Return (Some h) ->
  (handType h = "Royal Flush"%string /\ handRank h = 10 /\ strength h = 1.0%Q)
  \/ (handType h = "Straight Flush"%string /\ handRank h = 9 /\ strength h = 0.95%Q).
Proof.
  unfold checkStraightFlush.
  destruct (checkFlush cards) as [[f|]|e]; simpl; try discriminate.
  destruct (checkStraight cards); [|discriminate].
  destruct cards as [|c cards]; [discriminate|].
  intros [= <-]. simpl. destruct (getRankValue (rank c) =? 14); auto.
Qed.

(** Both a flush and a straight are found: the straight-flush check fires. *)
Lemma checkStraightFlush_fires (cards : list Card) (s : Suit) (st : HandEvaluation) :
  (5 <= suitCount cards s)%nat -> checkStraight cards = Some st ->
  exists h, checkStraightFlush cards = Return (Some h).
Proof.
  intros Hs Hst. unfold checkStraightFlush.
  destruct (checkFlush_fires cards s Hs) as [f Hf]. rewrite Hf, Hst. simpl.
  destruct cards as [|c cards]; [|eauto].
  unfold suitCount in Hs. simpl in Hs. lia.
Qed.

(** *** The checks that read the rank counts *)

Lemma checkFourOfAKind_shape (cards : list Card) (h : HandEvaluation) :
  checkFourOfAKind cards = Some h ->
  handType h = "Four of a Kind"%string /\ handRank h = 8 /\ strength h = 0.9%Q.
Proof.
  unfold checkFourOfAKind. destruct (find _ _) as [four|]; [|discriminate].
  rewrite Rank_toString_truthy. intros [= <-]. simpl. auto.
Qed.

Lemma checkFullHouse_shape (cards : list Card) (h : HandEvaluation) :
  checkFullHouse cards = Some h ->
  handType h = "Full House"%string /\ handRank h = 7 /\ strength h = 0.85%Q.
Proof.
  unfold checkFullHouse.
  destruct (find (rankCountIs _ 3) _) as [three|]; [|discriminate].
  destruct (find (rankCountIs _ 2) _) as [pair|]; [|discriminate].
  rewrite !Rank_toString_truthy. intros [= <-]. simpl. auto.
Qed.

Lemma find_rankCountIs (cards : list Card) (n : Z) :
  0 < n ->
  match find (rankCountIs (getRankCounts cards) n)
             (keys Rank_toString (getRankCounts cards)) with
  | Some r => Z.of_nat (rankCount cards r) = n
  | None => forall r, Z.of_nat (rankCount cards r) <> n
  end.
Proof.
  intros Hn. destruct (find _ _) as [r|] eqn:Hf.
  - apply find_some in Hf. now apply rankCountIs_spec.
  - intros r Hr. pose proof (find_none _ _ Hf r) as Hnone.
    rewrite (proj2 (rankCountIs_spec cards n r Hn) Hr) in Hnone.
    enough (In r (keys Rank_toString (getRankCounts cards))) by (specialize (Hnone H); discriminate).
    apply rank_keys_In. lia.
Qed.

(** A rank held exactly three times and a rank held exactly twice make
    the full-house check fire. *)
Lemma checkFullHouse_fires (cards : list Card) (three pair : Rank) :
  rankCount cards three = 3%nat -> rankCount cards pair = 2%nat ->
  exists h, checkFullHouse cards = Some h.
Proof.
  intros H3 H2. unfold checkFullHouse.
  pose proof (find_rankCountIs cards 3 ltac:(lia)) as F3.
  pose proof (find_rankCountIs cards 2 ltac:(lia)) as F2.
  destruct (find (rankCountIs _ 3) _) as [t|]; [|exfalso; apply (F3 three); lia].
  destruct (find (rankCountIs _ 2) _) as [q|]; [|exfalso; apply (F2 pair); lia].
  rewrite !Rank_toString_truthy. simpl. eauto.
Qed.

(** Without a rank held exactly twice there is no full house for the
    check, whatever else the hand holds. *)
Lemma checkFullHouse_needs_pair (cards : list Card) :
  (forall r, rankCount cards r <> 2%nat) -> checkFullHouse cards = None.
Proof.
  intros Hno. unfold checkFullHouse.
  pose proof (find_rankCountIs cards 2 ltac:(lia)) as F2.
  destruct (find (rankCountIs _ 3) _) as [t|]; [|reflexivity].
  destruct (find (rankCountIs _ 2) _) as [q|]; [|reflexivity].
  exfalso. apply (Hno q). lia.
Qed.

Lemma checkThreeOfAKind_shape (cards : list Card) (h : HandEvaluation) :
  checkThreeOfAKind cards = Some h ->
  handType h = "Three of a Kind"%string /\ handRank h = 4 /\ strength h = 0.55%Q.
Proof.
  unfold checkThreeOfAKind. destruct (find _ _) as [three|]; [|discriminate].
  rewrite Rank_toString_truthy. intros [= <-]. simpl. auto.
Qed.

Lemma checkTwoPair_shape (cards : list Card) (h : HandEvaluation) :
  checkTwoPair cards = Some h ->
  handType h = "Two Pair"%string /\ handRank h = 3 /\ strength h = 0.45%Q
  /\ (List.length (kickers h) <= 1)%nat
  /\ forall k, In k (kickers h) -> rankCount cards k = 1%nat.
Proof.
  unfold checkTwoPair. destruct (2 <=? _); [|discriminate].
  pose proof (find_rankCountIs cards 1 ltac:(lia)) as F1.
  intros [= <-]. simpl. repeat split.
  - destruct (find _ _) as [k|]; [|simpl; lia].
    destruct (truthy _); simpl; lia.
  - intros k Hk. destruct (find _ _) as [k'|]; [|contradiction].
    rewrite Rank_toString_truthy in Hk. destruct Hk as [<-|[]]. lia.
Qed.

Lemma filter_two {A} (p : A -> bool) (l : list A) (a b : A) :
  In a l -> In b l -> a <> b -> p a = true -> p b = true ->
  (2 <= List.length (filter p l))%nat.
Proof.
  intros Ha Hb Hne Hpa Hpb.
  apply (NoDup_incl_length (l := [a; b])).
  - constructor; [simpl; intuition congruence|]. constructor; [simpl; tauto|constructor].
  - intros x [<-|[<-|[]]]; apply filter_In; auto.
Qed.

(** When the two-pair check finds nothing, at most one rank is held
    exactly twice. *)
Lemma checkTwoPair_None (cards : list Card) (a b : Rank) :
  checkTwoPair cards = None ->
  rankCount cards a = 2%nat -> rankCount cards b = 2%nat -> a = b.
Proof.
  unfold checkTwoPair. intros Hnone Ha Hb.
  destruct (Rank_eq_dec a b) as [Heq|Hne]; [exact Heq|exfalso].
  destruct (2 <=? _) eqn:Hlen; [discriminate|]. apply Z.leb_gt in Hlen.
  enough (2 <= List.length (filter (rankCountIs (getRankCounts cards) 2)
                                   (keys Rank_toString (getRankCounts cards))))%nat by lia.
  apply (filter_two _ _ a b); auto.
  - apply rank_keys_In. lia.
  - apply rank_keys_In. lia.
  - apply rankCountIs_spec; lia.
  - apply rankCountIs_spec; lia.
Qed.

Lemma checkPair_shape (cards : list Card) (h : HandEvaluation) :
  checkPair cards = Some h ->
  handType h = "Pair"%string /\ handRank h = 2
  /\ exists pairRank,
       rankCount cards pairRank = 2%nat
       /\ strength h
          = Number.decimal (0.3 + Number.of_Z (getRankValue pairRank) / 100)%float.
Proof.
  unfold checkPair.
  pose proof (find_rankCountIs cards 2 ltac:(lia)) as F2.
  destruct (find _ _) as [pairRank|]; [|discriminate].
  rewrite Rank_toString_truthy. intros [= <-]. simpl. repeat split.
  exists pairRank. split; [lia|reflexivity].
Qed.

(** *** checkHighCard *)

Lemma checkHighCard_shape (cards : list Card) (h : HandEvaluation) :
  checkHighCard cards = Return h ->
  handType h = "High Card"%string /\ handRank h = 1
  /\ exists topRank,
       In topRank (map rank cards)
       /\ (forall card, In card cards -> getRankValue (rank card) <= getRankValue topRank)
       /\ strength h
          = Number.decimal (0.1 + Number.of_Z (getRankValue topRank) / 200)%float.
Proof.
  unfold checkHighCard, slice0.
  destruct (sort byRankDesc (map rank cards)) as [|top rest] eqn:Hs; simpl; [discriminate|].
  intros [= <-]. simpl. repeat split. exists top. repeat split.
  - apply (sort_In byRankDesc). rewrite Hs. now left.
  - intros card Hc.
    apply (sort_desc_head getRankValue _ _ _ Hs). now apply in_map.
Qed.

Lemma checkHighCard_total (cards : list Card) :
  cards <> [] -> exists h, checkHighCard cards = Return h.
Proof.
  intros Hne. unfold checkHighCard, slice0.
  destruct (sort byRankDesc (map rank cards)) as [|top rest] eqn:Hs; simpl; [|eauto].
  apply (f_equal (@List.length _)) in Hs. rewrite sort_length, length_map in Hs.
  destruct cards; [contradiction|discriminate].
Qed.


Lemma evaluateHand_long (cards : list Card) :
  (5 <= List.length cards)%nat ->
  evaluateHand cards
  = let sortedCards := sort byCardRankDesc cards in
    checkStraightFlush sortedCards
    ||> Return (checkFourOfAKind sortedCards)
    ||> Return (checkFullHouse sortedCards)
    ||> checkFlush sortedCards
    ||> Return (checkStraight sortedCards)
    ||> Return (checkThreeOfAKind sortedCards)
    ||> Return (checkTwoPair sortedCards)
    ||> Return (checkPair sortedCards)
    ||> checkHighCard sortedCards.
Proof.
  intros Hlen. unfold evaluateHand.
  destruct (Z.of_nat (List.length cards) <? 5) eqn:Hlt; [|reflexivity].
  apply Z.ltb_lt in Hlt. lia.
Qed.

Lemma evaluateHand_short (cards : list Card) :
  (List.length cards < 5)%nat ->
  evaluateHand cards
  = Return {| handType := "High Card";
              handRank := 1;
              kickers := [];
              description := "Incomplete hand";
              strength := 0.1 |}.
Proof.
  intros Hlen. unfold evaluateHand.
  destruct (Z.of_nat (List.length cards) <? 5) eqn:Hlt; [reflexivity|].
  apply Z.ltb_ge in Hlt. lia.
Qed.

Lemma evaluateHand_cases (cards : list Card) (h : HandEvaluation) :
  (5 <= List.length cards)%nat ->
  evaluateHand cards = Return h ->
  firstMatch (sort byCardRankDesc cards) h.
Proof.
  intros Hlen. rewrite (evaluateHand_long cards Hlen). cbv zeta.
  set (s := sort byCardRankDesc cards). unfold or_else, bind.
  destruct (checkStraightFlush s) as [[h1|]|e1] eqn:H1; try discriminate.
  { intros [= <-]. now apply ByStraightFlush. }
  destruct (checkFourOfAKind s) as [h2|] eqn:H2.
  { intros [= <-]. now apply ByFourOfAKind. }
  destruct (checkFullHouse s) as [h3|] eqn:H3.
  { intros [= <-]. now apply ByFullHouse. }
  destruct (checkFlush s) as [[h4|]|e4] eqn:H4; try discriminate.
  { intros [= <-]. now apply ByFlush. }
  destruct (checkStraight s) as [h5|] eqn:H5.
  { intros [= <-]. now apply ByStraight. }
  destruct (checkThreeOfAKind s) as [h6|] eqn:H6.
  { intros [= <-]. now apply ByThreeOfAKind. }
  destruct (checkTwoPair s) as [h7|] eqn:H7.
  { intros [= <-]. now apply ByTwoPair. }
  destruct (checkPair s) as [h8|] eqn:H8.
  { intros [= <-]. now apply ByPair. }
  intros H9. now apply ByHighCard.
Qed.

(** [evaluateHand] throws on no input. *)
Lemma evaluateHand_total (cards : list Card) : exists h, evaluateHand cards = Return h.
Proof.
  destruct (le_lt_dec 5 (List.length cards)) as [Hlen|Hlen].
  - rewrite (evaluateHand_long cards Hlen). cbv zeta.
    set (s := sort byCardRankDesc cards). unfold or_else, bind.
    destruct (checkStraightFlush_total s) as [[h1|] H1]; rewrite H1; [eauto|].
    destruct (checkFourOfAKind s); [eauto|].
    destruct (checkFullHouse s); [eauto|].
    destruct (checkFlush_total s) as [[h4|] H4]; rewrite H4; [eauto|].
    destruct (checkStraight s); [eauto|].
    destruct (checkThreeOfAKind s); [eauto|].
    destruct (checkTwoPair s); [eauto|].
    destruct (checkPair s); [eauto|].
    apply checkHighCard_total. intros Hs.
    apply (f_equal (@List.length _)) in Hs. unfold s in Hs.
    rewrite sort_length in Hs. simpl in Hs. lia.
  - rewrite (evaluateHand_short cards Hlen). eauto.
Qed.

Lemma sorted_rankCount (cards : list Card) (r : Rank) :
  rankCount (sort byCardRankDesc cards) r = rankCount cards r.
Proof. apply rankCount_perm, sort_perm. Qed.

Lemma sorted_suitCount (cards : list Card) (s : Suit) :
  suitCount (sort byCardRankDesc cards) s = suitCount cards s.
Proof. apply suitCount_perm, sort_perm. Qed.
End Checks.

End EvaluatorFacts.

(** * Facts about calls on stored arrays *)
Module ArrayFacts.
Import Arrays.

Lemma read_app (st more : Store) (a : Ref) :
  (a < List.length st)%nat -> read (st ++ more) a = read st a.
Proof. intros Ha. unfold read. now apply app_nth1. Qed.

Lemma read_last (st : Store) (v : list Card) : read (st ++ [v]) (List.length st) = v.
Proof. unfold read. rewrite app_nth2 by lia. now rewrite Nat.sub_diag. Qed.

Lemma write_last (st : Store) (old v : list Card) :
  write (st ++ [old]) (List.length st) v = st ++ [v].
Proof. induction st as [|x st IH]; simpl; [reflexivity|]. now rewrite IH. Qed.

(** A call returns what [evaluateHand] returns on the array's cards, and
    only adds the sorted copy to the store. *)
Lemma evaluateHandCall_spec {E : PokerEnums} (cards : Ref) (st : Store) :
  evaluateHandCall cards st
  = (evaluateHand (read st cards),
     if Z.of_nat (List.length (read st cards)) <? 5 then st
     else st ++ [sort byCardRankDesc (read st cards)]).
Proof.
  unfold evaluateHandCall, evaluateHand, spread, sortInPlace.
  destruct (Z.of_nat (List.length (read st cards)) <? 5); [reflexivity|].
  rewrite read_last, write_last, read_last. reflexivity.
Qed.

End ArrayFacts.

(** * Chip conservation in the betting engine *)
Module EngineFacts.
Import GameEngine.

Lemma sumChips_updateAt (i : nat) (f : Player -> Player) (ps : list Player) :
  sumChips (updateAt i f ps)
  = sumChips ps + match nth_error ps i with
                  | Some p => chips (f p) - chips p
                  | None => 0
                  end.
Proof.
  revert i; induction ps as [|p ps IH]; intros [|i]; simpl; try lia.
  rewrite IH. lia.
Qed.

Lemma sumChips_updateAt_same (i : nat) (f : Player -> Player) (ps : list Player) :
  (forall p, chips (f p) = chips p) -> sumChips (updateAt i f ps) = sumChips ps.
Proof.
  intros Hf. rewrite sumChips_updateAt. destruct (nth_error ps i); [rewrite Hf|]; lia.
Qed.

Lemma sumChips_map_same (f : Player -> Player) (ps : list Player) :
  (forall p, chips (f p) = chips p) -> sumChips (map f ps) = sumChips ps.
Proof.
  intros Hf. induction ps as [|p ps IH]; simpl; [reflexivity|]. rewrite Hf, IH. lia.
Qed.

Lemma updateAt_length (i : nat) (f : Player -> Player) (ps : list Player) :
  List.length (updateAt i f ps) = List.length ps.
Proof.
  revert i; induction ps as [|p ps IH]; intros [|i]; simpl; auto.
Qed.

Lemma sumChips_credit (i : nat) (amount : Z) (ps : list Player) :
  (i < List.length ps)%nat -> sumChips (credit i amount ps) = sumChips ps + amount.
Proof.
  intros Hi. unfold credit. rewrite sumChips_updateAt.
  destruct (nth_error ps i) eqn:Hn; [simpl; lia|].
  apply nth_error_None in Hn. lia.
Qed.

Lemma credit_all (share : Z) (winners : list nat) (ps : list Player) :
  Forall (fun i => (i < List.length ps)%nat) winners ->
  List.length (fold_right (fun i qs => credit i share qs) ps winners) = List.length ps
  /\ sumChips (fold_right (fun i qs => credit i share qs) ps winners)
     = sumChips ps + share * Z.of_nat (List.length winners).
Proof.
  induction 1 as [|i winners Hi _ IH]; simpl fold_right.
  - split; [reflexivity|simpl; lia].
  - destruct IH as [Hlen Hsum]. split.
    + unfold credit at 1. now rewrite updateAt_length.
    + rewrite sumChips_credit by lia. rewrite Hsum. simpl List.length. lia.
Qed.

(** Paying out the pot moves all of it to the winners. *)
Lemma awardPot_conserves (winners : list nat) (s : GameState) :
  Forall (fun i => (i < List.length (players s))%nat) winners ->
  chipsInPlay (awardPot winners s) = chipsInPlay s.
Proof.
  intros Hall. unfold awardPot. destruct winners as [|first rest] eqn:Hw; [reflexivity|].
  rewrite <- Hw in *. unfold chipsInPlay. simpl.
  destruct (credit_all (pot s / Z.of_nat (List.length winners)) winners (players s) Hall)
    as [Hlen Hsum].
  rewrite sumChips_credit.
  - rewrite Hsum.
    pose proof (Z.div_mod (pot s) (Z.of_nat (List.length winners))) as Hdm.
    assert (Z.of_nat (List.length winners) <> 0) by (rewrite Hw; simpl; lia).
    specialize (Hdm H). lia.
  - rewrite Hlen. rewrite Hw in Hall. now inversion Hall.
Qed.

Lemma activeSeats_in_range (ps : list Player) :
  Forall (fun i => (i < List.length ps)%nat) (activeSeats ps).
Proof.
  apply Forall_forall. intros i Hi. unfold activeSeats in Hi.
  apply filter_In in Hi. destruct Hi as [Hi _]. apply in_seq in Hi. lia.
Qed.

Section Conservation.
Context {E : PokerEnums}.
Variable minimumIncrement : Z.

Lemma bestSeats_in_range (s : GameState) :
  Forall (fun i => (i < List.length (players s))%nat) (bestSeats s).
Proof.
  apply Forall_forall. intros i Hi. unfold bestSeats in Hi.
  apply filter_In in Hi. destruct Hi as [Hi _].
  pose proof (activeSeats_in_range (players s)) as Hall.
  rewrite Forall_forall in Hall. now apply Hall.
Qed.

Lemma showdown_conserves (s : GameState) : chipsInPlay (showdown s) = chipsInPlay s.
Proof.
  unfold showdown. rewrite awardPot_conserves; [reflexivity|].
  exact (bestSeats_in_range s).
Qed.

Lemma nextActive_conserves (s : GameState) : chipsInPlay (nextActive s) = chipsInPlay s.
Proof. unfold nextActive. now destruct (find _ _). Qed.

Lemma startRound_conserves (next : Phase) (reveal : nat) (s : GameState) :
  chipsInPlay (startRound next reveal s) = chipsInPlay s.
Proof.
  unfold chipsInPlay, startRound. simpl. now rewrite sumChips_map_same.
Qed.

Lemma afterTurn_conserves (s : GameState) : chipsInPlay (afterTurn s) = chipsInPlay s.
Proof.
  unfold afterTurn, afterRiver. destruct (roundClosed _).
  - now rewrite showdown_conserves, startRound_conserves.
  - now rewrite nextActive_conserves, startRound_conserves.
Qed.

Lemma afterFlop_conserves (s : GameState) : chipsInPlay (afterFlop s) = chipsInPlay s.
Proof.
  unfold afterFlop. destruct (roundClosed _).
  - now rewrite afterTurn_conserves, startRound_conserves.
  - now rewrite nextActive_conserves, startRound_conserves.
Qed.

Lemma afterPreflop_conserves (s : GameState) :
  chipsInPlay (afterPreflop s) = chipsInPlay s.
Proof.
  unfold afterPreflop. destruct (roundClosed _).
  - now rewrite afterFlop_conserves, startRound_conserves.
  - now rewrite nextActive_conserves, startRound_conserves.
Qed.

Lemma afterAction_conserves (s : GameState) : chipsInPlay (afterAction s) = chipsInPlay s.
Proof.
  unfold afterAction, closeRound. destruct (roundClosed s).
  - destruct (phase s); unfold afterRiver;
      auto using afterPreflop_conserves, afterFlop_conserves, afterTurn_conserves,
                 showdown_conserves.
  - apply nextActive_conserves.
Qed.

Lemma pay_conserves (i : nat) (amount : Z) (s : GameState) (p : Player) :
  nth_error (players s) i = Some p -> chipsInPlay (pay i amount s) = chipsInPlay s.
Proof.
  intros Hp. unfold chipsInPlay, pay. simpl.
  rewrite sumChips_updateAt, Hp. simpl. lia.
Qed.

Lemma markActed_conserves (i : nat) (s : GameState) :
  chipsInPlay (markActed i s) = chipsInPlay s.
Proof.
  unfold chipsInPlay, markActed. simpl. now rewrite sumChips_updateAt_same.
Qed.

(** One accepted action leaves the chips in play as they were. *)
Lemma processPlayerAction_conserves (s s' : GameState) (action : PlayerAction) (amount : Z) :
  processPlayerAction minimumIncrement s action amount = Ok s' ->
  chipsInPlay s' = chipsInPlay s.
Proof.
  unfold processPlayerAction.
  destruct (nth_error (players s) (activePlayerIndex s)) as [p|] eqn:Hp; [|discriminate].
  destruct (negb _); [discriminate|].
  destruct action.
  - set (s1 := withPlayers s _).
    assert (H1 : chipsInPlay s1 = chipsInPlay s).
    { unfold chipsInPlay, s1. simpl. now rewrite sumChips_updateAt_same. }
    destruct (activeSeats (players s1)) as [|w [|w' ws]] eqn:Hseats; intros Heq.
    + assert (s' = afterAction s1) as -> by congruence.
      rewrite afterAction_conserves. exact H1.
    + assert (s' = awardPot [w] s1) as -> by congruence.
      rewrite awardPot_conserves; [exact H1|].
      rewrite <- Hseats. apply activeSeats_in_range.
    + assert (s' = afterAction s1) as -> by congruence.
      rewrite afterAction_conserves. exact H1.
  - intros [= <-]. now rewrite afterAction_conserves, markActed_conserves.
  - intros [= <-].
    rewrite afterAction_conserves, markActed_conserves. now apply (pay_conserves _ _ _ p).
  - destruct (amount <? _); [discriminate|].
    destruct (chips p <? amount); [discriminate|].
    intros [= <-]. rewrite afterAction_conserves, markActed_conserves.
    unfold chipsInPlay at 1. simpl. rewrite sumChips_map_same by reflexivity.
    now apply (pay_conserves _ (amount - currentBet p) _ p).
Qed.
End Conservation.

End EngineFacts.

(** * The properties the specification states *)

Import EvaluatorFacts JsFacts Hands.

Lemma evaluateHand_by_straight_flush {E : PokerEnums} (cards : list Card) (h : HandEvaluation) :
  (5 <= List.length cards)%nat ->
  checkStraightFlush (sort byCardRankDesc cards) = Return (Some h) ->
  evaluateHand cards = Return h.
Proof.
  intros Hlen Hsf. rewrite (evaluateHand_long cards Hlen). cbv zeta.
  unfold or_else at 1. now rewrite Hsf.
Qed.

(** What the straight-flush check tests, on any hand of at least 5
    cards: some suit is held five times and the ranks of the whole hand
    make a straight; the category is Royal Flush exactly when,
    moreover, the hand holds an Ace. *)
Lemma straight_flush_is_flush_and_straight {E : PokerEnums}
      (cards : list Card) (h : HandEvaluation) :
  (5 <= List.length cards)%nat ->
  evaluateHand cards = Return h ->
  (9 <= handRank h <->
   (exists s, (5 <= suitCount cards s)%nat)
   /\ checkStraight (sort byCardRankDesc cards) <> None)
  /\ (handRank h = 10 <-> 9 <= handRank h /\ In ACE (map rank cards)).
Proof.
  intros Hlen Hh. pose proof Hh as Hlong.
  rewrite (evaluateHand_long cards Hlen) in Hlong. cbv zeta in Hlong.
  unfold or_else at 1 in Hlong.
  destruct (checkStraightFlush_total (sort byCardRankDesc cards)) as [[h1|] H1];
    rewrite H1 in Hlong; simpl in Hlong.
  - injection Hlong as <-. revert H1. unfold checkStraightFlush.
    destruct (checkFlush (sort byCardRankDesc cards)) as [[f|]|e] eqn:Hf; simpl;
      try discriminate.
    destruct (checkStraight (sort byCardRankDesc cards)) as [st|] eqn:Hst; [|discriminate].
    destruct (sort byCardRankDesc cards) as [|c0 rest] eqn:Hs; [discriminate|].
    intros [= <-]. simpl.
    apply checkFlush_shape in Hf. destruct Hf as (_ & _ & _ & suit0 & Hsuit).
    rewrite <- Hs, sorted_suitCount in Hsuit.
    assert (Hmax : forall c, In c cards -> getRankValue (rank c) <= getRankValue (rank c0)).
    { intros c Hc.
      exact (sort_desc_head (fun c => getRankValue (rank c)) cards c0 rest Hs c Hc). }
    assert (Hin0 : In c0 cards).
    { apply (sort_In byCardRankDesc). rewrite Hs. now left. }
    split.
    + split; [intros _; split; [eauto|discriminate]|].
      intros _. destruct (getRankValue (rank c0) =? 14); lia.
    + destruct (getRankValue (rank c0) =? 14) eqn:H14.
      * apply Z.eqb_eq in H14. split; [intros _; split; [lia|]|reflexivity].
        apply in_map_iff. exists c0. split; [|exact Hin0].
        apply getRankValue_inj. exact H14.
      * apply Z.eqb_neq in H14. split; [discriminate|]. intros [_ Hace]. exfalso.
        apply in_map_iff in Hace. destruct Hace as (c & Hr & Hc).
        specialize (Hmax c Hc). rewrite Hr in Hmax. simpl in Hmax.
        pose proof (getRankValue_range (rank c0)). lia.
  - assert (Hlow : handRank h < 9).
    { destruct (evaluateHand_cases cards h Hlen Hh)
        as [H|_ H|_ _ H|_ H|_ H|_ _ H|_ H|_ _ H|_ _ H].
      - rewrite H1 in H. discriminate.
      - apply checkFourOfAKind_shape in H. lia.
      - apply checkFullHouse_shape in H. lia.
      - apply checkFlush_shape in H. lia.
      - apply checkStraight_shape in H. lia.
      - apply checkThreeOfAKind_shape in H. lia.
      - apply checkTwoPair_shape in H. lia.
      - apply checkPair_shape in H. lia.
      - apply checkHighCard_shape in H. lia. }
    split; [|lia]. split; [lia|]. intros [[suit0 Hsuit] Hst]. exfalso.
    destruct (checkStraight (sort byCardRankDesc cards)) as [st|] eqn:Hst'; [|congruence].
    destruct (checkStraightFlush_fires (sort byCardRankDesc cards) suit0 st) as [h' Hh'];
      [now rewrite sorted_suitCount|exact Hst'|].
    rewrite H1 in Hh'. discriminate.
Qed.

(** C1, as the code has it: on {Ac,2c,3c,4c,5c} the straight check alone
    finds the wheel (Straight, five-high, strength 0.60), but the hand
    is a flush too, so the straight-flush check, which runs first, fires:
    [evaluateHand] returns a straight-flush category, handRank 9 or 10
    and strength at least 0.95. *)
Theorem wheel_of_clubs_is_a_straight_flush {E : PokerEnums} :
  checkStraight (sort byCardRankDesc wheelClubs)
  = Some {| handType := "Straight";
            handRank := 5;
            kickers := [FIVE];
            description := "Straight, Five high (Wheel)";
            strength := 0.6 |}
  /\ exists h,
       evaluateHand wheelClubs = Return h
       /\ 9 <= handRank h
       /\ (handType h = "Straight Flush"%string \/ handType h = "Royal Flush"%string)
       /\ (0.95 <= strength h)%Q.
Proof.
  split; [vm_compute; reflexivity|].
  destruct (checkStraightFlush_fires (sort byCardRankDesc wheelClubs) CLUBS
              {| handType := "Straight";
                 handRank := 5;
                 kickers := [FIVE];
                 description := "Straight, Five high (Wheel)";
                 strength := 0.6 |}) as [h Hh].
  - vm_compute. lia.
  - vm_compute; reflexivity.
  - exists h. split.
    + apply evaluateHand_by_straight_flush; [simpl; lia|exact Hh].
    + apply checkStraightFlush_shape in Hh.
      destruct Hh as [(Ht & Hr & Hs)|(Ht & Hr & Hs)]; rewrite Ht, Hr, Hs;
        (split; [lia|split; [auto|unfold Qle; simpl; lia]]).
Qed.

(** C1, as the specification states it, fails: on {Ac,2c,3c,4c,5c}
    [evaluateHand] does not return a Straight of strength 0.60. *)
Lemma wheel_of_clubs_is_not_a_plain_straight :
  ~ (exists h, evaluateHand (E := Deck.enums) wheelClubs = Return h
               /\ handType h = "Straight"%string
               /\ strength h = 0.6%Q
               /\ handRank h < 9).
Proof.
  intros (h & Hh & Ht & _). vm_compute in Hh. injection Hh as <-. discriminate Ht.
Qed.

(** C2: the straight-flush check fires on a flush and a straight that do
    not share their cards. On {5h,6h,7h,8h,Kh,9c,2d} [evaluateHand]
    returns Straight Flush although no suit holds five consecutive
    ranks; on {Ah,9h,8h,7h,6h,5h,2c} it returns Royal Flush although the
    straight flush in hearts is nine-high and none is Ace-high. *)
Theorem straight_flush_without_suited_straight :
  (evaluateHand (E := Deck.enums) heartsAndNine
   = Return {| handType := "Straight Flush";
               handRank := 9;
               kickers := [KING];
               description := "Straight Flush, undefined high";
               strength := 0.95 |}
   /\ forall s high, straightInSuit heartsAndNine s high = false)
  /\ (evaluateHand (E := Deck.enums) aceBesideNineHigh
      = Return {| handType := "Royal Flush";
                  handRank := 10;
                  kickers := [ACE];
                  description := "Royal Flush";
                  strength := 1.0 |}
      /\ straightInSuit aceBesideNineHigh HEARTS NINE = true
      /\ forall s, straightInSuit aceBesideNineHigh s ACE = false).
Proof.
  repeat split.
  - intros s high. destruct s, high; reflexivity.
  - intros s. destruct s; reflexivity.
Qed.

(** C3, as the specification states it, fails: the empty hand does not
    make [evaluateHand] fail with InsufficientCards. *)
Lemma empty_hand_is_not_an_error :
  evaluateHand (E := Deck.enums) [] <> Throw InsufficientCards.
Proof. discriminate. Qed.

(** C3, as the code has it: on fewer than 5 cards [evaluateHand] does
    not fail; it returns a HandEvaluation, of category High Card and
    handRank 1. *)
Theorem short_hand_returns_an_evaluation {E : PokerEnums} (cards : list Card) :
  (List.length cards < 5)%nat ->
  exists h, evaluateHand cards = Return h
            /\ handType h = "High Card"%string /\ handRank h = 1.
Proof.
  intros Hlen. rewrite (evaluateHand_short cards Hlen). eexists. split; [reflexivity|].
  split; reflexivity.
Qed.

Lemma short_hand_returns_an_evaluation_witness :
  exists h, evaluateHand (E := Deck.enums) [card ACE SPADES; card KING SPADES] = Return h
            /\ handType h = "High Card"%string /\ handRank h = 1.
Proof.
  apply (short_hand_returns_an_evaluation (E := Deck.enums)
           [card ACE SPADES; card KING SPADES]).
  simpl. lia.
Defined.

(** C4: on fewer than 5 cards, the empty list included, [evaluateHand]
    returns the placeholder: High Card, handRank 1, strength 0.1, no
    kickers, description 'Incomplete hand'. *)
Theorem short_hand_placeholder {E : PokerEnums} (cards : list Card) :
  (List.length cards < 5)%nat ->
  evaluateHand cards
  = Return {| handType := "High Card";
              handRank := 1;
              kickers := [];
              description := "Incomplete hand";
              strength := 0.1 |}.
Proof. apply evaluateHand_short. Qed.

Lemma short_hand_placeholder_witness :
  evaluateHand (E := Deck.enums) []
  = Return {| handType := "High Card";
              handRank := 1;
              kickers := [];
              description := "Incomplete hand";
              strength := 0.1 |}.
Proof.
  apply (short_hand_placeholder (E := Deck.enums) []). simpl. lia.
Defined.

(** The hand the specification gives for the full house evaluates as it
    says. *)
Example twos_over_fives_is_a_full_house :
  evaluateHand (E := Deck.enums) twosOverFives
  = Return {| handType := "Full House";
              handRank := 7;
              kickers := [TWO; FIVE];
              description := "Full House, 2s over 5s";
              strength := 0.85 |}.
Proof. reflexivity. Qed.

(** A rank held exactly three times and another held exactly twice make
    a Full House, when neither the straight-flush check nor the
    four-of-a-kind check fires. *)
Lemma three_and_exactly_two_is_a_full_house {E : PokerEnums}
      (cards : list Card) (three pair : Rank) :
  (5 <= List.length cards)%nat ->
  checkStraightFlush (sort byCardRankDesc cards) = Return None ->
  checkFourOfAKind (sort byCardRankDesc cards) = None ->
  rankCount cards three = 3%nat -> rankCount cards pair = 2%nat ->
  exists h, evaluateHand cards = Return h
            /\ handType h = "Full House"%string /\ handRank h = 7
            /\ strength h = 0.85%Q.
Proof.
  intros Hlen Hsf Hfour H3 H2.
  destruct (checkFullHouse_fires (sort byCardRankDesc cards) three pair) as [h Hh].
  - now rewrite sorted_rankCount.
  - now rewrite sorted_rankCount.
  - exists h. split; [|now apply checkFullHouse_shape in Hh].
    rewrite (evaluateHand_long cards Hlen). cbv zeta.
    unfold or_else, bind. now rewrite Hsf, Hfour, Hh.
Qed.

(** Without a rank held exactly twice, [evaluateHand] returns no Full
    House, whatever else the hand holds. *)
Lemma no_pair_no_full_house {E : PokerEnums} (cards : list Card) (h : HandEvaluation) :
  (5 <= List.length cards)%nat ->
  (forall r, rankCount cards r <> 2%nat) ->
  evaluateHand cards = Return h ->
  handRank h <> 7.
Proof.
  intros Hlen Hno Hh.
  assert (Hnone : checkFullHouse (sort byCardRankDesc cards) = None).
  { apply checkFullHouse_needs_pair. intros r. rewrite sorted_rankCount. apply Hno. }
  destruct (evaluateHand_cases cards h Hlen Hh)
    as [H|_ H|_ _ H|_ H|_ H|_ _ H|_ H|_ _ H|_ _ H].
  - apply checkStraightFlush_shape in H. lia.
  - apply checkFourOfAKind_shape in H. lia.
  - rewrite Hnone in H. discriminate.
  - apply checkFlush_shape in H. lia.
  - apply checkStraight_shape in H. lia.
  - apply checkThreeOfAKind_shape in H. lia.
  - apply checkTwoPair_shape in H. lia.
  - apply checkPair_shape in H. lia.
  - apply checkHighCard_shape in H. lia.
Qed.

(** C5: a second rank held three times is not counted as the pair. On
    {Ac,Ad,Ah,Kc,Kd,Kh,2s} the Aces occur exactly 3 times and the Kings
    at least 2 times, neither the straight-flush check nor the
    four-of-a-kind check fires, and [evaluateHand] returns Three of a
    Kind with strength 0.55, not Full House. *)
Theorem two_trips_is_not_a_full_house :
  rankCount acesAndKings ACE = 3%nat
  /\ (2 <= rankCount acesAndKings KING)%nat
  /\ checkStraightFlush (E := Deck.enums) (sort byCardRankDesc acesAndKings) = Return None
  /\ checkFourOfAKind (E := Deck.enums) (sort byCardRankDesc acesAndKings) = None
  /\ evaluateHand (E := Deck.enums) acesAndKings
     = Return {| handType := "Three of a Kind";
                 handRank := 4;
                 kickers := [TWO];
                 description := "Three As";
                 strength := 0.55 |}.
Proof.
  split; [reflexivity|]. split; [vm_compute; lia|]. repeat split.
Qed.

Section Strength.
Context {E : PokerEnums}.

Lemma holdsWheel_sorted (cards : list Card) :
  holdsWheel (sort byCardRankDesc cards) -> holdsWheel cards.
Proof.
  intros H r Hr. specialize (H r Hr).
  eapply Permutation_in; [|exact H]. apply Permutation_map, sort_perm.
Qed.

Lemma holdsRun_sorted (cards : list Card) (top : Rank) :
  holdsRun (sort byCardRankDesc cards) top -> holdsRun cards top.
Proof.
  intros H j Hj. destruct (H j Hj) as (r & Hr & Hv). exists r. split; [|exact Hv].
  eapply Permutation_in; [|exact Hr]. apply Permutation_map, sort_perm.
Qed.

(** The decimal of a strength reads back as the double it names. *)
Lemma strength_decimals_read_back (r : Rank) :
  let pair := (0.3 + Number.of_Z (getRankValue r) / 100)%float in
  let high := (0.1 + Number.of_Z (getRankValue r) / 200)%float in
  Number.reads (Number.decimal pair) pair = true
  /\ Number.reads (Number.decimal high) high = true.
Proof. destruct r; split; vm_compute; reflexivity. Qed.

(** The doubles of [0.3 + v/100]: the decimal the formula denotes,
    but for threes and fours, where the sum is rounded one step below. *)
Lemma pair_strength_values (r : Rank) :
  let s := Number.decimal (0.3 + Number.of_Z (getRankValue r) / 100)%float in
  (r = THREE -> s = 0.32999999999999996%Q)
  /\ (r = FOUR -> s = 0.33999999999999997%Q)
  /\ (r <> THREE -> r <> FOUR -> (s == 0.3 + inject_Z (getRankValue r) / 100)%Q).
Proof.
  destruct r; repeat split; intros; try discriminate; try contradiction;
    vm_compute; reflexivity.
Qed.

(** The doubles of [0.1 + v/200]: the decimal the formula denotes, but
    for four, nine and ten, where the sum is rounded one step above. *)
Lemma high_card_strength_values (r : Rank) :
  let s := Number.decimal (0.1 + Number.of_Z (getRankValue r) / 200)%float in
  (r = FOUR -> s = 0.12000000000000001%Q)
  /\ (r = NINE -> s = 0.14500000000000002%Q)
  /\ (r = TEN -> s = 0.15000000000000002%Q)
  /\ (~ In r [FOUR; NINE; TEN] -> (s == 0.1 + inject_Z (getRankValue r) / 200)%Q).
Proof.
  destruct r; repeat split; intros H; try discriminate H;
    try (exfalso; apply H; simpl; tauto); vm_compute; reflexivity.
Qed.

(** C6: on at least 5 cards [evaluateHand] returns an evaluation of one
    of the ten categories, and its strength is the number the category
    fixes: Royal Flush 1.0, Straight Flush 0.95, Four of a Kind 0.9,
    Full House 0.85, Flush 0.75, Straight 0.65 (0.60 for the wheel,
    five-high with A-2-3-4-5 held), Three of a Kind 0.55, Two Pair 0.45.
    For Pair it is the double [0.3 + pairRank/100], pairRank being the
    one rank held exactly twice: the decimal 0.3 + pairRank/100, but
    0.32999999999999996 for threes and 0.33999999999999997 for fours.
    For High Card it is the double [0.1 + topRank/200], topRank being
    the highest rank held: the decimal 0.1 + topRank/200, but
    0.12000000000000001 for a four, 0.14500000000000002 for a nine and
    0.15000000000000002 for a ten. *)
Theorem strength_is_fixed_by_category (cards : list Card) :
  (5 <= List.length cards)%nat ->
  exists h,
    evaluateHand cards = Return h
    /\ In (handType h)
          ["Royal Flush"; "Straight Flush"; "Four of a Kind"; "Full House"; "Flush";
           "Straight"; "Three of a Kind"; "Two Pair"; "Pair"; "High Card"]%string
    /\ (handType h = "Royal Flush"%string -> strength h = 1.0%Q)
    /\ (handType h = "Straight Flush"%string -> strength h = 0.95%Q)
    /\ (handType h = "Four of a Kind"%string -> strength h = 0.9%Q)
    /\ (handType h = "Full House"%string -> strength h = 0.85%Q)
    /\ (handType h = "Flush"%string -> strength h = 0.75%Q)
    /\ (handType h = "Straight"%string ->
        (strength h = 0.65%Q /\ exists top, kickers h = [top] /\ holdsRun cards top)
        \/ (strength h = 0.6%Q /\ kickers h = [FIVE] /\ holdsWheel cards))
    /\ (handType h = "Three of a Kind"%string -> strength h = 0.55%Q)
    /\ (handType h = "Two Pair"%string -> strength h = 0.45%Q)
    /\ (handType h = "Pair"%string ->
        exists pairRank,
          rankCount cards pairRank = 2%nat
          /\ (forall r, rankCount cards r = 2%nat -> r = pairRank)
          /\ strength h
             = Number.decimal (0.3 + Number.of_Z (getRankValue pairRank) / 100)%float
          /\ (pairRank = THREE -> strength h = 0.32999999999999996%Q)
          /\ (pairRank = FOUR -> strength h = 0.33999999999999997%Q)
          /\ (pairRank <> THREE -> pairRank <> FOUR ->
              (strength h == 0.3 + inject_Z (getRankValue pairRank) / 100)%Q))
    /\ (handType h = "High Card"%string ->
        exists topRank,
          In topRank (map rank cards)
          /\ (forall c, In c cards -> getRankValue (rank c) <= getRankValue topRank)
          /\ strength h
             = Number.decimal (0.1 + Number.of_Z (getRankValue topRank) / 200)%float
          /\ (topRank = FOUR -> strength h = 0.12000000000000001%Q)
          /\ (topRank = NINE -> strength h = 0.14500000000000002%Q)
          /\ (topRank = TEN -> strength h = 0.15000000000000002%Q)
          /\ (~ In topRank [FOUR; NINE; TEN] ->
              (strength h == 0.1 + inject_Z (getRankValue topRank) / 200)%Q)).
Proof.
  intros Hlen. destruct (evaluateHand_total cards) as [h Hh]. exists h.
  split; [exact Hh|].
  destruct (evaluateHand_cases cards h Hlen Hh)
    as [H|_ H|_ _ H|_ H|_ H|_ _ H|_ H|_ Htwo H|_ _ H].
  - apply checkStraightFlush_shape in H.
    destruct H as [(Ht & _ & Hs)|(Ht & _ & Hs)]; rewrite Ht, Hs;
      (split; [simpl; tauto|]);
      repeat split; intros Hc; try discriminate Hc; reflexivity.
  - apply checkFourOfAKind_shape in H. destruct H as (Ht & _ & Hs). rewrite Ht, Hs.
    split; [simpl; tauto|].
    repeat split; intros Hc; try discriminate Hc; reflexivity.
  - apply checkFullHouse_shape in H. destruct H as (Ht & _ & Hs). rewrite Ht, Hs.
    split; [simpl; tauto|].
    repeat split; intros Hc; try discriminate Hc; reflexivity.
  - apply checkFlush_shape in H. destruct H as (Ht & _ & Hs & _). rewrite Ht, Hs.
    split; [simpl; tauto|].
    repeat split; intros Hc; try discriminate Hc; reflexivity.
  - apply checkStraight_shape in H. destruct H as (Ht & _ & Hs). rewrite Ht.
    split; [simpl; tauto|].
    repeat split; intros Hc; try discriminate Hc.
    destruct Hs as [(Hs & top & Hk & Hrun)|(Hs & Hk & Hw)]; [left|right].
    + split; [exact Hs|]. exists top. split; [exact Hk|]. now apply holdsRun_sorted.
    + repeat split; auto. now apply holdsWheel_sorted.
  - apply checkThreeOfAKind_shape in H. destruct H as (Ht & _ & Hs). rewrite Ht, Hs.
    split; [simpl; tauto|].
    repeat split; intros Hc; try discriminate Hc; reflexivity.
  - apply checkTwoPair_shape in H. destruct H as (Ht & _ & Hs & _). rewrite Ht, Hs.
    split; [simpl; tauto|].
    repeat split; intros Hc; try discriminate Hc; reflexivity.
  - apply checkPair_shape in H. destruct H as (Ht & _ & pairRank & Hp & Hs). rewrite Ht.
    split; [simpl; tauto|].
    repeat split; intros Hc; try discriminate Hc.
    exists pairRank. rewrite sorted_rankCount in Hp.
    split; [exact Hp|]. split.
    { intros r Hr. apply (checkTwoPair_None (sort byCardRankDesc cards)); auto;
        now rewrite sorted_rankCount. }
    split; [exact Hs|]. rewrite Hs. exact (pair_strength_values pairRank).
  - apply checkHighCard_shape in H. destruct H as (Ht & _ & top & Hin & Hmax & Hs).
    rewrite Ht. split; [simpl; tauto|].
    repeat split; intros Hc; try discriminate Hc.
    exists top. split.
    { eapply Permutation_in; [|exact Hin]. apply Permutation_map, sort_perm. }
    split.
    { intros c Hcin. apply Hmax. now apply (sort_In byCardRankDesc). }
    split; [exact Hs|]. rewrite Hs. exact (high_card_strength_values top).
Qed.

(** C10: a Two Pair evaluation (handRank 3) has strength 0.45 and at
    most one kicker; the kicker is a rank held exactly once, so
    neither of the paired ranks is among the kickers. *)
Theorem two_pair_strength_and_kicker (cards : list Card) (h : HandEvaluation) :
  (5 <= List.length cards)%nat ->
  evaluateHand cards = Return h ->
  handRank h = 3 ->
  handType h = "Two Pair"%string
  /\ strength h = 0.45%Q
  /\ (List.length (kickers h) <= 1)%nat
  /\ forall k, In k (kickers h) ->
               rankCount cards k = 1%nat /\ rankCount cards k <> 2%nat.
Proof.
  intros Hlen Hh Hrank.
  destruct (evaluateHand_cases cards h Hlen Hh)
    as [H|_ H|_ _ H|_ H|_ H|_ _ H|_ H|_ _ H|_ _ H].
  - apply checkStraightFlush_shape in H. destruct H as [(_ & Hr & _)|(_ & Hr & _)]; lia.
  - apply checkFourOfAKind_shape in H. destruct H as (_ & Hr & _). lia.
  - apply checkFullHouse_shape in H. destruct H as (_ & Hr & _). lia.
  - apply checkFlush_shape in H. destruct H as (_ & Hr & _). lia.
  - apply checkStraight_shape in H. destruct H as (_ & Hr & _). lia.
  - apply checkThreeOfAKind_shape in H. destruct H as (_ & Hr & _). lia.
  - apply checkTwoPair_shape in H. destruct H as (Ht & _ & Hs & Hlenk & Hk).
    repeat split; auto.
    + rewrite <- (sorted_rankCount cards k). now apply Hk.
    + rewrite <- (sorted_rankCount cards k). rewrite (Hk k H). lia.
  - apply checkPair_shape in H. destruct H as (_ & Hr & _). lia.
  - apply checkHighCard_shape in H. destruct H as (_ & Hr & _). lia.
Qed.
End Strength.

Lemma strength_is_fixed_by_category_witness :
  exists h,
    evaluateHand (E := Deck.enums) pairOfThrees = Return h
    /\ handType h = "Pair"%string
    /\ strength h = 0.32999999999999996%Q.
Proof.
  destruct (strength_is_fixed_by_category (E := Deck.enums) pairOfThrees)
    as (h & Hh & _ & _ & _ & _ & _ & _ & _ & _ & _ & Hpair & _).
  - simpl. lia.
  - assert (Ht : handType h = "Pair"%string).
    { vm_compute in Hh. injection Hh as <-. reflexivity. }
    exists h. split; [exact Hh|]. split; [exact Ht|].
    destruct (Hpair Ht) as (pairRank & Hcount & _ & _ & Hthree & _).
    apply Hthree.
    destruct pairRank; try reflexivity; vm_compute in Hcount; discriminate Hcount.
Defined.

(** No check counts a rank held five times: five fours, not in one
    suit, are a High Card, four-high. *)
Example five_fours_is_a_high_card :
  exists h,
    evaluateHand (E := Deck.enums) fiveFours = Return h
    /\ handType h = "High Card"%string
    /\ kickers h = [FOUR; FOUR; FOUR; FOUR; FOUR]
    /\ strength h = 0.12000000000000001%Q.
Proof. eexists. split; [vm_compute; reflexivity|]. repeat split. Qed.

Lemma two_pair_strength_and_kicker_witness :
  evaluateHand (E := Deck.enums) twosAndFives
  = Return {| handType := "Two Pair";
              handRank := 3;
              kickers := [NINE];
              description := "Two Pair, 5s and 2s";
              strength := 0.45 |}
  /\ rankCount twosAndFives NINE = 1%nat.
Proof.
  split; [reflexivity|].
  apply (two_pair_strength_and_kicker (E := Deck.enums) twosAndFives
           {| handType := "Two Pair";
              handRank := 3;
              kickers := [NINE];
              description := "Two Pair, 5s and 2s";
              strength := 0.45 |});
    [simpl; lia|reflexivity|reflexivity|simpl; auto].
Defined.

(** C7, as the code has it: the amount [handleRaise] submits never
    exceeds the player's chips; it reaches max(currentBet*2,
    currentBet+50) whenever the chips do, and is all the chips
    otherwise. *)
Theorem raise_amount_is_clamped (p : ActionButtons.Props) (raiseAmount : Z) :
  let amount := snd (ActionButtons.handleRaise p raiseAmount) in
  fst (ActionButtons.handleRaise p raiseAmount) = RAISE
  /\ amount <= ActionButtons.playerChips p
  /\ (ActionButtons.minRaise p <= ActionButtons.playerChips p ->
      Z.max (ActionButtons.currentBet p * 2) (ActionButtons.currentBet p + 50) <= amount)
  /\ (ActionButtons.playerChips p < ActionButtons.minRaise p ->
      amount = ActionButtons.playerChips p).
Proof.
  unfold ActionButtons.handleRaise, ActionButtons.minRaise, ActionButtons.maxRaise.
  simpl. repeat split; lia.
Qed.

(** C7, as the specification states it, fails: with a current bet of 100
    and 150 chips the submitted amount is 150, below the minimum raise
    of 200. *)
Lemma raise_amount_below_minimum :
  let p := {| ActionButtons.currentBet := 100;
              ActionButtons.playerBet := 0;
              ActionButtons.playerChips := 150 |} in
  let amount := snd (ActionButtons.handleRaise p (ActionButtons.initialRaiseAmount p)) in
  0 <= ActionButtons.currentBet p
  /\ amount = 150
  /\ ~ (amount >= Z.max (ActionButtons.currentBet p * 2) (ActionButtons.currentBet p + 50)
        /\ amount <= ActionButtons.playerChips p).
Proof.
  simpl. repeat split; lia.
Qed.

(** C8: whatever sequence of legal actions [processPlayerAction] applies
    within a hand, the players' chips plus the pot add up to what they
    did at the start. *)
Theorem chips_are_conserved {E : PokerEnums} (minimumIncrement : Z)
        (s s' : GameEngine.GameState) (actions : list (PlayerAction * Z)) :
  GameEngine.processActions minimumIncrement s actions = GameEngine.Ok s' ->
  GameEngine.chipsInPlay s' = GameEngine.chipsInPlay s.
Proof.
  revert s. induction actions as [|[action amount] rest IH]; intros s; simpl.
  - now intros [= <-].
  - destruct (GameEngine.processPlayerAction minimumIncrement s action amount)
      as [s1|e] eqn:H1; [|discriminate].
    intros Hrest. rewrite (IH s1 Hrest).
    now apply (EngineFacts.processPlayerAction_conserves minimumIncrement s s1 action amount).
Qed.

Lemma chips_are_conserved_witness :
  exists s',
    GameEngine.processActions (E := Deck.enums) 50 Table.threeHanded Table.toShowdown
    = GameEngine.Ok s'
    /\ GameEngine.complete s' = true
    /\ GameEngine.chipsInPlay s' = 3000.
Proof.
  eexists. split; [vm_compute; reflexivity|]. split; [reflexivity|].
  apply (chips_are_conserved (E := Deck.enums) 50 Table.threeHanded _ Table.toShowdown).
  vm_compute. reflexivity.
Defined.

(** C9: [evaluateHand] is deterministic. A call leaves the caller's
    array as it was, so a second call on it returns the same
    evaluation; and any call on an array of the same cards, in whatever
    store, returns that evaluation too. *)
Theorem evaluateHand_twice {E : PokerEnums} (st : Arrays.Store) (cards : Arrays.Ref) :
  (cards < List.length st)%nat ->
  let (first, st1) := Arrays.evaluateHandCall cards st in
  let (second, _) := Arrays.evaluateHandCall cards st1 in
  Arrays.read st1 cards = Arrays.read st cards
  /\ second = first
  /\ first = evaluateHand (Arrays.read st cards)
  /\ forall st' cards',
       Arrays.read st' cards' = Arrays.read st cards ->
       fst (Arrays.evaluateHandCall cards' st') = first.
Proof.
  intros Hin. rewrite ArrayFacts.evaluateHandCall_spec.
  set (st1 := if _ <? 5 then st else _).
  assert (Hread : Arrays.read st1 cards = Arrays.read st cards).
  { unfold st1. destruct (_ <? 5); [reflexivity|]. now apply ArrayFacts.read_app. }
  rewrite ArrayFacts.evaluateHandCall_spec. rewrite Hread.
  repeat split; auto.
  intros st' cards' Hsame. rewrite ArrayFacts.evaluateHandCall_spec. simpl.
  now rewrite Hsame.
Qed.

Lemma evaluateHand_twice_witness :
  let st := [twosOverFives; wheelClubs] in
  let (first, st1) := Arrays.evaluateHandCall (E := Deck.enums) 0%nat st in
  let (second, _) := Arrays.evaluateHandCall (E := Deck.enums) 0%nat st1 in
  second = first /\ Arrays.read st1 0%nat = twosOverFives.
Proof.
  pose proof (evaluateHand_twice (E := Deck.enums) [twosOverFives; wheelClubs] 0%nat) as H.
  simpl in H. specialize (H ltac:(lia)).
  simpl. tauto.
Defined.

(** * More properties of the code *)

(** ** The raise controls *)

(** X1: the amount [handleRaise] submits is the raise amount shown on the
    button exactly when that amount lies between the minimum raise and
    the player's chips, or is all the chips when they are below the
    minimum. *)
Theorem shown_amount_is_submitted_iff (p : ActionButtons.Props) (raiseAmount : Z) :
  snd (ActionButtons.handleRaise p raiseAmount) = raiseAmount
  <-> (ActionButtons.minRaise p <= raiseAmount <= ActionButtons.playerChips p)
      \/ (raiseAmount < ActionButtons.minRaise p
          /\ raiseAmount = ActionButtons.playerChips p).
Proof.
  unfold ActionButtons.handleRaise, ActionButtons.minRaise, ActionButtons.maxRaise.
  simpl. lia.
Qed.

(** X2: with a current bet that is not negative, the quick bets "1/4
    Pot", "1/2 Pot" and "Pot" make no difference to a raise: the amount
    submitted after any of them is the minimum raise, or all the chips
    when they are below it. *)
Theorem pot_quick_bets_submit_the_minimum (p : ActionButtons.Props)
        (q : ActionButtons.QuickBet) :
  0 <= ActionButtons.currentBet p ->
  q <> ActionButtons.AllIn ->
  snd (ActionButtons.handleRaise p (ActionButtons.quickBet p q))
  = Z.min (ActionButtons.minRaise p) (ActionButtons.playerChips p).
Proof.
  intros Hbet Hq.
  unfold ActionButtons.handleRaise, ActionButtons.quickBet, ActionButtons.minRaise,
    ActionButtons.maxRaise. simpl.
  assert (Hle : ActionButtons.quickBetAmount p q <= ActionButtons.currentBet p).
  { destruct q; simpl; try contradiction; try lia.
    - apply Z.div_le_upper_bound; lia.
    - apply Z.div_le_upper_bound; lia. }
  lia.
Qed.

Lemma pot_quick_bets_submit_the_minimum_witness :
  snd (ActionButtons.handleRaise
         {| ActionButtons.currentBet := 100;
            ActionButtons.playerBet := 0;
            ActionButtons.playerChips := 1000 |}
         (ActionButtons.quickBet
            {| ActionButtons.currentBet := 100;
               ActionButtons.playerBet := 0;
               ActionButtons.playerChips := 1000 |}
            ActionButtons.Pot))
  = 200.
Proof.
  apply (pot_quick_bets_submit_the_minimum
           {| ActionButtons.currentBet := 100;
              ActionButtons.playerBet := 0;
              ActionButtons.playerChips := 1000 |}
           ActionButtons.Pot).
  - simpl. lia.
  - discriminate.
Defined.

(** X3: whatever the slider and the quick bets did before, after the
    "All-In" quick bet a raise submits exactly the player's chips. *)
Theorem all_in_quick_bet_submits_all_chips (p : ActionButtons.Props)
        (events : list RaiseControl.Event) :
  ActionButtons.handleRaise p
    (RaiseControl.raiseAmountAfter p
       (events ++ [RaiseControl.Quick ActionButtons.AllIn]))
  = (RAISE, ActionButtons.playerChips p).
Proof.
  unfold RaiseControl.raiseAmountAfter. rewrite fold_left_app. simpl.
  unfold ActionButtons.handleRaise, ActionButtons.quickBet, ActionButtons.maxRaise.
  simpl. f_equal. lia.
Qed.

(** ** The dots of a thinking bot *)

Lemma append_length (s1 s2 : string) :
  String.length (s1 ++ s2) = (String.length s1 + String.length s2)%nat.
Proof. induction s1 as [|c s1 IH]; simpl; [reflexivity|]. now rewrite IH. Qed.

Lemma dotString_length (n : nat) : String.length (BotThinking.dotString n) = n.
Proof.
  induction n as [|n IH]; simpl; [reflexivity|].
  rewrite append_length, IH. simpl. lia.
Qed.

Lemma tick_dotString (k : nat) :
  (k <= 3)%nat ->
  BotThinking.tick (BotThinking.dotString k)
  = BotThinking.dotString (if (k =? 3)%nat then 0 else S k).
Proof.
  intros Hk. unfold BotThinking.tick. rewrite dotString_length.
  destruct k as [|[|[|[|k]]]]; try reflexivity. lia.
Qed.

(** X4: whatever ticks and stops occur, the text after "Thinking" is
    zero to three dots, never more. *)
Theorem dots_never_exceed_three (events : list BotThinking.Event) :
  exists k, (k <= 3)%nat
            /\ BotThinking.dotsAfter events = BotThinking.dotString k.
Proof.
  unfold BotThinking.dotsAfter.
  induction events as [|e events IH] using rev_ind.
  - exists 0%nat. split; [lia|reflexivity].
  - destruct IH as (k & Hk & IH). rewrite fold_left_app. simpl. rewrite IH.
    destruct e; simpl.
    + rewrite (tick_dotString k Hk).
      destruct (k =? 3)%nat eqn:H3.
      * exists 0%nat. split; [lia|reflexivity].
      * apply Nat.eqb_neq in H3. exists (S k). split; [lia|reflexivity].
    + exists 0%nat. split; [lia|reflexivity].
Qed.

(** X5: after n ticks of the interval the text shows n mod 4 dots: the
    dots grow to three and start over. *)
Theorem dots_cycle_every_four_ticks (n : nat) :
  BotThinking.dotsAfter (repeat BotThinking.Tick n)
  = BotThinking.dotString (n mod 4).
Proof.
  unfold BotThinking.dotsAfter. induction n as [|n IH]; [reflexivity|].
  replace (repeat BotThinking.Tick (S n))
    with (repeat BotThinking.Tick n ++ [BotThinking.Tick])
    by (rewrite <- repeat_cons; reflexivity).
  rewrite fold_left_app, IH. cbn [fold_left BotThinking.step].
  pose proof (Nat.mod_upper_bound n 4 ltac:(lia)) as Hlt.
  rewrite (tick_dotString (n mod 4)) by lia. f_equal.
  replace (S n) with (n + 1)%nat by lia.
  rewrite (Nat.Div0.add_mod n 1%nat 4%nat).
  destruct (n mod 4)%nat as [|[|[|[|k]]]]; try reflexivity. lia.
Qed.

(** ** The hand evaluator: what every evaluation satisfies *)

Ltac Qdecide :=
  first [ apply Qle_refl
        | vm_compute; reflexivity
        | vm_compute; let H := fresh in intro H; discriminate H ].

Section Profile.
Context {E : PokerEnums}.

(** The category name, the range of the category rank and the bounds of
    the strength, for whatever [evaluateHand] returns. *)
Lemma evaluation_profile (cards : list Card) (h : HandEvaluation) :
  evaluateHand cards = Return h ->
  handType h = categoryName (handRank h)
  /\ 1 <= handRank h <= 10
  /\ (strengthFloor (handRank h) <= strength h)%Q
  /\ (strength h <= strengthCeiling (handRank h))%Q.
Proof.
  intros Hh. destruct (le_lt_dec 5 (List.length cards)) as [Hlen|Hlen].
  - destruct (evaluateHand_cases cards h Hlen Hh)
      as [H|_ H|_ _ H|_ H|_ H|_ _ H|_ H|_ _ H|_ _ H].
    + apply checkStraightFlush_shape in H.
      destruct H as [(Ht & Hr & Hs)|(Ht & Hr & Hs)]; rewrite Ht, Hr, Hs;
        repeat split; try lia; Qdecide.
    + apply checkFourOfAKind_shape in H. destruct H as (Ht & Hr & Hs).
      rewrite Ht, Hr, Hs. repeat split; try lia; Qdecide.
    + apply checkFullHouse_shape in H. destruct H as (Ht & Hr & Hs).
      rewrite Ht, Hr, Hs. repeat split; try lia; Qdecide.
    + apply checkFlush_shape in H. destruct H as (Ht & Hr & Hs & _).
      rewrite Ht, Hr, Hs. repeat split; try lia; Qdecide.
    + apply checkStraight_shape in H. destruct H as (Ht & Hr & Hs).
      rewrite Ht, Hr.
      destruct Hs as [(Hs & _)|(Hs & _)]; rewrite Hs; repeat split; try lia; Qdecide.
    + apply checkThreeOfAKind_shape in H. destruct H as (Ht & Hr & Hs).
      rewrite Ht, Hr, Hs. repeat split; try lia; Qdecide.
    + apply checkTwoPair_shape in H. destruct H as (Ht & Hr & Hs & _).
      rewrite Ht, Hr, Hs. repeat split; try lia; Qdecide.
    + apply checkPair_shape in H. destruct H as (Ht & Hr & pairRank & _ & Hs).
      rewrite Ht, Hr, Hs. repeat split; try lia; destruct pairRank; Qdecide.
    + apply checkHighCard_shape in H. destruct H as (Ht & Hr & top & _ & _ & Hs).
      rewrite Ht, Hr, Hs. repeat split; try lia; destruct top; Qdecide.
  - rewrite (evaluateHand_short cards Hlen) in Hh. injection Hh as <-. simpl.
    repeat split; try lia; Qdecide.
Qed.

(** X6: [evaluateHand] never throws: on every array of cards, of any
    length, the reads [flushCards[0].rank], [cards[0].rank] and
    [sortedRanks[0].value] find their element and an evaluation is
    returned. *)
Theorem evaluateHand_never_throws (cards : list Card) :
  exists h, evaluateHand cards = Return h.
Proof. apply evaluateHand_total. Qed.

(** An evaluation of at least 5 cards is stronger than the placeholder. *)
Lemma strength_above_placeholder (cards : list Card) (h : HandEvaluation) :
  (5 <= List.length cards)%nat ->
  evaluateHand cards = Return h ->
  (0.1 < strength h)%Q.
Proof.
  intros Hlen Hh.
  destruct (evaluateHand_cases cards h Hlen Hh)
    as [H|_ H|_ _ H|_ H|_ H|_ _ H|_ H|_ _ H|_ _ H].
  - apply checkStraightFlush_shape in H.
    destruct H as [(_ & _ & Hs)|(_ & _ & Hs)]; rewrite Hs; Qdecide.
  - apply checkFourOfAKind_shape in H. destruct H as (_ & _ & Hs). rewrite Hs. Qdecide.
  - apply checkFullHouse_shape in H. destruct H as (_ & _ & Hs). rewrite Hs. Qdecide.
  - apply checkFlush_shape in H. destruct H as (_ & _ & Hs & _). rewrite Hs. Qdecide.
  - apply checkStraight_shape in H. destruct H as (_ & _ & Hs).
    destruct Hs as [(Hs & _)|(Hs & _)]; rewrite Hs; Qdecide.
  - apply checkThreeOfAKind_shape in H. destruct H as (_ & _ & Hs). rewrite Hs. Qdecide.
  - apply checkTwoPair_shape in H. destruct H as (_ & _ & Hs & _). rewrite Hs. Qdecide.
  - apply checkPair_shape in H. destruct H as (_ & _ & pairRank & _ & Hs).
    rewrite Hs. destruct pairRank; Qdecide.
  - apply checkHighCard_shape in H. destruct H as (_ & _ & top & _ & _ & Hs).
    rewrite Hs. destruct top; Qdecide.
Qed.

(** X7: every evaluation has a category rank from 1 to 10 and a strength
    from 0.1 to 1.0, inside the range 0.0 to 1.0 the interface documents;
    an evaluation of at least 5 cards has a strength above the 0.1 of
    the placeholder. *)
Theorem strength_and_rank_ranges (cards : list Card) (h : HandEvaluation) :
  evaluateHand cards = Return h ->
  1 <= handRank h <= 10
  /\ (0.1 <= strength h)%Q /\ (strength h <= 1.0)%Q
  /\ ((5 <= List.length cards)%nat -> (0.1 < strength h)%Q).
Proof.
  intros Hh. destruct (evaluation_profile cards h Hh) as (_ & Hr & Hlo & Hhi).
  assert (Hcases : handRank h = 1 \/ handRank h = 2 \/ handRank h = 3 \/ handRank h = 4
                   \/ handRank h = 5 \/ handRank h = 6 \/ handRank h = 7
                   \/ handRank h = 8 \/ handRank h = 9 \/ handRank h = 10) by lia.
  split; [exact Hr|]. split; [|split].
  - eapply Qle_trans; [|exact Hlo].
    destruct Hcases as [H|[H|[H|[H|[H|[H|[H|[H|[H|H]]]]]]]]]; rewrite H; Qdecide.
  - eapply Qle_trans; [exact Hhi|].
    destruct Hcases as [H|[H|[H|[H|[H|[H|[H|[H|[H|H]]]]]]]]]; rewrite H; Qdecide.
  - intros Hlen. now apply (strength_above_placeholder cards).
Qed.

(** X8: a higher category always has a higher strength: of two
    evaluations, the one with the greater category rank has the strictly
    greater strength. *)
Theorem higher_category_is_stronger (cards1 cards2 : list Card) (h1 h2 : HandEvaluation) :
  evaluateHand cards1 = Return h1 ->
  evaluateHand cards2 = Return h2 ->
  handRank h1 < handRank h2 ->
  (strength h1 < strength h2)%Q.
Proof.
  intros H1 H2 Hlt.
  destruct (evaluation_profile cards1 h1 H1) as (_ & Hr1 & _ & Hhi).
  destruct (evaluation_profile cards2 h2 H2) as (_ & Hr2 & Hlo & _).
  eapply Qle_lt_trans; [exact Hhi|]. eapply Qlt_le_trans; [|exact Hlo].
  assert (C1 : handRank h1 = 1 \/ handRank h1 = 2 \/ handRank h1 = 3 \/ handRank h1 = 4
               \/ handRank h1 = 5 \/ handRank h1 = 6 \/ handRank h1 = 7
               \/ handRank h1 = 8 \/ handRank h1 = 9) by lia.
  assert (C2 : handRank h2 = 2 \/ handRank h2 = 3 \/ handRank h2 = 4
               \/ handRank h2 = 5 \/ handRank h2 = 6 \/ handRank h2 = 7
               \/ handRank h2 = 8 \/ handRank h2 = 9 \/ handRank h2 = 10) by lia.
  destruct C1 as [A|[A|[A|[A|[A|[A|[A|[A|A]]]]]]]];
    destruct C2 as [B|[B|[B|[B|[B|[B|[B|[B|B]]]]]]]];
    rewrite A, B in *; try lia; Qdecide.
Qed.

(** X9: the category name always goes with the category rank: High
    Card 1, Pair 2, Two Pair 3, Three of a Kind 4, Straight 5, Flush 6,
    Full House 7, Four of a Kind 8, Straight Flush 9, Royal Flush 10. *)
Theorem category_name_matches_rank (cards : list Card) (h : HandEvaluation) :
  evaluateHand cards = Return h ->
  handType h = categoryName (handRank h)
  /\ (forall n, 1 <= n <= 10 -> handType h = categoryName n -> handRank h = n).
Proof.
  intros Hh. destruct (evaluation_profile cards h Hh) as (Ht & Hr & _).
  split; [exact Ht|]. intros n Hn Hname. rewrite Ht in Hname.
  assert (C1 : handRank h = 1 \/ handRank h = 2 \/ handRank h = 3 \/ handRank h = 4
               \/ handRank h = 5 \/ handRank h = 6 \/ handRank h = 7
               \/ handRank h = 8 \/ handRank h = 9 \/ handRank h = 10) by lia.
  assert (C2 : n = 1 \/ n = 2 \/ n = 3 \/ n = 4 \/ n = 5 \/ n = 6 \/ n = 7
               \/ n = 8 \/ n = 9 \/ n = 10) by lia.
  destruct C1 as [A|[A|[A|[A|[A|[A|[A|[A|[A|A]]]]]]]]];
    destruct C2 as [B|[B|[B|[B|[B|[B|[B|[B|[B|B]]]]]]]]];
    rewrite A, B in *; try reflexivity; discriminate Hname.
Qed.
End Profile.

Lemma strength_and_rank_ranges_witness :
  (0.1 < 0.85)%Q.
Proof.
  exact (proj2 (proj2 (proj2
    (strength_and_rank_ranges (E := Deck.enums) twosOverFives
       {| handType := "Full House";
          handRank := 7;
          kickers := [TWO; FIVE];
          description := "Full House, 2s over 5s";
          strength := 0.85 |} eq_refl))) ltac:(simpl; lia)).
Defined.

Lemma higher_category_is_stronger_witness :
  (0.45 < 0.85)%Q.
Proof.
  apply (higher_category_is_stronger (E := Deck.enums) twosAndFives twosOverFives
           {| handType := "Two Pair";
              handRank := 3;
              kickers := [NINE];
              description := "Two Pair, 5s and 2s";
              strength := 0.45 |}
           {| handType := "Full House";
              handRank := 7;
              kickers := [TWO; FIVE];
              description := "Full House, 2s over 5s";
              strength := 0.85 |});
    [reflexivity|reflexivity|simpl; lia].
Defined.

Lemma category_name_matches_rank_witness :
  "Full House"%string = categoryName 7.
Proof.
  apply (category_name_matches_rank (E := Deck.enums) twosOverFives
           {| handType := "Full House";
              handRank := 7;
              kickers := [TWO; FIVE];
              description := "Full House, 2s over 5s";
              strength := 0.85 |}).
  reflexivity.
Defined.

(** ** The counters *)

Section Counters.
Context {E : PokerEnums}.

Lemma suit_keys_NoDup (cards : list Card) :
  NoDup (keys Suit_toString (getSuitCounts cards)).
Proof.
  eapply Permutation_NoDup; [symmetry; apply keys_perm|].
  apply (count_keys_NoDup Suit_toString suit Suit_toString_inj cards []). constructor.
Qed.

(** X10: [getRankCounts] holds, for each rank among the cards, the
    number of cards of that rank, and no property for a rank that is not
    among them; [Object.keys] lists each rank held once. *)
Theorem getRankCounts_counts_each_rank (cards : list Card) (r : Rank) :
  (In r (map rank cards) ->
   get Rank_toString (getRankCounts cards) r = Some (Z.of_nat (rankCount cards r))
   /\ (0 < rankCount cards r)%nat)
  /\ (~ In r (map rank cards) -> get Rank_toString (getRankCounts cards) r = None)
  /\ (In r (keys Rank_toString (getRankCounts cards)) <-> In r (map rank cards))
  /\ NoDup (keys Rank_toString (getRankCounts cards)).
Proof.
  pose proof (getRankCounts_get cards r) as Hg.
  pose proof (count_occ_In Rank_eq_dec (map rank cards) r) as Hin.
  fold (rankCount cards r) in Hin.
  repeat split.
  - apply Hin in H. destruct (rankCount cards r); [lia|exact Hg].
  - apply Hin in H. lia.
  - intros Hn. destruct (rankCount cards r) eqn:Hc; [exact Hg|].
    exfalso. apply Hn, Hin. lia.
  - intros Hk. apply rank_keys_In in Hk. apply Hin. lia.
  - intros Hk. apply rank_keys_In. apply Hin in Hk. lia.
  - apply rank_keys_NoDup.
Qed.

(** X11: [getSuitCounts] holds, for each suit among the cards, the
    number of cards of that suit, and no property for a suit that is not
    among them; [Object.keys] lists each suit held once. *)
Theorem getSuitCounts_counts_each_suit (cards : list Card) (s : Suit) :
  (In s (map suit cards) ->
   get Suit_toString (getSuitCounts cards) s = Some (Z.of_nat (suitCount cards s))
   /\ (0 < suitCount cards s)%nat)
  /\ (~ In s (map suit cards) -> get Suit_toString (getSuitCounts cards) s = None)
  /\ (In s (keys Suit_toString (getSuitCounts cards)) <-> In s (map suit cards))
  /\ NoDup (keys Suit_toString (getSuitCounts cards)).
Proof.
  pose proof (getSuitCounts_get cards s) as Hg.
  pose proof (count_occ_In Suit_eq_dec (map suit cards) s) as Hin.
  fold (suitCount cards s) in Hin.
  repeat split.
  - apply Hin in H. destruct (suitCount cards s); [lia|exact Hg].
  - apply Hin in H. lia.
  - intros Hn. destruct (suitCount cards s) eqn:Hc; [exact Hg|].
    exfalso. apply Hn, Hin. lia.
  - intros Hk. apply suit_keys_In in Hk. apply Hin. lia.
  - intros Hk. apply suit_keys_In. apply Hin in Hk. lia.
  - apply suit_keys_NoDup.
Qed.
End Counters.

(** ** The straight check *)

Lemma unique_NoDup (l seen : list Z) : NoDup (unique l seen).
Proof.
  revert seen; induction l as [|x l IH]; intros seen; simpl.
  - constructor.
  - destruct (existsb (Z.eqb x) seen); [apply IH|].
    constructor; [|apply IH]. rewrite unique_In. simpl. tauto.
Qed.

Lemma StronglySorted_suffix {A} (R : A -> A -> Prop) (l1 l2 : list A) :
  StronglySorted R (l1 ++ l2) ->
  StronglySorted R l2 /\ forall a b, In a l1 -> In b l2 -> R a b.
Proof.
  induction l1 as [|x l1 IH]; simpl; intros Hs.
  - split; [exact Hs|]. intros a b [].
  - inversion Hs as [|? ? Hs' Hall]; subst. destruct (IH Hs') as [H2 Hcross].
    split; [exact H2|]. intros a b [<-|Ha] Hb.
    + rewrite Forall_forall in Hall. apply Hall. apply in_or_app. now right.
    + now apply Hcross.
Qed.

Lemma StronglySorted_prefix {A} (R : A -> A -> Prop) (l1 l2 : list A) :
  StronglySorted R (l1 ++ l2) -> StronglySorted R l1.
Proof.
  induction l1 as [|x l1 IH]; simpl; intros Hs; [constructor|].
  inversion Hs as [|? ? Hs' Hall]; subst. constructor; [now apply IH|].
  apply Forall_forall. intros y Hy.
  apply (proj1 (Forall_forall _ _) Hall). apply in_or_app. now left.
Qed.

Lemma descending_NoDup_strict (l : list Z) :
  StronglySorted (fun a b => b <= a) l -> NoDup l ->
  StronglySorted (fun a b => b < a) l.
Proof.
  induction l as [|x l IH]; intros Hs Hnd; [constructor|].
  inversion Hs as [|? ? Hs' Hall]; subst. inversion Hnd as [|? ? Hx Hnd']; subst.
  constructor; [now apply IH|].
  apply Forall_forall. intros y Hy.
  pose proof (proj1 (Forall_forall _ _) Hall y Hy) as Hle. simpl in Hle.
  assert (y <> x) by (intros ->; contradiction). lia.
Qed.

(** The ranks [checkStraight] scans go strictly down, and are the rank
    values held. *)
Lemma uniqueRanks_strict {E : PokerEnums} (cards : list Card) :
  StronglySorted (fun a b => b < a) (uniqueRanks cards).
Proof.
  unfold uniqueRanks. apply descending_NoDup_strict.
  - exact (sort_desc_sorted (fun x : Z => x)
             (unique (map (fun card => getRankValue (rank card)) cards) [])).
  - eapply Permutation_NoDup; [symmetry; apply sort_perm|apply unique_NoDup].
Qed.

Lemma uniqueRanks_In {E : PokerEnums} (cards : list Card) (v : Z) :
  In v (uniqueRanks cards) <-> exists r, In r (map rank cards) /\ getRankValue r = v.
Proof.
  split; [apply uniqueRanks_held|].
  intros (r & Hr & Hv). unfold uniqueRanks. apply sort_In. apply unique_In.
  split; [|tauto]. apply in_map_iff in Hr. destruct Hr as (c & Hc & Hin).
  apply in_map_iff. exists c. split; [|exact Hin]. now rewrite Hc.
Qed.

(** In an array that goes strictly down, the value just below the head,
    when present, is the next entry. *)
Lemma strict_next (a : Z) (rest : list Z) :
  StronglySorted (fun a b => b < a) (a :: rest) ->
  In (a - 1) rest -> exists rest', rest = (a - 1) :: rest'.
Proof.
  intros Hs Hin. inversion Hs as [|? ? Hs' Hall]; subst.
  destruct rest as [|b rest']; [contradiction|]. exists rest'. f_equal.
  rewrite Forall_forall in Hall. pose proof (Hall b (or_introl eq_refl)) as Hb.
  destruct Hin as [->|Hin]; [reflexivity|].
  inversion Hs' as [|? ? _ Hall']; subst. rewrite Forall_forall in Hall'.
  specialize (Hall' _ Hin). lia.
Qed.

Lemma strict_run (a : Z) (rest : list Z) :
  StronglySorted (fun a b => b < a) (a :: rest) ->
  (forall j, In j [1; 2; 3; 4] -> In (a - j) rest) ->
  runAtHead (a :: rest) = true.
Proof.
  intros Hs Hrun.
  assert (Hin : forall l x y, StronglySorted (fun a b => b < a) (x :: l) ->
                              In y (x :: l) -> y < x -> In y l).
  { intros l x y _ [->|H] Hlt; [lia|exact H]. }
  destruct (strict_next a rest Hs (Hrun 1 ltac:(simpl; auto))) as [r1 ->].
  inversion Hs as [|? ? Hs1 _]; subst.
  assert (H2 : In (a - 1 - 1) r1).
  { apply (Hin r1 (a - 1)); [exact Hs1| |lia].
    replace (a - 1 - 1) with (a - 2) by lia. apply Hrun. simpl; auto. }
  destruct (strict_next (a - 1) r1 Hs1 H2) as [r2 ->].
  inversion Hs1 as [|? ? Hs2 _]; subst.
  assert (H3 : In (a - 1 - 1 - 1) r2).
  { apply (Hin r2 (a - 1 - 1)); [exact Hs2| |lia].
    apply (Hin _ (a - 1)); [exact Hs1| |lia].
    replace (a - 1 - 1 - 1) with (a - 3) by lia. apply Hrun. simpl; auto. }
  destruct (strict_next (a - 1 - 1) r2 Hs2 H3) as [r3 ->].
  inversion Hs2 as [|? ? Hs3 _]; subst.
  assert (H4 : In (a - 1 - 1 - 1 - 1) r3).
  { apply (Hin r3 (a - 1 - 1 - 1)); [exact Hs3| |lia].
    apply (Hin _ (a - 1 - 1)); [exact Hs2| |lia].
    apply (Hin _ (a - 1)); [exact Hs1| |lia].
    replace (a - 1 - 1 - 1 - 1) with (a - 4) by lia. apply Hrun. simpl; auto. }
  destruct (strict_next (a - 1 - 1 - 1) r3 Hs3 H4) as [r4 ->].
  simpl. rewrite !andb_true_iff, !Z.eqb_eq. lia.
Qed.

(** The inner loop at index [i] looks at the array from [i] on. *)
Lemma consecutive_runAtHead {E : PokerEnums} (u : list Z) (i : nat) :
  consecutive u i = runAtHead (skipn i u).
Proof.
  unfold consecutive, at_is. simpl.
  rewrite <- !nth_error_skipn.
  replace (nth_error u i) with (nth_error (skipn i u) 0)
    by (rewrite nth_error_skipn; f_equal; lia).
  destruct (skipn i u) as [|a [|b [|c [|d [|e s]]]]]; simpl;
    rewrite ?andb_false_r; try reflexivity.
  destruct (b =? a - 1), (c =? a - 2), (d =? a - 3), (e =? a - 4); reflexivity.
Qed.

Lemma find_seq_first (p : nat -> bool) (start n i : nat) :
  find p (seq start n) = Some i ->
  (start <= i < start + n)%nat /\ p i = true
  /\ forall j, (start <= j < i)%nat -> p j = false.
Proof.
  revert start; induction n as [|n IH]; intros start; simpl; [discriminate|].
  destruct (p start) eqn:Hp.
  - intros [= <-]. split; [lia|]. split; [exact Hp|]. intros j Hj. lia.
  - intros Hf. destruct (IH (S start) Hf) as (Hr & Hpi & Hbefore).
    split; [lia|]. split; [exact Hpi|]. intros j Hj.
    destruct (Nat.eq_dec j start) as [->|Hne]; [exact Hp|]. apply Hbefore. lia.
Qed.

Section StraightCheck.
Context {E : PokerEnums}.

(** A run held by the hand is seen by the scan, at the index of its top
    value. *)
Lemma run_is_scanned (cards : list Card) (top : Rank) :
  holdsRun cards top ->
  exists i rest,
    (i < List.length (uniqueRanks cards) - 4)%nat
    /\ skipn i (uniqueRanks cards) = getRankValue top :: rest
    /\ consecutive (uniqueRanks cards) i = true.
Proof.
  intros Hrun.
  assert (Hin : forall j, In j [0; 1; 2; 3; 4] ->
                          In (getRankValue top - j) (uniqueRanks cards)).
  { intros j Hj. apply uniqueRanks_In. exact (Hrun j Hj). }
  pose proof (Hin 0 ltac:(simpl; auto)) as H0. rewrite Z.sub_0_r in H0.
  destruct (in_split _ _ H0) as (l1 & l2 & Hu).
  pose proof (uniqueRanks_strict cards) as Hs. rewrite Hu in Hs.
  destruct (StronglySorted_suffix _ _ _ Hs) as [Hs2 Hcross].
  assert (Hskip : skipn (List.length l1) (uniqueRanks cards) = getRankValue top :: l2).
  { rewrite Hu, skipn_app, skipn_all, Nat.sub_diag. reflexivity. }
  assert (Hrun2 : runAtHead (getRankValue top :: l2) = true).
  { apply strict_run; [exact Hs2|]. intros j Hj.
    assert (Hj' : In j [0; 1; 2; 3; 4]) by (simpl in *; tauto).
    specialize (Hin j Hj'). rewrite Hu in Hin. apply in_app_or in Hin.
    destruct Hin as [Hin|[Hin|Hin]]; [| |exact Hin].
    - specialize (Hcross _ (getRankValue top) Hin (or_introl eq_refl)).
      simpl in Hj. lia.
    - simpl in Hj. lia. }
  exists (List.length l1), l2. repeat split; [|exact Hskip|].
  - rewrite Hu, length_app. simpl.
    destruct l2 as [|b [|c [|d [|e l2']]]]; simpl in Hrun2; try discriminate.
    simpl. lia.
  - now rewrite consecutive_runAtHead, Hskip.
Qed.

(** What [checkStraight] returns, against the ranks the hand holds: the
    highest run of five when there is one, the wheel when there is no
    run, nothing when there is neither. *)
Lemma checkStraight_spec (cards : list Card) :
  match checkStraight cards with
  | Some h =>
      (exists top,
          kickers h = [top] /\ strength h = 0.65%Q /\ holdsRun cards top
          /\ forall top', holdsRun cards top' -> getRankValue top' <= getRankValue top)
      \/ (kickers h = [FIVE] /\ strength h = 0.6%Q /\ holdsWheel cards
          /\ forall top', ~ holdsRun cards top')
  | None => (forall top, ~ holdsRun cards top) /\ ~ holdsWheel cards
  end.
Proof.
  assert (Hnorun : find (consecutive (uniqueRanks cards))
                        (seq 0 (List.length (uniqueRanks cards) - 4)) = None ->
                   forall top, ~ holdsRun cards top).
  { intros Hnone top Hrun.
    destruct (run_is_scanned cards top Hrun) as (i & rest & Hi & _ & Hc).
    pose proof (find_none _ _ Hnone i) as Hf. rewrite Hc in Hf.
    enough (false = true) by discriminate. symmetry. apply Hf. apply in_seq. lia. }
  destruct (checkStraight cards) as [h|] eqn:Hcs.
  - pose proof (checkStraight_shape cards h Hcs) as (_ & _ & Hshape).
    revert Hcs. unfold checkStraight. fold (uniqueRanks cards).
    destruct (find _ _) as [i|] eqn:Hi.
    + intros Hcs. left.
      destruct Hshape as [(Hs & top & Hk & Hrun)|(Hs & _)];
        [|injection Hcs as <-; simpl in Hs; discriminate Hs].
      exists top. repeat split; auto.
      intros top' Hrun'.
      destruct (Z_le_gt_dec (getRankValue top') (getRankValue top)) as [Hle|Hgt];
        [exact Hle|exfalso].
      destruct (find_seq_first _ _ _ _ Hi) as (Hir & Hci & Hfirst).
      destruct (run_is_scanned cards top' Hrun') as (i' & rest' & Hi' & Hskip' & Hc').
      destruct (Nat.lt_ge_cases i' i) as [Hlt|Hge].
      * rewrite (Hfirst i' ltac:(lia)) in Hc'. discriminate.
      * (* the value found at [i] is the value of [top] *)
        assert (Htop : nth i (uniqueRanks cards) 0 = getRankValue top).
        { injection Hcs as <-. simpl in Hk.
          destruct (find (fun rank => getRankValue rank =? _) Rank_values) as [t|] eqn:Ht;
            [|discriminate Hk].
          rewrite Rank_toString_truthy in Hk. injection Hk as ->.
          apply find_some in Ht. destruct Ht as [_ Ht]. apply Z.eqb_eq in Ht. now symmetry. }
        pose proof (uniqueRanks_strict cards) as Hstrict.
        rewrite <- (firstn_skipn i (uniqueRanks cards)) in Hstrict.
        destruct (StronglySorted_suffix _ _ _ Hstrict) as [Hsuf _].
        assert (Hin' : In (getRankValue top') (skipn i (uniqueRanks cards))).
        { rewrite <- (firstn_skipn i' (uniqueRanks cards)).
          rewrite skipn_app. apply in_or_app. right. rewrite length_firstn.
          replace (i - Nat.min i' (List.length (uniqueRanks cards)))%nat with 0%nat by lia.
          simpl. rewrite Hskip'. now left. }
        destruct (skipn i (uniqueRanks cards)) as [|a rest] eqn:Hsk.
        { contradiction. }
        assert (Ha : a = getRankValue top).
        { rewrite <- Htop. rewrite <- (firstn_skipn i (uniqueRanks cards)), Hsk.
          rewrite app_nth2 by (rewrite length_firstn; lia).
          rewrite length_firstn.
          replace (i - Nat.min i (List.length (uniqueRanks cards)))%nat with 0%nat by lia.
          reflexivity. }
        subst a. destruct Hin' as [Heq|Hin']; [lia|].
        inversion Hsuf as [|? ? _ Hall]; subst. rewrite Forall_forall in Hall.
        specialize (Hall _ Hin'). lia.
    + intros _. right.
      destruct Hshape as [(Hs & top & Hk & Hrun)|(Hs & Hk & Hw)].
      * exfalso. exact (Hnorun eq_refl top Hrun).
      * repeat split; auto.
  - revert Hcs. unfold checkStraight. fold (uniqueRanks cards).
    destruct (find _ _) as [i|] eqn:Hi; [discriminate|].
    intros Hcs. split; [now apply Hnorun|]. intros Hw.
    assert (Hinc : forall r, In r [ACE; TWO; THREE; FOUR; FIVE] ->
                             includes (uniqueRanks cards) (getRankValue r) = true).
    { intros r Hr. apply includes_In, uniqueRanks_In. exists r. split; [now apply Hw|reflexivity]. }
    pose proof (Hinc ACE ltac:(simpl; auto 6)) as HA.
    pose proof (Hinc TWO ltac:(simpl; auto 6)) as H2.
    pose proof (Hinc THREE ltac:(simpl; auto 6)) as H3.
    pose proof (Hinc FOUR ltac:(simpl; auto 6)) as H4.
    pose proof (Hinc FIVE ltac:(simpl; auto 6)) as H5.
    simpl getRankValue in HA, H2, H3, H4, H5.
    rewrite HA, H2, H3, H4, H5 in Hcs. discriminate Hcs.
Qed.
End StraightCheck.

Section StraightExtras.
Context {E : PokerEnums}.

(** X12: [checkStraight] finds a straight exactly when the ranks held
    make one: it returns null if and only if the hand holds no run of
    five consecutive ranks and not the wheel A-2-3-4-5. *)
Theorem checkStraight_null_iff_no_straight (cards : list Card) :
  checkStraight cards = None
  <-> (forall top, ~ holdsRun cards top) /\ ~ holdsWheel cards.
Proof.
  pose proof (checkStraight_spec cards) as Hspec.
  destruct (checkStraight cards) as [h|]; split; try discriminate; auto.
  intros [Hnorun Hnowheel]. exfalso.
  destruct Hspec as [(top & _ & _ & Hrun & _)|(_ & _ & Hw & _)].
  - exact (Hnorun top Hrun).
  - exact (Hnowheel Hw).
Qed.

(** X13: scanning high to low, [checkStraight] reports the highest run
    of five the hand holds, with strength 0.65 and the top rank as
    kicker; it reports the wheel (five-high, strength 0.60) only when
    the hand holds no run of five at all. *)
Theorem checkStraight_reports_the_highest_run (cards : list Card) (h : HandEvaluation) :
  checkStraight cards = Some h ->
  ((exists top', holdsRun cards top') ->
   exists top,
     kickers h = [top] /\ strength h = 0.65%Q /\ holdsRun cards top
     /\ forall top', holdsRun cards top' -> getRankValue top' <= getRankValue top)
  /\ ((forall top', ~ holdsRun cards top') ->
      kickers h = [FIVE] /\ strength h = 0.6%Q /\ holdsWheel cards).
Proof.
  intros Hcs. pose proof (checkStraight_spec cards) as Hspec. rewrite Hcs in Hspec.
  destruct Hspec as [(top & Hk & Hs & Hrun & Hmax)|(Hk & Hs & Hw & Hnorun)]; split.
  - intros _. exists top. auto.
  - intros Hnorun. exfalso. exact (Hnorun top Hrun).
  - intros (top' & Hrun'). exfalso. exact (Hnorun top' Hrun').
  - intros _. auto.
Qed.
End StraightExtras.

Lemma checkStraight_reports_the_highest_run_witness :
  exists top, [SEVEN] = [top] /\ holdsRun MoreHands.aceToSeven top.
Proof.
  destruct (checkStraight_reports_the_highest_run (E := Deck.enums)
              MoreHands.aceToSeven
              {| handType := "Straight";
                 handRank := 5;
                 kickers := [SEVEN];
                 description := "Straight, Unknown high";
                 strength := 0.65 |} eq_refl) as [Hrun _].
  destruct Hrun as (top & Hk & _ & Hrun & _).
  - exists SEVEN. intros j Hj. simpl in Hj.
    destruct Hj as [<-|[<-|[<-|[<-|[<-|[]]]]]]; simpl.
    + exists SEVEN. simpl. auto 10.
    + exists SIX. simpl. auto 10.
    + exists FIVE. simpl. auto 10.
    + exists FOUR. simpl. auto 10.
    + exists THREE. simpl. auto 10.
  - exists top. split; [exact Hk|exact Hrun].
Defined.

(** ** The category, read off the cards *)

Lemma existsb_ext {A} (f g : A -> bool) (l : list A) :
  (forall x, f x = g x) -> existsb f l = existsb g l.
Proof. intros H. induction l as [|x l IH]; simpl; [reflexivity|]. now rewrite H, IH. Qed.

Lemma forallb_ext {A} (f g : A -> bool) (l : list A) :
  (forall x, f x = g x) -> forallb f l = forallb g l.
Proof. intros H. induction l as [|x l IH]; simpl; [reflexivity|]. now rewrite H, IH. Qed.

Lemma all_ranks_complete (r : Rank) : In r Deck.all_ranks.
Proof. destruct r; simpl; tauto. Qed.

Lemma all_ranks_NoDup : NoDup Deck.all_ranks.
Proof. unfold Deck.all_ranks. repeat constructor; simpl; intuition discriminate. Qed.

Lemma all_suits_complete (s : Suit) : In s all_suits.
Proof. destruct s; simpl; tauto. Qed.

Lemma heldValue_spec (cards : list Card) (v : Z) :
  heldValue cards v = true <-> exists r, In r (map rank cards) /\ getRankValue r = v.
Proof.
  unfold heldValue. rewrite existsb_exists. split.
  - intros (c & Hc & Hv). apply Z.eqb_eq in Hv. exists (rank c). split; [now apply in_map|exact Hv].
  - intros (r & Hr & Hv). apply in_map_iff in Hr. destruct Hr as (c & <- & Hc).
    exists c. split; [exact Hc|now apply Z.eqb_eq].
Qed.

Lemma runB_spec (cards : list Card) (top : Rank) :
  runB cards top = true <-> holdsRun cards top.
Proof.
  unfold runB, holdsRun. rewrite forallb_forall. split.
  - intros H j Hj. apply heldValue_spec. now apply H.
  - intros H j Hj. apply heldValue_spec. now apply H.
Qed.

Lemma wheelB_spec (cards : list Card) : wheelB cards = true <-> holdsWheel cards.
Proof.
  unfold wheelB, holdsWheel. rewrite forallb_forall. split.
  - intros H r Hr. specialize (H r Hr). apply heldValue_spec in H.
    destruct H as (r' & Hr' & Hv). apply getRankValue_inj in Hv. now subst.
  - intros H r Hr. apply heldValue_spec. exists r. split; [now apply H|reflexivity].
Qed.

Lemma straightB_spec (cards : list Card) :
  straightB cards = true <-> (exists top, holdsRun cards top) \/ holdsWheel cards.
Proof.
  unfold straightB. rewrite orb_true_iff, existsb_exists, wheelB_spec. split.
  - intros [(top & _ & Hrun)|Hw]; [left|now right]. exists top. now apply runB_spec.
  - intros [(top & Hrun)|Hw]; [left|now right].
    exists top. split; [apply all_ranks_complete|now apply runB_spec].
Qed.

Lemma flushB_spec (cards : list Card) :
  flushB cards = true <-> exists s, (5 <= suitCount cards s)%nat.
Proof.
  unfold flushB. rewrite existsb_exists. split.
  - intros (s & _ & Hs). exists s. now apply Nat.leb_le.
  - intros (s & Hs). exists s. split; [apply all_suits_complete|now apply Nat.leb_le].
Qed.

Lemma countB_spec (n : nat) (cards : list Card) :
  countB n cards = true <-> exists r, rankCount cards r = n.
Proof.
  unfold countB. rewrite existsb_exists. split.
  - intros (r & _ & Hr). exists r. now apply Nat.eqb_eq.
  - intros (r & Hr). exists r. split; [apply all_ranks_complete|now apply Nat.eqb_eq].
Qed.

Lemma filter_at_least_two {A} (p : A -> bool) (l : list A) :
  NoDup l ->
  ((2 <= List.length (filter p l))%nat
   <-> exists a b, a <> b /\ In a l /\ In b l /\ p a = true /\ p b = true).
Proof.
  intros Hnd. split.
  - intros Hlen. pose proof (NoDup_filter p Hnd) as Hndf.
    destruct (filter p l) as [|a [|b rest]] eqn:Hf; simpl in Hlen; try lia.
    assert (Ha : In a (filter p l)) by (rewrite Hf; simpl; auto).
    assert (Hb : In b (filter p l)) by (rewrite Hf; simpl; auto).
    apply filter_In in Ha, Hb. exists a, b. repeat split; try tauto.
    inversion Hndf as [|? ? Hnotin _]; subst. intros ->. apply Hnotin. now left.
  - intros (a & b & Hne & Ha & Hb & Hpa & Hpb). now apply (filter_two p l a b).
Qed.

Lemma twoPairB_spec (cards : list Card) :
  twoPairB cards = true
  <-> exists a b, a <> b /\ rankCount cards a = 2%nat /\ rankCount cards b = 2%nat.
Proof.
  unfold twoPairB. rewrite Nat.leb_le, (filter_at_least_two _ _ all_ranks_NoDup). split.
  - intros (a & b & Hne & _ & _ & Ha & Hb). apply Nat.eqb_eq in Ha, Hb. eauto.
  - intros (a & b & Hne & Ha & Hb). exists a, b.
    repeat split; auto using all_ranks_complete; now apply Nat.eqb_eq.
Qed.

Section Category.
Context {E : PokerEnums}.

Lemma find_count_None (cards : list Card) (n : nat) :
  (0 < n)%nat ->
  (find (rankCountIs (getRankCounts cards) (Z.of_nat n))
        (keys Rank_toString (getRankCounts cards)) = None
   <-> countB n cards = false).
Proof.
  intros Hn. pose proof (find_rankCountIs cards (Z.of_nat n) ltac:(lia)) as Hf.
  rewrite <- Bool.not_true_iff_false, countB_spec.
  destruct (find _ _) as [r|]; split; try discriminate; auto.
  - intros Hno. exfalso. apply Hno. exists r. lia.
  - intros _ (r & Hr). apply (Hf r). lia.
Qed.

Lemma checkFourOfAKind_None (cards : list Card) :
  checkFourOfAKind cards = None <-> countB 4 cards = false.
Proof.
  rewrite <- (find_count_None cards 4) by lia. unfold checkFourOfAKind. simpl Z.of_nat.
  destruct (find _ _) as [r|]; [|tauto].
  rewrite Rank_toString_truthy. split; discriminate.
Qed.

Lemma checkThreeOfAKind_None (cards : list Card) :
  checkThreeOfAKind cards = None <-> countB 3 cards = false.
Proof.
  rewrite <- (find_count_None cards 3) by lia. unfold checkThreeOfAKind. simpl Z.of_nat.
  destruct (find _ _) as [r|]; [|tauto].
  rewrite Rank_toString_truthy. split; discriminate.
Qed.

Lemma checkPair_None (cards : list Card) :
  checkPair cards = None <-> countB 2 cards = false.
Proof.
  rewrite <- (find_count_None cards 2) by lia. unfold checkPair. simpl Z.of_nat.
  destruct (find _ _) as [r|]; [|tauto].
  rewrite Rank_toString_truthy. split; discriminate.
Qed.

Lemma checkFullHouse_None (cards : list Card) :
  checkFullHouse cards = None <-> countB 3 cards && countB 2 cards = false.
Proof.
  rewrite andb_false_iff, <- (find_count_None cards 3), <- (find_count_None cards 2) by lia.
  unfold checkFullHouse. simpl Z.of_nat.
  destruct (find (rankCountIs _ 3) _) as [t|]; [|tauto].
  destruct (find (rankCountIs _ 2) _) as [q|]; [|tauto].
  rewrite !Rank_toString_truthy. simpl. split; [discriminate|]. intros [H|H]; discriminate H.
Qed.

Lemma checkTwoPair_None_iff (cards : list Card) :
  checkTwoPair cards = None <-> twoPairB cards = false.
Proof.
  rewrite <- Bool.not_true_iff_false, twoPairB_spec. unfold checkTwoPair.
  destruct (2 <=? _) eqn:Hlen.
  - split; [discriminate|]. intros Hno. exfalso. apply Hno.
    apply Z.leb_le in Hlen.
    assert (Hlen' : (2 <= List.length
                            (filter (rankCountIs (getRankCounts cards) 2)
                                    (keys Rank_toString (getRankCounts cards))))%nat) by lia.
    apply (filter_at_least_two _ _ (rank_keys_NoDup cards)) in Hlen'.
    destruct Hlen' as (a & b & Hne & _ & _ & Ha & Hb).
    apply rankCountIs_spec in Ha, Hb; try lia. exists a, b. repeat split; auto; lia.
  - split; [|reflexivity]. intros _ (a & b & Hne & Ha & Hb).
    apply Z.leb_gt in Hlen.
    enough (2 <= List.length (filter (rankCountIs (getRankCounts cards) 2)
                                     (keys Rank_toString (getRankCounts cards))))%nat by lia.
    apply (filter_two _ _ a b); auto.
    + apply rank_keys_In. lia.
    + apply rank_keys_In. lia.
    + apply rankCountIs_spec; lia.
    + apply rankCountIs_spec; lia.
Qed.

Lemma checkFlush_None_iff (cards : list Card) :
  checkFlush cards = Return None <-> flushB cards = false.
Proof.
  rewrite <- Bool.not_true_iff_false, flushB_spec. split.
  - intros Hnone (s & Hs). pose proof (checkFlush_None cards Hnone s). lia.
  - intros Hno. destruct (checkFlush_total cards) as [[h|] Hr]; [|exact Hr].
    exfalso. apply Hno. apply checkFlush_shape in Hr. tauto.
Qed.

Lemma checkStraight_None_iff (cards : list Card) :
  checkStraight cards = None <-> straightB cards = false.
Proof.
  rewrite <- Bool.not_true_iff_false, straightB_spec.
  pose proof (checkStraight_spec cards) as Hspec.
  destruct (checkStraight cards) as [h|]; split; try discriminate; auto.
  - intros Hno. exfalso. apply Hno.
    destruct Hspec as [(top & _ & _ & Hrun & _)|(_ & _ & Hw & _)]; eauto.
  - intros _ [(top & Hrun)|Hw]; [now apply (proj1 Hspec top)|now apply (proj2 Hspec)].
Qed.

(** What the hand holds does not change when the cards are sorted. *)
Lemma countB_sorted (n : nat) (cards : list Card) :
  countB n (sort byCardRankDesc cards) = countB n cards.
Proof.
  unfold countB. apply existsb_ext. intros r. now rewrite sorted_rankCount.
Qed.

Lemma twoPairB_sorted (cards : list Card) :
  twoPairB (sort byCardRankDesc cards) = twoPairB cards.
Proof.
  unfold twoPairB. f_equal. f_equal. apply filter_ext. intros r.
  now rewrite sorted_rankCount.
Qed.

Lemma flushB_sorted (cards : list Card) :
  flushB (sort byCardRankDesc cards) = flushB cards.
Proof.
  unfold flushB. apply existsb_ext. intros s. now rewrite sorted_suitCount.
Qed.

Lemma heldValue_perm (cards cards' : list Card) (v : Z) :
  Permutation cards cards' -> heldValue cards v = heldValue cards' v.
Proof.
  intros Hp. apply Bool.eq_iff_eq_true. rewrite !heldValue_spec.
  split; intros (r & Hr & Hv); exists r; (split; [|exact Hv]);
    (eapply Permutation_in; [|exact Hr]); apply Permutation_map;
    [exact Hp|now symmetry].
Qed.

Lemma straightB_perm (cards cards' : list Card) :
  Permutation cards cards' -> straightB cards = straightB cards'.
Proof.
  intros Hp. unfold straightB, runB, wheelB. f_equal.
  - apply existsb_ext. intros top. apply forallb_ext. intros j. now apply heldValue_perm.
  - apply forallb_ext. intros r. now apply heldValue_perm.
Qed.

Lemma straightB_sorted (cards : list Card) :
  straightB (sort byCardRankDesc cards) = straightB cards.
Proof. apply straightB_perm, sort_perm. Qed.
End Category.

Section CategoryTable.
Context {E : PokerEnums}.

(** X14: the category [evaluateHand] returns for at least 5 cards is a
    function of what the hand holds, decided in this order: a suit held
    five times together with a straight among the ranks (Royal Flush
    when an Ace is held, else Straight Flush), a rank held four times, a
    rank held three times with a rank held twice, a suit held five
    times, a straight, a rank held three times, two ranks held twice, a
    rank held twice, and High Card otherwise. *)
Theorem category_is_read_off_the_cards (cards : list Card) (h : HandEvaluation) :
  (5 <= List.length cards)%nat ->
  evaluateHand cards = Return h ->
  handRank h = categoryOf cards.
Proof.
  intros Hlen Hh.
  destruct (straight_flush_is_flush_and_straight cards h Hlen Hh) as [Hsf Hroyal].
  destruct (evaluation_profile cards h Hh) as (_ & Hr & _).
  unfold categoryOf.
  destruct (flushB cards && straightB cards) eqn:Hfs.
  - apply andb_true_iff in Hfs. destruct Hfs as [Hf Hs].
    assert (H9 : 9 <= handRank h).
    { apply Hsf. split; [now apply flushB_spec|].
      rewrite <- straightB_sorted in Hs. intros Hnone.
      apply checkStraight_None_iff in Hnone. congruence. }
    destruct (heldValue cards 14) eqn:Hace.
    + apply Hroyal. split; [exact H9|].
      apply heldValue_spec in Hace. destruct Hace as (r & Hin & Hv).
      change 14 with (getRankValue ACE) in Hv. apply getRankValue_inj in Hv. now subst.
    + assert (handRank h <> 10); [|lia].
      intros H10. apply Hroyal in H10. destruct H10 as [_ Hin].
      assert (heldValue cards 14 = true) by (apply heldValue_spec; exists ACE; auto).
      congruence.
  - assert (Hlow : handRank h < 9).
    { destruct (Z_lt_ge_dec (handRank h) 9) as [Hlt|Hge]; [exact Hlt|exfalso].
      assert (H9 : 9 <= handRank h) by lia. apply Hsf in H9. destruct H9 as [Hf Hs].
      apply flushB_spec in Hf.
      assert (straightB cards = true).
      { rewrite <- straightB_sorted.
        destruct (straightB (sort byCardRankDesc cards)) eqn:Hb; [reflexivity|].
        apply checkStraight_None_iff in Hb. contradiction. }
      rewrite Hf, H in Hfs. discriminate. }
    pose proof Hh as Hlong. rewrite (evaluateHand_long cards Hlen) in Hlong.
    cbv zeta in Hlong. set (s := sort byCardRankDesc cards) in *.
    unfold or_else, bind in Hlong.
    destruct (checkStraightFlush s) as [[h1|]|e1] eqn:H1; try discriminate.
    { injection Hlong as <-. apply checkStraightFlush_shape in H1. lia. }
    destruct (checkFourOfAKind s) as [h2|] eqn:H2.
    { injection Hlong as <-.
      assert (countB 4 cards = true) as ->.
      { rewrite <- countB_sorted. fold s. destruct (countB 4 s) eqn:Hb; [reflexivity|].
        apply checkFourOfAKind_None in Hb. congruence. }
      apply checkFourOfAKind_shape in H2. tauto. }
    assert (countB 4 cards = false) as ->
      by (rewrite <- countB_sorted; now apply checkFourOfAKind_None).
    destruct (checkFullHouse s) as [h3|] eqn:H3.
    { injection Hlong as <-.
      assert (countB 3 cards && countB 2 cards = true) as ->.
      { rewrite <- (countB_sorted 3 cards), <- (countB_sorted 2 cards). fold s.
        destruct (countB 3 s && countB 2 s) eqn:Hb; [reflexivity|].
        apply checkFullHouse_None in Hb. congruence. }
      apply checkFullHouse_shape in H3. tauto. }
    assert (countB 3 cards && countB 2 cards = false) as ->
      by (rewrite <- (countB_sorted 3 cards), <- (countB_sorted 2 cards); now apply checkFullHouse_None).
    destruct (checkFlush s) as [[h4|]|e4] eqn:H4; try discriminate.
    { injection Hlong as <-.
      assert (flushB cards = true) as ->.
      { rewrite <- flushB_sorted. fold s. destruct (flushB s) eqn:Hb; [reflexivity|].
        apply checkFlush_None_iff in Hb. congruence. }
      apply checkFlush_shape in H4. tauto. }
    assert (flushB cards = false) as ->
      by (rewrite <- flushB_sorted; now apply checkFlush_None_iff).
    destruct (checkStraight s) as [h5|] eqn:H5.
    { injection Hlong as <-.
      assert (straightB cards = true) as ->.
      { rewrite <- straightB_sorted. fold s. destruct (straightB s) eqn:Hb; [reflexivity|].
        apply checkStraight_None_iff in Hb. congruence. }
      apply checkStraight_shape in H5. tauto. }
    assert (straightB cards = false) as ->
      by (rewrite <- straightB_sorted; now apply checkStraight_None_iff).
    destruct (checkThreeOfAKind s) as [h6|] eqn:H6.
    { injection Hlong as <-.
      assert (countB 3 cards = true) as ->.
      { rewrite <- countB_sorted. fold s. destruct (countB 3 s) eqn:Hb; [reflexivity|].
        apply checkThreeOfAKind_None in Hb. congruence. }
      apply checkThreeOfAKind_shape in H6. tauto. }
    assert (countB 3 cards = false) as ->
      by (rewrite <- countB_sorted; now apply checkThreeOfAKind_None).
    destruct (checkTwoPair s) as [h7|] eqn:H7.
    { injection Hlong as <-.
      assert (twoPairB cards = true) as ->.
      { rewrite <- twoPairB_sorted. fold s. destruct (twoPairB s) eqn:Hb; [reflexivity|].
        apply checkTwoPair_None_iff in Hb. congruence. }
      apply checkTwoPair_shape in H7. tauto. }
    assert (twoPairB cards = false) as ->
      by (rewrite <- twoPairB_sorted; now apply checkTwoPair_None_iff).
    destruct (checkPair s) as [h8|] eqn:H8.
    { injection Hlong as <-.
      assert (countB 2 cards = true) as ->.
      { rewrite <- countB_sorted. fold s. destruct (countB 2 s) eqn:Hb; [reflexivity|].
        apply checkPair_None in Hb. congruence. }
      apply checkPair_shape in H8. tauto. }
    assert (countB 2 cards = false) as ->
      by (rewrite <- countB_sorted; now apply checkPair_None).
    apply checkHighCard_shape in Hlong. tauto.
Qed.
End CategoryTable.

Lemma category_is_read_off_the_cards_witness :
  7 = categoryOf twosOverFives.
Proof.
  apply (category_is_read_off_the_cards (E := Deck.enums) twosOverFives
           {| handType := "Full House";
              handRank := 7;
              kickers := [TWO; FIVE];
              description := "Full House, 2s over 5s";
              strength := 0.85 |});
    [simpl; lia|reflexivity].
Defined.

(** ** The kickers *)

Lemma StronglySorted_filter {A} (R : A -> A -> Prop) (p : A -> bool) (l : list A) :
  StronglySorted R l -> StronglySorted R (filter p l).
Proof.
  induction 1 as [|x l Hs IH Hall]; simpl; [constructor|].
  destruct (p x); [|exact IH]. constructor; [exact IH|].
  apply Forall_forall. intros y Hy. apply filter_In in Hy.
  exact (proj1 (Forall_forall _ _) Hall y (proj1 Hy)).
Qed.

Lemma StronglySorted_head_max {A} (R : A -> A -> Prop) (x : A) (l : list A) (y : A) :
  StronglySorted R (x :: l) -> In y l -> R x y.
Proof.
  intros Hs Hy. inversion Hs as [|? ? _ Hall]; subst.
  exact (proj1 (Forall_forall _ _) Hall y Hy).
Qed.

Section Origin.
Context {E : PokerEnums}.

(** The check an evaluation of at least 5 cards comes from, by its
    category rank. *)
Lemma origin_by_rank (cards : list Card) (h : HandEvaluation) :
  (5 <= List.length cards)%nat ->
  evaluateHand cards = Return h ->
  let s := sort byCardRankDesc cards in
  (9 <= handRank h -> checkStraightFlush s = Return (Some h))
  /\ (handRank h = 8 -> checkFourOfAKind s = Some h)
  /\ (handRank h = 7 -> checkFullHouse s = Some h)
  /\ (handRank h = 6 -> checkFlush s = Return (Some h))
  /\ (handRank h = 5 -> checkStraight s = Some h)
  /\ (handRank h = 4 -> checkThreeOfAKind s = Some h)
  /\ (handRank h = 3 -> checkTwoPair s = Some h)
  /\ (handRank h = 2 -> checkPair s = Some h)
  /\ (handRank h = 1 -> checkHighCard s = Return h).
Proof.
  intros Hlen Hh s.
  destruct (evaluateHand_cases cards h Hlen Hh)
    as [H|_ H|_ _ H|_ H|_ H|_ _ H|_ H|_ _ H|_ _ H]; fold s in H; pose proof H as H'.
  - apply checkStraightFlush_shape in H'. repeat split; intros; auto; lia.
  - apply checkFourOfAKind_shape in H'. repeat split; intros; auto; lia.
  - apply checkFullHouse_shape in H'. repeat split; intros; auto; lia.
  - apply checkFlush_shape in H'. repeat split; intros; auto; lia.
  - apply checkStraight_shape in H'. repeat split; intros; auto; lia.
  - apply checkThreeOfAKind_shape in H'. repeat split; intros; auto; lia.
  - apply checkTwoPair_shape in H'. repeat split; intros; auto; lia.
  - apply checkPair_shape in H'. repeat split; intros; auto; lia.
  - apply checkHighCard_shape in H'. repeat split; intros; auto; lia.
Qed.

Lemma sorted_cards_descending (cards : list Card) :
  StronglySorted (fun a b => getRankValue (rank b) <= getRankValue (rank a))
                 (sort byCardRankDesc cards).
Proof. exact (sort_desc_sorted (fun c => getRankValue (rank c)) cards). Qed.

(** X15: the kicker of a Flush is the rank of the highest card of a suit
    held at least five times. *)
Theorem flush_kicker_is_highest_of_suit (cards : list Card) (h : HandEvaluation) :
  (5 <= List.length cards)%nat ->
  evaluateHand cards = Return h ->
  handRank h = 6 ->
  exists first,
    In first cards
    /\ (5 <= suitCount cards (suit first))%nat
    /\ kickers h = [rank first]
    /\ forall c, In c cards -> suit c = suit first ->
                 getRankValue (rank c) <= getRankValue (rank first).
Proof.
  intros Hlen Hh H6.
  destruct (origin_by_rank cards h Hlen Hh) as (_ & _ & _ & Hflush & _).
  specialize (Hflush H6). revert Hflush.
  set (s := sort byCardRankDesc cards). unfold checkFlush. fold (isFlushSuit s).
  destruct (find (isFlushSuit s) _) as [fs|] eqn:Hf; [|discriminate].
  rewrite Suit_toString_truthy.
  apply find_some in Hf. destruct Hf as [_ Hfs]. apply isFlushSuit_spec in Hfs.
  unfold s in Hfs. rewrite sorted_suitCount in Hfs.
  destruct (filter _ s) as [|first rest] eqn:Hfl; [discriminate|].
  intros [= <-]. simpl.
  assert (Hfirst : In first (filter (fun card => String.eqb (Suit_toString (suit card))
                                                        (Suit_toString fs)) s))
    by (rewrite Hfl; now left).
  apply filter_In in Hfirst. destruct Hfirst as [Hin Hsuit].
  apply (key_eqb_true Suit_toString Suit_toString_inj) in Hsuit.
  exists first. repeat split.
  - now apply (sort_In byCardRankDesc).
  - now rewrite Hsuit.
  - intros c Hc Hcs.
    assert (Hcf : In c (first :: rest)).
    { rewrite <- Hfl. apply filter_In. split; [now apply (sort_In byCardRankDesc)|].
      rewrite Hcs, Hsuit. apply String.eqb_refl. }
    destruct Hcf as [<-|Hcr]; [lia|].
    pose proof (StronglySorted_filter _
                  (fun card => String.eqb (Suit_toString (suit card)) (Suit_toString fs))
                  _ (sorted_cards_descending cards)) as Hsorted.
    fold s in Hsorted. rewrite Hfl in Hsorted.
    exact (StronglySorted_head_max _ _ _ _ Hsorted Hcr).
Qed.

(** X16: a straight flush or royal flush has one kicker, the rank of the
    highest card of the whole hand. *)
Theorem straight_flush_kicker_is_highest_card (cards : list Card) (h : HandEvaluation) :
  (5 <= List.length cards)%nat ->
  evaluateHand cards = Return h ->
  9 <= handRank h ->
  exists first,
    In first cards
    /\ kickers h = [rank first]
    /\ forall c, In c cards -> getRankValue (rank c) <= getRankValue (rank first).
Proof.
  intros Hlen Hh H9.
  destruct (origin_by_rank cards h Hlen Hh) as (Hsf & _).
  specialize (Hsf H9). revert Hsf. unfold checkStraightFlush.
  destruct (checkFlush _) as [[f|]|e]; simpl; try discriminate.
  destruct (checkStraight _); [|discriminate].
  destruct (sort byCardRankDesc cards) as [|first rest] eqn:Hs; [discriminate|].
  intros [= <-]. simpl. exists first. repeat split.
  - apply (sort_In byCardRankDesc). rewrite Hs. now left.
  - intros c Hc.
    exact (sort_desc_head (fun c => getRankValue (rank c)) cards first rest Hs c Hc).
Qed.

(** X17: the kickers of a Full House are the rank held three times, then
    the rank held twice. *)
Theorem full_house_kickers (cards : list Card) (h : HandEvaluation) :
  (5 <= List.length cards)%nat ->
  evaluateHand cards = Return h ->
  handRank h = 7 ->
  exists three pair,
    kickers h = [three; pair]
    /\ rankCount cards three = 3%nat /\ rankCount cards pair = 2%nat.
Proof.
  intros Hlen Hh H7.
  destruct (origin_by_rank cards h Hlen Hh) as (_ & _ & Hfh & _).
  specialize (Hfh H7). revert Hfh. unfold checkFullHouse.
  pose proof (find_rankCountIs (sort byCardRankDesc cards) 3 ltac:(lia)) as F3.
  pose proof (find_rankCountIs (sort byCardRankDesc cards) 2 ltac:(lia)) as F2.
  destruct (find (rankCountIs _ 3) _) as [t|]; [|discriminate].
  destruct (find (rankCountIs _ 2) _) as [q|]; [|discriminate].
  rewrite !Rank_toString_truthy. intros [= <-]. simpl.
  rewrite sorted_rankCount in F3, F2. exists t, q. repeat split; lia.
Qed.

(** X18: Four of a Kind has at most one kicker; it is a rank held exactly
    once, so a side pair or a side set of three gives no kicker. *)
Theorem four_of_a_kind_kicker (cards : list Card) (h : HandEvaluation) :
  (5 <= List.length cards)%nat ->
  evaluateHand cards = Return h ->
  handRank h = 8 ->
  (exists four, rankCount cards four = 4%nat)
  /\ (List.length (kickers h) <= 1)%nat
  /\ (forall k, In k (kickers h) -> rankCount cards k = 1%nat)
  /\ ((forall r, rankCount cards r <> 1%nat) -> kickers h = []).
Proof.
  intros Hlen Hh H8.
  destruct (origin_by_rank cards h Hlen Hh) as (_ & Hfour & _).
  specialize (Hfour H8). revert Hfour. unfold checkFourOfAKind.
  pose proof (find_rankCountIs (sort byCardRankDesc cards) 4 ltac:(lia)) as F4.
  destruct (find (rankCountIs _ 4) _) as [four|]; [|discriminate].
  rewrite Rank_toString_truthy. rewrite sorted_rankCount in F4.
  destruct (find (fun rank => keyDiffers rank four && _) _) as [k|] eqn:Hk;
    intros [= <-]; simpl.
  - apply find_some in Hk. destruct Hk as [_ Hk]. apply andb_true_iff in Hk.
    destruct Hk as [_ Hk]. apply rankCountIs_spec in Hk; [|lia].
    rewrite sorted_rankCount in Hk. rewrite Rank_toString_truthy.
    split; [exists four; lia|]. split; [simpl; lia|]. split.
    + intros k' [<-|[]]. lia.
    + intros Hno. exfalso. apply (Hno k). lia.
  - split; [exists four; lia|]. split; [simpl; lia|]. split; [intros k' []|reflexivity].
Qed.
End Origin.

(** The first [n] entries of an array sorted high to low: they go down,
    and nothing left out is higher than any of them. *)
Lemma top_of_sorted {A} (key : A -> Z) (l : list A) (n : nat) :
  let top := slice0 n (sort (fun a b => key b - key a) l) in
  List.length top = Nat.min n (List.length l)
  /\ StronglySorted (fun a b => key b <= key a) top
  /\ exists rest,
       Permutation l (top ++ rest)
       /\ forall k r, In k top -> In r rest -> key r <= key k.
Proof.
  unfold slice0. set (sorted := sort (fun a b => key b - key a) l).
  pose proof (sort_desc_sorted key l) as Hs. fold sorted in Hs.
  rewrite <- (firstn_skipn n sorted) in Hs.
  split; [|split].
  - rewrite length_firstn. unfold sorted. now rewrite sort_length.
  - exact (StronglySorted_prefix _ _ _ Hs).
  - exists (skipn n sorted). split.
    + rewrite firstn_skipn. symmetry. apply sort_perm.
    + intros k r Hk Hr. exact (proj2 (StronglySorted_suffix _ _ _ Hs) k r Hk Hr).
Qed.

Section Kickers.
Context {E : PokerEnums}.

(** X19: a High Card evaluation of at least 5 cards has five kickers: the
    five highest ranks of the hand, from the highest down. *)
Theorem high_card_kickers_are_the_top_five (cards : list Card) (h : HandEvaluation) :
  (5 <= List.length cards)%nat ->
  evaluateHand cards = Return h ->
  handRank h = 1 ->
  List.length (kickers h) = 5%nat
  /\ StronglySorted (fun a b => getRankValue b <= getRankValue a) (kickers h)
  /\ exists rest,
       Permutation (map rank cards) (kickers h ++ rest)
       /\ forall k r, In k (kickers h) -> In r rest -> getRankValue r <= getRankValue k.
Proof.
  intros Hlen Hh H1.
  destruct (origin_by_rank cards h Hlen Hh) as (_ & _ & _ & _ & _ & _ & _ & _ & Hhc).
  specialize (Hhc H1). revert Hhc. unfold checkHighCard.
  set (s := sort byCardRankDesc cards).
  destruct (top_of_sorted getRankValue (map rank s) 5) as (Hl & Hs & rest & Hp & Hcross).
  change (sort (fun a b => getRankValue b - getRankValue a)) with (sort byRankDesc) in *.
  destruct (slice0 5 (sort byRankDesc (map rank s))) as [|top more] eqn:Hk; [discriminate|].
  intros [= <-]. simpl kickers. split; [|split].
  - rewrite Hl, length_map. unfold s. rewrite sort_length. lia.
  - exact Hs.
  - exists rest. split; [|exact Hcross].
    rewrite <- Hp. apply Permutation_map. symmetry. apply sort_perm.
Qed.

(** The keys the kickers of a Pair or of a Three of a Kind are taken
    from: the ranks held exactly once. *)
Lemma single_keys (cards : list Card) (main : Rank) :
  rankCount cards main <> 1%nat ->
  let singles := filter (fun rank => keyDiffers rank main
                                     && rankCountIs (getRankCounts cards) 1 rank)
                        (keys Rank_toString (getRankCounts cards)) in
  NoDup singles /\ forall r, In r singles <-> rankCount cards r = 1%nat.
Proof.
  intros Hmain singles. split.
  - apply NoDup_filter, rank_keys_NoDup.
  - intros r. unfold singles. rewrite filter_In, andb_true_iff, rank_keys_In.
    rewrite rankCountIs_spec by lia. split.
    + intros (_ & _ & Hc). lia.
    + intros Hc. repeat split; try lia. unfold keyDiffers.
      rewrite (key_eqb_neq Rank_toString Rank_toString_inj); [reflexivity|].
      intros ->. contradiction.
Qed.

Lemma singles_count (cards : list Card) (singles : list Rank) :
  NoDup singles -> (forall r, In r singles <-> rankCount cards r = 1%nat) ->
  List.length singles
  = List.length (filter (fun r => (rankCount cards r =? 1)%nat) Deck.all_ranks).
Proof.
  intros Hnd Hin. apply Permutation_length. apply NoDup_Permutation.
  - exact Hnd.
  - apply NoDup_filter, all_ranks_NoDup.
  - intros r. rewrite Hin, filter_In, Nat.eqb_eq. split; [|tauto].
    intros Hc. split; [apply all_ranks_complete|exact Hc].
Qed.

(** X20: the kickers of a Pair are the three highest ranks held exactly
    once (fewer when fewer are held), from the highest down; the paired
    rank is not among them. *)
Theorem pair_kickers_are_the_top_singles (cards : list Card) (h : HandEvaluation) :
  (5 <= List.length cards)%nat ->
  evaluateHand cards = Return h ->
  handRank h = 2 ->
  List.length (kickers h)
  = Nat.min 3 (List.length (filter (fun r => (rankCount cards r =? 1)%nat) Deck.all_ranks))
  /\ StronglySorted (fun a b => getRankValue b <= getRankValue a) (kickers h)
  /\ (forall k, In k (kickers h) -> rankCount cards k = 1%nat)
  /\ (forall r, rankCount cards r = 1%nat ->
                In r (kickers h)
                \/ forall k, In k (kickers h) -> getRankValue r <= getRankValue k).
Proof.
  intros Hlen Hh H2.
  destruct (origin_by_rank cards h Hlen Hh) as (_ & _ & _ & _ & _ & _ & _ & Hp & _).
  specialize (Hp H2). revert Hp. unfold checkPair.
  set (s := sort byCardRankDesc cards).
  pose proof (find_rankCountIs s 2 ltac:(lia)) as F2.
  destruct (find (rankCountIs _ 2) _) as [pairRank|]; [|discriminate].
  rewrite Rank_toString_truthy.
  destruct (single_keys s pairRank ltac:(lia)) as [Hnd Hin].
  set (singles := filter _ _) in *.
  destruct (top_of_sorted getRankValue singles 3) as (Hl & Hs & rest & Hperm & Hcross).
  change (sort (fun a b => getRankValue b - getRankValue a)) with (sort byRankDesc) in *.
  remember (slice0 3 (sort byRankDesc singles)) as top eqn:Htop.
  intros [= <-]. simpl kickers. split; [|split; [|split]].
  - rewrite Hl. f_equal. rewrite (singles_count s singles Hnd Hin).
    f_equal. apply filter_ext. intros r. unfold s. now rewrite sorted_rankCount.
  - exact Hs.
  - intros k Hk. rewrite <- (sorted_rankCount cards k). apply Hin.
    eapply Permutation_in; [symmetry; exact Hperm|]. apply in_or_app. now left.
  - intros r Hr. rewrite <- (sorted_rankCount cards r) in Hr. apply Hin in Hr.
    apply (Permutation_in _ Hperm) in Hr. apply in_app_or in Hr.
    destruct Hr as [Hr|Hr]; [now left|right]. intros k Hk. now apply Hcross.
Qed.

(** X21: the kickers of a Three of a Kind are the two highest ranks held
    exactly once (fewer when fewer are held), from the highest down. *)
Theorem three_of_a_kind_kickers_are_the_top_singles
        (cards : list Card) (h : HandEvaluation) :
  (5 <= List.length cards)%nat ->
  evaluateHand cards = Return h ->
  handRank h = 4 ->
  List.length (kickers h)
  = Nat.min 2 (List.length (filter (fun r => (rankCount cards r =? 1)%nat) Deck.all_ranks))
  /\ StronglySorted (fun a b => getRankValue b <= getRankValue a) (kickers h)
  /\ (forall k, In k (kickers h) -> rankCount cards k = 1%nat)
  /\ (forall r, rankCount cards r = 1%nat ->
                In r (kickers h)
                \/ forall k, In k (kickers h) -> getRankValue r <= getRankValue k).
Proof.
  intros Hlen Hh H4.
  destruct (origin_by_rank cards h Hlen Hh) as (_ & _ & _ & _ & _ & Hp & _).
  specialize (Hp H4). revert Hp. unfold checkThreeOfAKind.
  set (s := sort byCardRankDesc cards).
  pose proof (find_rankCountIs s 3 ltac:(lia)) as F3.
  destruct (find (rankCountIs _ 3) _) as [three|]; [|discriminate].
  rewrite Rank_toString_truthy.
  destruct (single_keys s three ltac:(lia)) as [Hnd Hin].
  set (singles := filter _ _) in *.
  destruct (top_of_sorted getRankValue singles 2) as (Hl & Hs & rest & Hperm & Hcross).
  change (sort (fun a b => getRankValue b - getRankValue a)) with (sort byRankDesc) in *.
  remember (slice0 2 (sort byRankDesc singles)) as top eqn:Htop.
  intros [= <-]. simpl kickers. split; [|split; [|split]].
  - rewrite Hl. f_equal. rewrite (singles_count s singles Hnd Hin).
    f_equal. apply filter_ext. intros r. unfold s. now rewrite sorted_rankCount.
  - exact Hs.
  - intros k Hk. rewrite <- (sorted_rankCount cards k). apply Hin.
    eapply Permutation_in; [symmetry; exact Hperm|]. apply in_or_app. now left.
  - intros r Hr. rewrite <- (sorted_rankCount cards r) in Hr. apply Hin in Hr.
    apply (Permutation_in _ Hperm) in Hr. apply in_app_or in Hr.
    destruct Hr as [Hr|Hr]; [now left|right]. intros k Hk. now apply Hcross.
Qed.
End Kickers.

Lemma flush_kicker_is_highest_of_suit_witness :
  exists first,
    In first MoreHands.kingHighFlush
    /\ (5 <= suitCount MoreHands.kingHighFlush (suit first))%nat
    /\ [KING] = [rank first].
Proof.
  destruct (flush_kicker_is_highest_of_suit (E := Deck.enums) MoreHands.kingHighFlush
              {| handType := "Flush";
                 handRank := 6;
                 kickers := [KING];
                 description := "Flush, undefined high";
                 strength := 0.75 |})
    as (first & Hin & Hsuit & Hk & _); [simpl; lia|reflexivity|reflexivity|].
  exists first. auto.
Defined.

Lemma straight_flush_kicker_is_highest_card_witness :
  exists first, In first heartsAndNine /\ [KING] = [rank first].
Proof.
  destruct (straight_flush_kicker_is_highest_card (E := Deck.enums) heartsAndNine
              {| handType := "Straight Flush";
                 handRank := 9;
                 kickers := [KING];
                 description := "Straight Flush, undefined high";
                 strength := 0.95 |})
    as (first & Hin & Hk & _); [simpl; lia|reflexivity|simpl; lia|].
  exists first. auto.
Defined.

Lemma full_house_kickers_witness :
  exists three pair,
    [TWO; FIVE] = [three; pair]
    /\ rankCount twosOverFives three = 3%nat /\ rankCount twosOverFives pair = 2%nat.
Proof.
  apply (full_house_kickers (E := Deck.enums) twosOverFives
           {| handType := "Full House";
              handRank := 7;
              kickers := [TWO; FIVE];
              description := "Full House, 2s over 5s";
              strength := 0.85 |});
    [simpl; lia|reflexivity|reflexivity].
Defined.

Lemma four_of_a_kind_kicker_witness :
  (List.length [QUEEN] <= 1)%nat /\ rankCount MoreHands.fourAces QUEEN = 1%nat.
Proof.
  destruct (four_of_a_kind_kicker (E := Deck.enums) MoreHands.fourAces
              {| handType := "Four of a Kind";
                 handRank := 8;
                 kickers := [QUEEN];
                 description := "Four As";
                 strength := 0.9 |})
    as (_ & Hl & Hk & _); [simpl; lia|reflexivity|reflexivity|].
  split; [exact Hl|]. apply Hk. now left.
Defined.

Lemma high_card_kickers_are_the_top_five_witness :
  StronglySorted (fun a b => getRankValue b <= getRankValue a)
                 [KING; QUEEN; TEN; EIGHT; SIX].
Proof.
  apply (high_card_kickers_are_the_top_five (E := Deck.enums) MoreHands.kingHigh
           {| handType := "High Card";
              handRank := 1;
              kickers := [KING; QUEEN; TEN; EIGHT; SIX];
              description := "High Card, undefined";
              strength := 0.165 |});
    [simpl; lia|reflexivity|reflexivity].
Defined.

Lemma pair_kickers_are_the_top_singles_witness :
  StronglySorted (fun a b => getRankValue b <= getRankValue a) [KING; JACK; NINE]
  /\ rankCount pairOfTwos KING = 1%nat.
Proof.
  destruct (pair_kickers_are_the_top_singles (E := Deck.enums) pairOfTwos
              {| handType := "Pair";
                 handRank := 2;
                 kickers := [KING; JACK; NINE];
                 description := "Pair of 2s";
                 strength := 0.32 |})
    as (_ & Hs & Hk & _); [simpl; lia|reflexivity|reflexivity|].
  split; [exact Hs|]. apply Hk. now left.
Defined.

Lemma three_of_a_kind_kickers_are_the_top_singles_witness :
  StronglySorted (fun a b => getRankValue b <= getRankValue a) [KING; QUEEN]
  /\ rankCount MoreHands.threeSevens KING = 1%nat.
Proof.
  destruct (three_of_a_kind_kickers_are_the_top_singles (E := Deck.enums)
              MoreHands.threeSevens
              {| handType := "Three of a Kind";
                 handRank := 4;
                 kickers := [KING; QUEEN];
                 description := "Three 7s";
                 strength := 0.55 |})
    as (_ & Hs & Hk & _); [simpl; lia|reflexivity|reflexivity|].
  split; [exact Hs|]. apply Hk. now left.
Defined.

(** ** The order of the cards *)

Lemma descending_perm_unique (l1 l2 : list Z) :
  StronglySorted (fun a b => b <= a) l1 ->
  StronglySorted (fun a b => b <= a) l2 ->
  Permutation l1 l2 -> l1 = l2.
Proof.
  revert l2; induction l1 as [|x l1 IH]; intros l2 H1 H2 Hp.
  - apply Permutation_nil in Hp. now subst.
  - destruct l2 as [|y l2]; [symmetry in Hp; apply Permutation_nil in Hp; discriminate|].
    inversion H1 as [|? ? H1' Hall1]; subst. inversion H2 as [|? ? H2' Hall2]; subst.
    assert (Hxy : x = y).
    { assert (Hx : In x (y :: l2)) by (eapply Permutation_in; [exact Hp|now left]).
      assert (Hy : In y (x :: l1))
        by (eapply Permutation_in; [symmetry; exact Hp|now left]).
      destruct Hx as [Hx|Hx]; [now subst|].
      destruct Hy as [Hy|Hy]; [now subst|].
      pose proof (proj1 (Forall_forall _ _) Hall2 x Hx).
      pose proof (proj1 (Forall_forall _ _) Hall1 y Hy). simpl in *. lia. }
    subst y. f_equal. apply IH; auto. now apply Permutation_cons_inv in Hp.
Qed.

Lemma StronglySorted_map {A} (key : A -> Z) (l : list A) :
  StronglySorted (fun a b => key b <= key a) l ->
  StronglySorted (fun a b => b <= a) (map key l).
Proof.
  induction 1 as [|x l Hs IH Hall]; simpl; constructor; [exact IH|].
  apply Forall_forall. intros v Hv. apply in_map_iff in Hv. destruct Hv as (y & <- & Hy).
  exact (proj1 (Forall_forall _ _) Hall y Hy).
Qed.

(** Sorting two arrays of the same cards gives the same keys, place by
    place. *)
Lemma sort_perm_keys {A} (key : A -> Z) (l l' : list A) :
  Permutation l l' ->
  map key (sort (fun a b => key b - key a) l)
  = map key (sort (fun a b => key b - key a) l').
Proof.
  intros Hp. apply descending_perm_unique.
  - apply StronglySorted_map, sort_desc_sorted.
  - apply StronglySorted_map, sort_desc_sorted.
  - apply Permutation_map. rewrite !sort_perm. exact Hp.
Qed.

Lemma map_rank_of_values (l l' : list Card) :
  map (fun c => getRankValue (rank c)) l = map (fun c => getRankValue (rank c)) l' ->
  map rank l = map rank l'.
Proof.
  revert l'; induction l as [|c l IH]; intros [|c' l']; simpl; try discriminate;
    [reflexivity|].
  intros [= Hv Hrest]. f_equal; [now apply getRankValue_inj|now apply IH].
Qed.

Lemma sorted_ranks_perm (cards cards' : list Card) :
  Permutation cards cards' ->
  map rank (sort byCardRankDesc cards) = map rank (sort byCardRankDesc cards').
Proof.
  intros Hp. apply map_rank_of_values.
  exact (sort_perm_keys (fun c => getRankValue (rank c)) cards cards' Hp).
Qed.

Lemma fold_left_over_map {A B C} (f : A -> C -> A) (g : B -> C) (l : list B) (a : A) :
  fold_left (fun acc x => f acc (g x)) l a = fold_left f (map g l) a.
Proof. revert a; induction l as [|x l IH]; intros a; simpl; [reflexivity|]. apply IH. Qed.

Section Order.
Context {E : PokerEnums}.

(** The checks that read the rank counts, the straight check and the
    high-card check look at the ranks only. *)
Lemma getRankCounts_ranks (c1 c2 : list Card) :
  map rank c1 = map rank c2 -> getRankCounts c1 = getRankCounts c2.
Proof.
  intros Hr. unfold getRankCounts.
  rewrite (fold_left_over_map
             (fun counts r => set Rank_toString counts r
                                  (or_zero (get Rank_toString counts r) + 1)) rank c1).
  rewrite (fold_left_over_map
             (fun counts r => set Rank_toString counts r
                                  (or_zero (get Rank_toString counts r) + 1)) rank c2).
  now rewrite Hr.
Qed.

Lemma rank_checks_ranks (c1 c2 : list Card) :
  map rank c1 = map rank c2 ->
  checkFourOfAKind c1 = checkFourOfAKind c2
  /\ checkFullHouse c1 = checkFullHouse c2
  /\ checkStraight c1 = checkStraight c2
  /\ checkThreeOfAKind c1 = checkThreeOfAKind c2
  /\ checkTwoPair c1 = checkTwoPair c2
  /\ checkPair c1 = checkPair c2
  /\ checkHighCard c1 = checkHighCard c2.
Proof.
  intros Hr. pose proof (getRankCounts_ranks c1 c2 Hr) as Hc.
  unfold checkFourOfAKind, checkFullHouse, checkThreeOfAKind, checkTwoPair, checkPair,
    checkHighCard, checkStraight.
  rewrite Hc, Hr.
  replace (map (fun card => getRankValue (rank card)) c1)
    with (map (fun card => getRankValue (rank card)) c2)
    by (rewrite <- !(map_map rank getRankValue); now rewrite Hr).
  repeat split.
Qed.

Lemma checkStraightFlush_ranks (c1 c2 : list Card) :
  map rank c1 = map rank c2 ->
  (forall s, suitCount c1 s = suitCount c2 s) ->
  checkStraightFlush c1 = checkStraightFlush c2.
Proof.
  intros Hr Hs. destruct (rank_checks_ranks c1 c2 Hr) as (_ & _ & Hst & _).
  unfold checkStraightFlush. rewrite Hst.
  assert (Hflush : checkFlush c1 = Return None <-> checkFlush c2 = Return None).
  { rewrite !checkFlush_None_iff. unfold flushB.
    rewrite (existsb_ext _ (fun s => (5 <=? suitCount c2 s)%nat)); [tauto|].
    intros s. now rewrite Hs. }
  destruct (checkFlush_total c1) as [[f1|] H1], (checkFlush_total c2) as [[f2|] H2];
    rewrite H1, H2; simpl.
  - destruct (checkStraight c2); [|reflexivity].
    destruct c1 as [|x1 c1], c2 as [|x2 c2]; simpl in Hr; try discriminate Hr;
      [reflexivity|].
    injection Hr as Hx _. now rewrite Hx.
  - apply Hflush in H2. congruence.
  - apply Hflush in H1. congruence.
  - reflexivity.
Qed.

(** X22: the order in which the cards are passed does not matter: two
    arrays of the same cards get the same category, rank and strength,
    and, unless the category is Flush, the same evaluation altogether. *)
Theorem evaluation_ignores_card_order (cards cards' : list Card) (h : HandEvaluation) :
  Permutation cards cards' ->
  evaluateHand cards = Return h ->
  exists h',
    evaluateHand cards' = Return h'
    /\ handType h' = handType h /\ handRank h' = handRank h
    /\ strength h' = strength h
    /\ (handRank h <> 6 -> h' = h).
Proof.
  intros Hp Hh. pose proof (Permutation_length Hp) as Hlen.
  destruct (le_lt_dec 5 (List.length cards)) as [H5|H5].
  - assert (Hr := sorted_ranks_perm cards cards' Hp).
    assert (Hs : forall s, suitCount (sort byCardRankDesc cards) s
                           = suitCount (sort byCardRankDesc cards') s).
    { intros s. rewrite !sorted_suitCount. now apply suitCount_perm. }
    destruct (rank_checks_ranks _ _ Hr) as (E4 & E7 & E5 & E3 & E2 & E1 & E0).
    pose proof (checkStraightFlush_ranks _ _ Hr Hs) as E9.
    rewrite (evaluateHand_long cards H5) in Hh.
    rewrite (evaluateHand_long cards' ltac:(lia)). cbv zeta in *.
    rewrite <- E9, <- E4, <- E7, <- E5, <- E3, <- E2, <- E1, <- E0.
    set (s := sort byCardRankDesc cards) in *. set (s' := sort byCardRankDesc cards') in *.
    unfold or_else, bind in *.
    destruct (checkStraightFlush s) as [[h1|]|e1]; try discriminate.
    { exists h. repeat split; auto. }
    destruct (checkFourOfAKind s) as [h2|]; [exists h; repeat split; auto|].
    destruct (checkFullHouse s) as [h3|]; [exists h; repeat split; auto|].
    destruct (checkFlush_total s) as [[f|] Hf], (checkFlush_total s') as [[f'|] Hf'];
      rewrite Hf in Hh; rewrite Hf'.
    + injection Hh as <-. exists f'.
      apply checkFlush_shape in Hf, Hf'.
      destruct Hf as (Ht & Hk & Hst & _), Hf' as (Ht' & Hk' & Hst' & _).
      rewrite Ht, Ht', Hk, Hk', Hst, Hst'. repeat split. intros Hne. now contradiction Hne.
    + exfalso. apply checkFlush_shape in Hf. destruct Hf as (_ & _ & _ & suit0 & Hsuit).
      pose proof (checkFlush_None s' Hf' suit0). rewrite Hs in Hsuit. lia.
    + exfalso. apply checkFlush_shape in Hf'. destruct Hf' as (_ & _ & _ & suit0 & Hsuit).
      pose proof (checkFlush_None s Hf suit0). rewrite <- Hs in Hsuit. lia.
    + exists h. repeat split; auto.
  - rewrite (evaluateHand_short cards H5) in Hh.
    rewrite (evaluateHand_short cards' ltac:(lia)). exists h. repeat split; auto.
Qed.
End Order.

Lemma evaluation_ignores_card_order_witness :
  exists h',
    evaluateHand (E := Deck.enums) (rev twosOverFives) = Return h'
    /\ handRank h' = 7.
Proof.
  destruct (evaluation_ignores_card_order (E := Deck.enums) twosOverFives
              (rev twosOverFives)
              {| handType := "Full House";
                 handRank := 7;
                 kickers := [TWO; FIVE];
                 description := "Full House, 2s over 5s";
                 strength := 0.85 |})
    as (h' & Hh' & _ & Hr & _); [apply Permutation_rev|reflexivity|].
  exists h'. split; [exact Hh'|exact Hr].
Defined.

(** ** The evaluation a player's panel shows *)

Section Panel.
Context {E : PokerEnums}.

(** The description of an evaluation of at least 5 cards is never the
    placeholder's. *)
Lemma description_is_not_incomplete (cards : list Card) (h : HandEvaluation) :
  (5 <= List.length cards)%nat ->
  evaluateHand cards = Return h ->
  description h <> "Incomplete hand"%string.
Proof.
  intros Hlen Hh.
  destruct (evaluateHand_cases cards h Hlen Hh)
    as [H|_ H|_ _ H|_ H|_ H|_ _ H|_ H|_ _ H|_ _ H]; revert H.
  - unfold checkStraightFlush.
    destruct (checkFlush _) as [[f|]|e]; simpl; try discriminate.
    destruct (checkStraight _); [|discriminate].
    destruct (sort byCardRankDesc cards) as [|c0 rest]; [discriminate|].
    intros [= <-]. simpl. destruct (getRankValue (rank c0) =? 14); discriminate.
  - unfold checkFourOfAKind. destruct (find _ _); [|discriminate].
    rewrite Rank_toString_truthy. intros [= <-]. simpl. discriminate.
  - unfold checkFullHouse.
    destruct (find (rankCountIs _ 3) _); [|discriminate].
    destruct (find (rankCountIs _ 2) _); [|discriminate].
    rewrite !Rank_toString_truthy. intros [= <-]. simpl. discriminate.
  - unfold checkFlush. destruct (find _ _); [|discriminate].
    rewrite Suit_toString_truthy. destruct (filter _ _); [discriminate|].
    intros [= <-]. simpl. discriminate.
  - unfold checkStraight. destruct (find _ _).
    + intros [= <-]. simpl. discriminate.
    + destruct (_ && _); [|discriminate]. intros [= <-]. simpl. discriminate.
  - unfold checkThreeOfAKind. destruct (find _ _); [|discriminate].
    rewrite Rank_toString_truthy. intros [= <-]. simpl. discriminate.
  - unfold checkTwoPair. destruct (2 <=? _); [|discriminate].
    intros [= <-]. simpl. discriminate.
  - unfold checkPair. destruct (find _ _); [|discriminate].
    rewrite Rank_toString_truthy. intros [= <-]. simpl. discriminate.
  - unfold checkHighCard. destruct (slice0 5 _); [discriminate|].
    intros [= <-]. simpl. discriminate.
Qed.

(** X23: the "Hand Strength" panel of a player is rendered exactly when
    the cards are shown and the player has two of them. Before the flop
    (fewer than 3 community cards) it shows the placeholder,
    'Incomplete hand' at strength 0.1; from the flop on it shows an
    evaluation of the hole cards with the community cards, with another
    description and a higher strength. *)
Theorem panel_shows_placeholder_before_the_flop
        (showCards : bool) (playerCards communityCards : list Card) :
  (PlayerHand.showsHandStrength showCards playerCards communityCards = true
   <-> showCards = true /\ List.length playerCards = 2%nat)
  /\ (showCards = true -> List.length playerCards = 2%nat ->
      ((List.length communityCards < 3)%nat ->
       PlayerHand.handEvaluation showCards playerCards communityCards
       = Some (Return {| handType := "High Card";
                         handRank := 1;
                         kickers := [];
                         description := "Incomplete hand";
                         strength := 0.1 |}))
      /\ ((3 <= List.length communityCards)%nat ->
          exists h,
            PlayerHand.handEvaluation showCards playerCards communityCards
            = Some (Return h)
            /\ evaluateHand (playerCards ++ communityCards) = Return h
            /\ description h <> "Incomplete hand"%string
            /\ (0.1 < strength h)%Q)).
Proof.
  unfold PlayerHand.showsHandStrength, PlayerHand.handEvaluation. split.
  - destruct showCards; simpl.
    + destruct (Z.of_nat (List.length playerCards) =? 2) eqn:H2.
      * apply Z.eqb_eq in H2. split; [intros _; split; [reflexivity|lia]|reflexivity].
      * apply Z.eqb_neq in H2. split; [discriminate|]. intros [_ Hl]. lia.
    + split; [discriminate|]. intros [H _]. discriminate H.
  - intros -> Hl. simpl.
    assert ((Z.of_nat (List.length playerCards) =? 2) = true) as ->
      by (apply Z.eqb_eq; lia).
    split; intros Hc.
    + rewrite evaluateHand_short; [reflexivity|]. rewrite length_app. lia.
    + assert (Hlen : (5 <= List.length (playerCards ++ communityCards))%nat)
        by (rewrite length_app; lia).
      destruct (evaluateHand_total (playerCards ++ communityCards)) as [h Hh].
      exists h. rewrite Hh. repeat split.
      * now apply (description_is_not_incomplete (playerCards ++ communityCards)).
      * now apply (strength_above_placeholder (playerCards ++ communityCards)).
Qed.
End Panel.
